(** * The CMake Tools extension manager: folder arbitration and command dispatch

    A shallow embedding of [ExtensionManager] (the extension's startup file)
    and the properties of its multi-folder core.

    Conventions of the embedding.

    - The manager is one mutable object living in an editor; its fields, the
      folder controller it owns, the editor state it reads and the scripted
      answers of the user form the record [World], threaded by the state
      monad [M].
    - An [async] method is run to completion at the point where it is called:
      the extension has a single thread of control, and every driver operation
      is taken as atomic.  A promise that the source starts and does not
      await still runs here, its value being dropped exactly where the source
      drops it.
    - A reference to a session (a [CMakeTools] or [CMakeToolsFolder] object)
      is the file-system path of its folder, the key of the controller's
      table. *)

From Stdlib Require Import List String ZArith Bool Arith Lia.
Import ListNotations.

Local Open Scope list_scope.

Set Implicit Arguments.

(** ** Values *)

(** What a command can resolve to: the source types results as [any]. *)
Inductive JsVal : Type :=
| VUndefined
| VNull
| VBool (b : bool)
| VNum (n : Z)
| VStr (s : string)
| VObj (handle : nat).

(** The test performed by [if (retc)]. *)
Definition truthy (v : JsVal) : bool :=
  match v with
  | VUndefined | VNull => false
  | VBool b => b
  | VNum n => negb (n =? 0)%Z
  | VStr s => negb (String.eqb s EmptyString)
  | VObj _ => true
  end.

Definition FsPath := string.

Record WorkspaceFolder : Type := mkWorkspaceFolder {
  uri_fsPath : FsPath;
  name : string
}.

Record Kit : Type := mkKit { kit_name : string }.

(** One session: the part of a [CMakeTools] instance the manager reads. *)
Record CMakeTools : Type := mkCMakeTools {
  activeKit : option Kit;
  configureOnOpen : option bool;
  isBusy : bool
}.

Record CMakeToolsFolder : Type := mkCMakeToolsFolder {
  folder : WorkspaceFolder;
  cmakeTools : CMakeTools
}.

(** The operations of a session that the commands below forward to. *)
Inductive Method : Type :=
| Configure
| CleanConfigure
| Build (target : option string)
| Install
| CTest
| Stop
| DebugTarget (target : option string)
| LaunchTarget (target : option string).

(** [type CMakeToolsMapFn = (cmt: CMakeTools) => Thenable<any>]: what the
    call resolves to, and the session afterwards. *)
Definition CMakeToolsMapFn := CMakeTools -> JsVal * CMakeTools.

(** ** Subscriptions *)

Inductive Notification : Type :=
| StatusMessageChanged
| TargetNameChanged
| BuildTypeChanged
| LaunchTargetNameChanged
| CTestEnabledChanged
| TestResultsChanged
| IsBusyChanged
| CodeModelChanged
| ActiveTextEditorChanged.

Inductive FirePolicy : Type := FireNow | FireLate.

(** A registered listener; [sub_live] falls when its disposable is disposed. *)
Record Subscription : Type := mkSubscription {
  sub_source : option FsPath;
  sub_what : Notification;
  sub_policy : FirePolicy;
  sub_live : bool
}.

(** A [vscode.Disposable]: the dummy, or the handle of a listener. *)
Inductive Disposable : Type :=
| DummyDisposable
| Listener (id : nat).

(** ** The user and the editor *)

(** One showing of the kit quick-pick: the kit picked ([None] when the user
    dismisses the dialog), and the kits that [setKitByName] gave to folders
    while the dialog was open. *)
Record KitPrompt : Type := mkKitPrompt {
  kp_choice : option Kit;
  kp_meanwhile : list (FsPath * Kit)
}.

Record TextEditor : Type := mkTextEditor { document_uri : string }.

Record StatusBar : Type := mkStatusBar {
  sb_visible : bool;
  sb_activeFolderName : string;
  sb_activeKitName : string
}.

(** What the manager leaves behind in its collaborators. *)
Inductive Event : Type :=
| EvInvoke (cmt : FsPath) (result : JsVal)
| EvRollbarError (msg : string)
| EvLogTrace (msg : string)
| EvKitPick (cmt : FsPath)
| EvFolderPick
| EvConfigurePrompt (cmt : FsPath)
| EvPersistPrompt (cmt : FsPath) (doConfigure : bool)
| EvOutlineAddFolder (f : FsPath)
| EvOutlineRemoveFolder (f : FsPath)
| EvOutlineAddAll
| EvOutlineUpdate (f : FsPath)
| EvSessionDisposed (f : FsPath).

(** ** The world *)

Record World : Type := mkWorld {
  (* the editor *)
  workspaceFolders : option (list WorkspaceFolder);
  activeTextEditor : option TextEditor;
  workspaceState_activeFolder : option string;
  autoSelectActiveFolder : bool;
  CMT_TESTING : bool;
  (* the user *)
  folderPicks : list (option WorkspaceFolder);
  kitPrompts : list KitPrompt;
  configurePicks : list (option bool);
  (* the folder controller *)
  instances : list (FsPath * CMakeToolsFolder);
  activeFolderKey : option FsPath;
  (* the manager *)
  statusBar : StatusBar;
  statusSubs : list Disposable;
  onDidChangeActiveTextEditorSub : Disposable;
  codeModelUpdateSubs : list (FsPath * list Disposable);
  (* the listeners registered so far, and the log *)
  listeners : list Subscription;
  trace : list Event
}.

Definition set_workspaceFolders v (w : World) : World :=
  mkWorld v (activeTextEditor w) (workspaceState_activeFolder w)
    (autoSelectActiveFolder w) (CMT_TESTING w) (folderPicks w) (kitPrompts w)
    (configurePicks w) (instances w) (activeFolderKey w) (statusBar w)
    (statusSubs w) (onDidChangeActiveTextEditorSub w) (codeModelUpdateSubs w)
    (listeners w) (trace w).

Definition set_activeTextEditor v (w : World) : World :=
  mkWorld (workspaceFolders w) v (workspaceState_activeFolder w)
    (autoSelectActiveFolder w) (CMT_TESTING w) (folderPicks w) (kitPrompts w)
    (configurePicks w) (instances w) (activeFolderKey w) (statusBar w)
    (statusSubs w) (onDidChangeActiveTextEditorSub w) (codeModelUpdateSubs w)
    (listeners w) (trace w).

Definition set_workspaceState_activeFolder v (w : World) : World :=
  mkWorld (workspaceFolders w) (activeTextEditor w) v
    (autoSelectActiveFolder w) (CMT_TESTING w) (folderPicks w) (kitPrompts w)
    (configurePicks w) (instances w) (activeFolderKey w) (statusBar w)
    (statusSubs w) (onDidChangeActiveTextEditorSub w) (codeModelUpdateSubs w)
    (listeners w) (trace w).

Definition set_folderPicks v (w : World) : World :=
  mkWorld (workspaceFolders w) (activeTextEditor w) (workspaceState_activeFolder w)
    (autoSelectActiveFolder w) (CMT_TESTING w) v (kitPrompts w)
    (configurePicks w) (instances w) (activeFolderKey w) (statusBar w)
    (statusSubs w) (onDidChangeActiveTextEditorSub w) (codeModelUpdateSubs w)
    (listeners w) (trace w).

Definition set_kitPrompts v (w : World) : World :=
  mkWorld (workspaceFolders w) (activeTextEditor w) (workspaceState_activeFolder w)
    (autoSelectActiveFolder w) (CMT_TESTING w) (folderPicks w) v
    (configurePicks w) (instances w) (activeFolderKey w) (statusBar w)
    (statusSubs w) (onDidChangeActiveTextEditorSub w) (codeModelUpdateSubs w)
    (listeners w) (trace w).

Definition set_configurePicks v (w : World) : World :=
  mkWorld (workspaceFolders w) (activeTextEditor w) (workspaceState_activeFolder w)
    (autoSelectActiveFolder w) (CMT_TESTING w) (folderPicks w) (kitPrompts w)
    v (instances w) (activeFolderKey w) (statusBar w)
    (statusSubs w) (onDidChangeActiveTextEditorSub w) (codeModelUpdateSubs w)
    (listeners w) (trace w).

Definition set_instances v (w : World) : World :=
  mkWorld (workspaceFolders w) (activeTextEditor w) (workspaceState_activeFolder w)
    (autoSelectActiveFolder w) (CMT_TESTING w) (folderPicks w) (kitPrompts w)
    (configurePicks w) v (activeFolderKey w) (statusBar w)
    (statusSubs w) (onDidChangeActiveTextEditorSub w) (codeModelUpdateSubs w)
    (listeners w) (trace w).

Definition set_activeFolderKey v (w : World) : World :=
  mkWorld (workspaceFolders w) (activeTextEditor w) (workspaceState_activeFolder w)
    (autoSelectActiveFolder w) (CMT_TESTING w) (folderPicks w) (kitPrompts w)
    (configurePicks w) (instances w) v (statusBar w)
    (statusSubs w) (onDidChangeActiveTextEditorSub w) (codeModelUpdateSubs w)
    (listeners w) (trace w).

Definition set_statusBar v (w : World) : World :=
  mkWorld (workspaceFolders w) (activeTextEditor w) (workspaceState_activeFolder w)
    (autoSelectActiveFolder w) (CMT_TESTING w) (folderPicks w) (kitPrompts w)
    (configurePicks w) (instances w) (activeFolderKey w) v
    (statusSubs w) (onDidChangeActiveTextEditorSub w) (codeModelUpdateSubs w)
    (listeners w) (trace w).

Definition set_statusSubs v (w : World) : World :=
  mkWorld (workspaceFolders w) (activeTextEditor w) (workspaceState_activeFolder w)
    (autoSelectActiveFolder w) (CMT_TESTING w) (folderPicks w) (kitPrompts w)
    (configurePicks w) (instances w) (activeFolderKey w) (statusBar w)
    v (onDidChangeActiveTextEditorSub w) (codeModelUpdateSubs w)
    (listeners w) (trace w).

Definition set_onDidChangeActiveTextEditorSub v (w : World) : World :=
  mkWorld (workspaceFolders w) (activeTextEditor w) (workspaceState_activeFolder w)
    (autoSelectActiveFolder w) (CMT_TESTING w) (folderPicks w) (kitPrompts w)
    (configurePicks w) (instances w) (activeFolderKey w) (statusBar w)
    (statusSubs w) v (codeModelUpdateSubs w)
    (listeners w) (trace w).

Definition set_codeModelUpdateSubs v (w : World) : World :=
  mkWorld (workspaceFolders w) (activeTextEditor w) (workspaceState_activeFolder w)
    (autoSelectActiveFolder w) (CMT_TESTING w) (folderPicks w) (kitPrompts w)
    (configurePicks w) (instances w) (activeFolderKey w) (statusBar w)
    (statusSubs w) (onDidChangeActiveTextEditorSub w) v
    (listeners w) (trace w).

Definition set_listeners v (w : World) : World :=
  mkWorld (workspaceFolders w) (activeTextEditor w) (workspaceState_activeFolder w)
    (autoSelectActiveFolder w) (CMT_TESTING w) (folderPicks w) (kitPrompts w)
    (configurePicks w) (instances w) (activeFolderKey w) (statusBar w)
    (statusSubs w) (onDidChangeActiveTextEditorSub w) (codeModelUpdateSubs w)
    v (trace w).

Definition set_trace v (w : World) : World :=
  mkWorld (workspaceFolders w) (activeTextEditor w) (workspaceState_activeFolder w)
    (autoSelectActiveFolder w) (CMT_TESTING w) (folderPicks w) (kitPrompts w)
    (configurePicks w) (instances w) (activeFolderKey w) (statusBar w)
    (statusSubs w) (onDidChangeActiveTextEditorSub w) (codeModelUpdateSubs w)
    (listeners w) v.

(** ** The state monad *)

Definition M (A : Type) : Type := World -> A * World.

Definition ret {A : Type} (a : A) : M A := fun w => (a, w).

Definition bind {A B : Type} (m : M A) (k : A -> M B) : M B :=
  fun w => let (a, w1) := m w in k a w1.

Definition gets {A : Type} (f : World -> A) : M A := fun w => (f w, w).

Definition modify (f : World -> World) : M unit := fun w => (tt, f w).

Declare Scope mgr_scope.
Delimit Scope mgr_scope with mgr.

Notation "x <- m ;; k" := (bind m (fun x => k))
  (at level 100, m at next level, right associativity) : mgr_scope.
Notation "m ;;; k" := (bind m (fun _ => k))
  (at level 100, right associativity) : mgr_scope.

Local Open Scope mgr_scope.

Definition when (b : bool) (m : M unit) : M unit := if b then m else ret tt.

(** The log grows at its end. *)
Definition log (e : Event) : M unit :=
  modify (fun w => set_trace (trace w ++ [e]) w).

(** ** Tables keyed by path: the [Map<string, _>] of the source

    Insertion order is the order of iteration; a key occurs once. *)

Fixpoint lookup (V : Type) (k : FsPath) (t : list (FsPath * V)) : option V :=
  match t with
  | [] => None
  | (k', v) :: rest => if String.eqb k k' then Some v else lookup k rest
  end.

(** [Map.set]: an existing key keeps its place. *)
Fixpoint table_set (V : Type) (k : FsPath) (v : V) (t : list (FsPath * V))
  : list (FsPath * V) :=
  match t with
  | [] => [(k, v)]
  | (k', v') :: rest =>
      if String.eqb k k' then (k, v) :: rest else (k', v') :: table_set k v rest
  end.

(** [Map.delete]. *)
Fixpoint table_delete (V : Type) (k : FsPath) (t : list (FsPath * V))
  : list (FsPath * V) :=
  match t with
  | [] => []
  | (k', v') :: rest =>
      if String.eqb k k' then table_delete k rest else (k', v') :: table_delete k rest
  end.

Definition keys (V : Type) (t : list (FsPath * V)) : list FsPath := map fst t.

Definition has_key (V : Type) (k : FsPath) (t : list (FsPath * V)) : bool :=
  match lookup k t with Some _ => true | None => false end.

(** ** Sessions behind references *)

(** Reading through a reference.  A reference whose folder has left the
    table denotes a disposed session: it shows no kit and ignores calls. *)
Definition session (cmt : FsPath) (w : World) : option CMakeTools :=
  option_map cmakeTools (lookup cmt (instances w)).

(** [cmt.activeKit], as a condition. *)
Definition hasActiveKit (cmt : FsPath) (w : World) : bool :=
  match session cmt w with
  | Some c => match activeKit c with Some _ => true | None => false end
  | None => false
  end.

(** [cmt.activeKit?.name || ''] *)
Definition activeKitName (cmt : option FsPath) (w : World) : string :=
  match cmt with
  | Some c =>
      match session c w with
      | Some s => match activeKit s with Some k => kit_name k | None => EmptyString end
      | None => EmptyString
      end
  | None => EmptyString
  end.

(** Sessions are mutated in place: the entry keeps its key and its folder. *)
Definition update_session (cmt : FsPath) (f : CMakeTools -> CMakeTools)
  (t : list (FsPath * CMakeToolsFolder)) : list (FsPath * CMakeToolsFolder) :=
  map (fun e => if String.eqb cmt (fst e)
                then (fst e, mkCMakeToolsFolder (folder (snd e)) (f (cmakeTools (snd e))))
                else e) t.

Definition with_kit (k : option Kit) (c : CMakeTools) : CMakeTools :=
  mkCMakeTools k (configureOnOpen c) (isBusy c).

(** [await fn(cmt)]: the operation runs on the session, which keeps what
    the operation did to it; the log records the call and its result. *)
Definition call (fn : CMakeToolsMapFn) (cmt : FsPath) : M JsVal :=
  fun w =>
    match session cmt w with
    | Some c =>
        let (r, c') := fn c in
        (r, set_trace (trace w ++ [EvInvoke cmt r])
              (set_instances (update_session cmt (fun _ => c') (instances w)) w))
    | None => (VUndefined, w)
    end.

(** The calls of operations recorded in a log, oldest first. *)
Fixpoint invocations (t : list Event) : list (FsPath * JsVal) :=
  match t with
  | [] => []
  | EvInvoke c r :: rest => (c, r) :: invocations rest
  | _ :: rest => invocations rest
  end.

(** ** The folder controller *)

(** [this._folders.activeFolder]: the reference held by the controller. *)
Definition folders_activeFolder (w : World) : option FsPath := activeFolderKey w.

(** Modelled from the spec: the registry's [get] of [CMakeToolsFolderController]
    (the [@cmt/folders] module is missing): the session registered under the
    folder's identity, or absent. *)
Definition folders_get (ws : option WorkspaceFolder) (w : World) : option FsPath :=
  match ws with
  | Some f => if has_key (uri_fsPath f) (instances w) then Some (uri_fsPath f) else None
  | None => None
  end.

(** Modelled from the spec: [setActive(folderKey)] of the missing controller.
    The pointer names a key of the registry or is empty, so it is set by
    looking the folder up. *)
Definition folders_setActiveFolder (ws : option WorkspaceFolder) : M unit :=
  modify (fun w => set_activeFolderKey (folders_get ws w) w).

(** Modelled from the spec: [iterate()] of the missing controller, the
    sessions in registry order. *)
Definition folders_iterate (w : World) : list FsPath := keys (instances w).

Inductive RegistryError : Type := DuplicateFolder.

(** Modelled from the spec: [add(folderKey)] of the missing controller.  It
    fails with [DuplicateFolder] when the key is present; otherwise the new
    session is registered and the "added" event is emitted to the subscriber
    before the call completes. *)
Definition folders_add (onAfterAddFolder : FsPath -> M unit)
  (ws : WorkspaceFolder) (fresh : CMakeTools) : M (RegistryError + FsPath) :=
  present <- gets (fun w => has_key (uri_fsPath ws) (instances w)) ;;
  if present then ret (inl DuplicateFolder)
  else
    modify (fun w => set_instances
                       (instances w ++ [(uri_fsPath ws, mkCMakeToolsFolder ws fresh)]) w) ;;;
    onAfterAddFolder (uri_fsPath ws) ;;;
    ret (inr (uri_fsPath ws)).

(** Modelled from the spec: [remove(folderKey)] of the missing controller.
    Nothing happens when the key is absent; otherwise the session is
    disposed, and the "removed" event carrying the folder is emitted after
    the disposal. *)
Definition folders_remove (onAfterRemoveFolder : WorkspaceFolder -> M unit)
  (ws : WorkspaceFolder) : M unit :=
  present <- gets (fun w => has_key (uri_fsPath ws) (instances w)) ;;
  if present then
    modify (fun w => set_instances (table_delete (uri_fsPath ws) (instances w)) w) ;;;
    log (EvSessionDisposed (uri_fsPath ws)) ;;;
    onAfterRemoveFolder ws
  else ret tt.

(** ** Disposables *)

Fixpoint kill (id : nat) (l : list Subscription) : list Subscription :=
  match l, id with
  | [], _ => []
  | s :: rest, O =>
      mkSubscription (sub_source s) (sub_what s) (sub_policy s) false :: rest
  | s :: rest, S n => s :: kill n rest
  end.

Definition dispose (d : Disposable) : M unit :=
  match d with
  | DummyDisposable => ret tt
  | Listener id => modify (fun w => set_listeners (kill id (listeners w)) w)
  end.

Fixpoint dispose_each (ds : list Disposable) : M unit :=
  match ds with
  | [] => ret tt
  | d :: rest => dispose d ;;; dispose_each rest
  end.

(** [source.onXChanged(policy, callback)] *)
Definition subscribe (src : option FsPath) (what : Notification) (pol : FirePolicy)
  : M Disposable :=
  fun w => (Listener (List.length (listeners w)),
            set_listeners (listeners w ++ [mkSubscription src what pol true]) w).

(** Whether a disposable still stands for a registered, undisposed listener. *)
Definition is_live (d : Disposable) (w : World) : bool :=
  match d with
  | DummyDisposable => false
  | Listener id =>
      match nth_error (listeners w) id with
      | Some s => sub_live s
      | None => false
      end
  end.

(** ** The user's dialogs *)

(** [vscode.window.showWorkspaceFolderPick()]: the next scripted answer; a
    dialog without an answer left is dismissed. *)
Definition showWorkspaceFolderPick : M (option WorkspaceFolder) :=
  fun w =>
    match folderPicks w with
    | [] => (None, set_trace (trace w ++ [EvFolderPick]) w)
    | a :: rest => (a, set_trace (trace w ++ [EvFolderPick]) (set_folderPicks rest w))
    end.

(** The "Would you like to configure this project?" message: [Some b] is the
    button with [doConfigure = b]. *)
Definition showConfigurePrompt (cmt : FsPath) : M (option bool) :=
  fun w =>
    match configurePicks w with
    | [] => (None, set_trace (trace w ++ [EvConfigurePrompt cmt]) w)
    | a :: rest =>
        (a, set_trace (trace w ++ [EvConfigurePrompt cmt]) (set_configurePicks rest w))
    end.

Definition set_kit (cmt : FsPath) (k : Kit) (w : World) : World :=
  set_instances (update_session cmt (with_kit (Some k)) (instances w)) w.

(** Modelled from the spec: the kit catalog's [selectKit() -> chosen kit name
    | none] of the missing [kitsController], for the folder it belongs to.
    A kit reaches a session only through this selection or through the
    kit-by-name operation, which may run while the dialog is open. *)
Definition kitsController_selectKit (cmt : FsPath) : M (option string) :=
  fun w =>
    match kitPrompts w with
    | [] => (None, set_trace (trace w ++ [EvKitPick cmt]) w)
    | p :: rest =>
        let w1 := set_trace (trace w ++ [EvKitPick cmt]) (set_kitPrompts rest w) in
        let w2 := fold_left (fun acc e => set_kit (fst e) (snd e) acc) (kp_meanwhile p) w1 in
        match kp_choice p with
        | Some k => (Some (kit_name k), set_kit cmt k w2)
        | None => (None, w2)
        end
    end.

(** ** The status bar *)

Definition statusBar_setVisible (b : bool) : M unit :=
  modify (fun w => set_statusBar
    (mkStatusBar b (sb_activeFolderName (statusBar w)) (sb_activeKitName (statusBar w))) w).

Definition statusBar_setActiveFolderName (s : string) : M unit :=
  modify (fun w => set_statusBar
    (mkStatusBar (sb_visible (statusBar w)) s (sb_activeKitName (statusBar w))) w).

Definition statusBar_setActiveKitName (s : string) : M unit :=
  modify (fun w => set_statusBar
    (mkStatusBar (sb_visible (statusBar w)) (sb_activeFolderName (statusBar w)) s) w).

(** The seven status-bar notifications, in the order of the fields
    [_statusMessageSub] ... [_isBusySub]. *)
Definition statusNotifications : list Notification :=
  [StatusMessageChanged; TargetNameChanged; BuildTypeChanged; LaunchTargetNameChanged;
   CTestEnabledChanged; TestResultsChanged; IsBusyChanged].

(** ** The extension manager *)

Section Manager.

(** The collaborators outside the manager: the driver behind each session,
    the session the controller constructs for a folder, and the editor's
    [vscode.workspace.getWorkspaceFolder]. *)
Variable driver : Method -> CMakeToolsMapFn.
Variable loadSession : WorkspaceFolder -> CMakeTools.
Variable getWorkspaceFolder :
  option (list WorkspaceFolder) -> string -> option WorkspaceFolder.

(** The manager as its constructor leaves it. *)
Definition new_ExtensionManager
  (wsf : option (list WorkspaceFolder)) (editor : option TextEditor)
  (saved : option string) (autoSelect testing : bool)
  (picks : list (option WorkspaceFolder)) (kits : list KitPrompt)
  (cfgs : list (option bool)) : World :=
  mkWorld wsf editor saved autoSelect testing picks kits cfgs
    [] None
    (mkStatusBar false EmptyString EmptyString)
    (map (fun _ => DummyDisposable) statusNotifications)
    DummyDisposable [] [] [].

Definition _checkFolderArgs (folder : option WorkspaceFolder) (w : World)
  : option FsPath :=
  match folder with
  | Some _ => folders_get folder w
  | None => folders_activeFolder w
  end.

Definition _disposeSubs : M unit :=
  subs <- gets statusSubs ;;
  dispose_each subs.

Fixpoint subscribe_each (cmt : FsPath) (pol : FirePolicy) (ns : list Notification)
  : M (list Disposable) :=
  match ns with
  | [] => ret []
  | n :: rest =>
      d <- subscribe (Some cmt) n pol ;;
      ds <- subscribe_each cmt pol rest ;;
      ret (d :: ds)
  end.

Definition _setupSubscriptions : M unit :=
  _disposeSubs ;;;
  folder <- gets folders_activeFolder ;;
  match folder with
  | None =>
      statusBar_setVisible false ;;;
      modify (set_statusSubs (map (fun _ => DummyDisposable) statusNotifications)) ;;;
      statusBar_setActiveKitName EmptyString
  | Some cmt =>
      statusBar_setVisible true ;;;
      subs <- subscribe_each cmt FireNow statusNotifications ;;
      modify (set_statusSubs subs) ;;;
      kit <- gets (activeKitName (Some cmt)) ;;
      statusBar_setActiveKitName kit
  end.

Definition _setActiveFolder (ws : option WorkspaceFolder) : M unit :=
  folders_setActiveFolder ws ;;;
  statusBar_setActiveFolderName (match ws with Some f => name f | None => EmptyString end) ;;;
  kit <- gets (fun w => activeKitName (folders_activeFolder w) w) ;;
  statusBar_setActiveKitName kit ;;;
  _setupSubscriptions.

(** The outline is refreshed; the navigation data handed to the C++ tooling
    lies outside this development. *)
Definition _updateCodeModel (folder : FsPath) : M unit :=
  log (EvOutlineUpdate folder).

Definition selectKit (folder : option WorkspaceFolder) : M bool :=
  testing <- gets CMT_TESTING ;;
  if testing then
    log (EvLogTrace "Running CMakeTools in test mode. selectKit is disabled."%string) ;;;
    ret false
  else
    cmtFolder <- gets (_checkFolderArgs folder) ;;
    match cmtFolder with
    | None => ret false
    | Some cf =>
        kitName <- kitsController_selectKit cf ;;
        active <- gets folders_activeFolder ;;
        (match active with
         | Some a =>
             has <- gets (hasActiveKit a) ;;
             if has then
               kit <- gets (activeKitName (Some a)) ;;
               statusBar_setActiveKitName kit
             else ret tt
         | None => ret tt
         end) ;;;
        ret (match kitName with
             | Some s => negb (String.eqb s EmptyString)
             | None => false
             end)
    end.

Definition _ensureActiveKit (cmt : option FsPath) : M bool :=
  active <- gets folders_activeFolder ;;
  match (match cmt with Some c => Some c | None => active end) with
  | None => ret false
  | Some c =>
      has <- gets (hasActiveKit c) ;;
      if has then ret true
      else
        did_choose_kit <- selectKit None ;;
        has' <- gets (hasActiveKit c) ;;
        if negb did_choose_kit && negb has' then ret false
        else ret has'
  end.

Definition _postWorkspaceOpen (info : FsPath) : M unit :=
  cfg <- gets (fun w => match session info w with
                        | Some c => configureOnOpen c
                        | None => None
                        end) ;;
  testing <- gets CMT_TESTING ;;
  decided <-
    (match cfg, testing with
     | None, false =>
         chosen <- showConfigurePrompt info ;;
         match chosen with
         | None => ret None
         | Some doConfigure =>
             log (EvPersistPrompt info doConfigure) ;;;
             ret (Some doConfigure)
         end
     | None, true => ret (Some false)
     | Some b, _ => ret (Some b)
     end) ;;
  match decided with
  | None => ret tt
  | Some should_configure =>
      if should_configure then
        ok <- _ensureActiveKit (Some info) ;;
        if ok then
          call (driver Configure) info ;;;
          _updateCodeModel info
        else ret tt
      else _updateCodeModel info
  end.

Definition _onDidChangeActiveTextEditor (editor : option TextEditor) : M unit :=
  wsf <- gets workspaceFolders ;;
  match wsf with
  | None => ret tt
  | Some _ =>
      match (match editor with
             | Some e => getWorkspaceFolder wsf (document_uri e)
             | None => None
             end) with
      | None => ret tt
      | Some ws =>
          active <- gets folders_activeFolder ;;
          if (match active with
              | None => true
              | Some a => negb (String.eqb (uri_fsPath ws) a)
              end)
          then _setActiveFolder (Some ws)
          else ret tt
      end
  end.

(** How a call ends: normally, or with the [TypeError] of reading a property
    of [undefined]. *)
Inductive Completion : Type := Completed | TypeError.

Definition selectActiveFolder : M Completion :=
  wsf <- gets workspaceFolders ;;
  autoSelect <- gets autoSelectActiveFolder ;;
  if (match wsf with Some (_ :: _) => true | _ => false end) && negb autoSelect then
    lastActiveFolderPath <- gets folders_activeFolder ;;
    selection <- showWorkspaceFolderPick ;;
    match selection with
    | None => ret Completed
    | Some sel =>
        _setActiveFolder (Some sel) ;;;
        current <- gets folders_activeFolder ;;
        match current with
        | None => ret TypeError
        | Some currentActiveFolderPath =>
            modify (set_workspaceState_activeFolder (Some currentActiveFolderPath)) ;;;
            (if (match lastActiveFolderPath with
                 | Some l => negb (String.eqb l currentActiveFolderPath)
                 | None => true
                 end)
             then _postWorkspaceOpen currentActiveFolderPath
             else ret tt) ;;;
            ret Completed
        end
    end
  else ret Completed.

Definition _initActiveFolder : M unit :=
  editor <- gets activeTextEditor ;;
  autoSelect <- gets autoSelectActiveFolder ;;
  if (match editor with Some _ => true | None => false end) && autoSelect then
    _onDidChangeActiveTextEditor editor
  else
    path <- gets workspaceState_activeFolder ;;
    wsf <- gets workspaceFolders ;;
    let folder :=
      match path with
      | Some p => if String.eqb p EmptyString then None else getWorkspaceFolder wsf p
      | None => None
      end in
    _setActiveFolder (match folder with
                      | Some f => Some f
                      | None => match wsf with Some (f :: _) => Some f | _ => None end
                      end).

(** The three listeners that keep the outline of one folder current. *)
Definition codeModelNotifications : list Notification :=
  [CodeModelChanged; TargetNameChanged; LaunchTargetNameChanged].

(** The handler given to [onAfterAddFolder] by the constructor. *)
Definition onAfterAddFolder (info : FsPath) : M unit :=
  wsf <- gets workspaceFolders ;;
  (match wsf with
   | Some [f] => _setActiveFolder (Some f)
   | _ => ret tt
   end) ;;;
  log (EvOutlineAddFolder info) ;;;
  known <- gets (fun w => has_key info (codeModelUpdateSubs w)) ;;
  (if known then ret tt
   else
     subs <- subscribe_each info FireLate codeModelNotifications ;;
     modify (fun w => set_codeModelUpdateSubs (table_set info subs (codeModelUpdateSubs w)) w)) ;;;
  _postWorkspaceOpen info.

(** The handler given to [onAfterRemoveFolder] by the constructor. *)
Definition onAfterRemoveFolder (info : WorkspaceFolder) : M unit :=
  modify (fun w => set_codeModelUpdateSubs
                     (table_delete (uri_fsPath info) (codeModelUpdateSubs w)) w) ;;;
  wsf <- gets workspaceFolders ;;
  active <- gets folders_activeFolder ;;
  (match wsf with
   | Some (f :: _) =>
       if (match active with
           | Some a => String.eqb a (uri_fsPath info)
           | None => false
           end)
       then _setActiveFolder (Some f)
       else ret tt
   | _ => _setActiveFolder None
   end) ;;;
  log (EvOutlineRemoveFolder (uri_fsPath info)).

(** Modelled from the spec: the initial load of the missing controller.  A
    session is registered for every folder open in the editor; the handlers
    of "added" are not run, [_init] wiring these sessions itself. *)
Fixpoint loadAllCurrent (wsf : list WorkspaceFolder) : M unit :=
  match wsf with
  | [] => ret tt
  | f :: rest =>
      modify (fun w =>
        if has_key (uri_fsPath f) (instances w) then w
        else set_instances
               (instances w ++ [(uri_fsPath f, mkCMakeToolsFolder f (loadSession f))]) w) ;;;
      loadAllCurrent rest
  end.

Fixpoint _init_folders (fs : list FsPath) : M unit :=
  match fs with
  | [] => ret tt
  | cmtFolder :: rest =>
      subs <- subscribe_each cmtFolder FireLate codeModelNotifications ;;
      modify (fun w => set_codeModelUpdateSubs
                         (table_set cmtFolder subs (codeModelUpdateSubs w)) w) ;;;
      _postWorkspaceOpen cmtFolder ;;;
      _init_folders rest
  end.

Definition _init : M unit :=
  wsf <- gets workspaceFolders ;;
  match wsf with
  | None => ret tt
  | Some current =>
      loadAllCurrent current ;;;
      log EvOutlineAddAll ;;;
      sub <- subscribe None ActiveTextEditorChanged FireLate ;;
      modify (set_onDidChangeActiveTextEditorSub sub) ;;;
      _initActiveFolder ;;;
      fs <- gets folders_iterate ;;
      _init_folders fs
  end.

(** [ExtensionManager.create]: the constructor, then [_init]. *)
Definition create
  (wsf : option (list WorkspaceFolder)) (editor : option TextEditor)
  (saved : option string) (autoSelect testing : bool)
  (picks : list (option WorkspaceFolder)) (kits : list KitPrompt)
  (cfgs : list (option bool)) : World :=
  snd (_init (new_ExtensionManager wsf editor saved autoSelect testing picks kits cfgs)).

Fixpoint dispose_sessions (fs : list FsPath) : M unit :=
  match fs with
  | [] => ret tt
  | f :: rest => log (EvSessionDisposed f) ;;; dispose_sessions rest
  end.

Definition asyncDispose : M unit :=
  _disposeSubs ;;;
  table <- gets codeModelUpdateSubs ;;
  dispose_each (List.concat (map snd table)) ;;;
  editorSub <- gets onDidChangeActiveTextEditorSub ;;
  dispose editorSub ;;;
  fs <- gets folders_iterate ;;
  dispose_sessions fs.

(** ** The command dispatcher *)

(** The three ways [mapCMakeTools] is called: with [undefined] for the
    session, with a session, and with the function alone. *)
Inductive MapTarget : Type :=
| OnActive
| OnSession (cmt : FsPath)
| OnAll.

Fixpoint mapCMakeTools_all (fn : CMakeToolsMapFn) (fs : list FsPath) : M JsVal :=
  match fs with
  | [] => ret (VNum 0)
  | folder :: rest =>
      ok <- _ensureActiveKit (Some folder) ;;
      if ok then
        retc <- call fn folder ;;
        if truthy retc then ret retc
        else mapCMakeTools_all fn rest
      else ret (VNum (-1))
  end.

Definition mapCMakeTools (cmt : MapTarget) (fn : CMakeToolsMapFn) : M JsVal :=
  match cmt with
  | OnActive =>
      activeFolder <- gets folders_activeFolder ;;
      match activeFolder with
      | Some a =>
          ok <- _ensureActiveKit (Some a) ;;
          if ok then call fn a
          else ret (VNum (-1))
      | None =>
          log (EvRollbarError "No active foler."%string) ;;;
          ret (VNum 0)
      end
  | OnSession c =>
      ok <- _ensureActiveKit (Some c) ;;
      if ok then call fn c
      else ret (VNum (-1))
  | OnAll =>
      fs <- gets folders_iterate ;;
      mapCMakeTools_all fn fs
  end.

(** The body is the statement [this.mapCMakeTools(...);]: the call is made,
    and the method ends without a [return]. *)
Definition mapCMakeToolsFolder (folder : option WorkspaceFolder) (fn : CMakeToolsMapFn)
  : M JsVal :=
  cmt <- gets (folders_get folder) ;;
  mapCMakeTools (match cmt with Some c => OnSession c | None => OnActive end) fn ;;;
  ret VUndefined.

Definition cleanConfigure (folder : option WorkspaceFolder) : M JsVal :=
  mapCMakeToolsFolder folder (driver CleanConfigure).

Definition cleanConfigureAll : M JsVal := mapCMakeTools OnAll (driver CleanConfigure).

Definition configure (folder : option WorkspaceFolder) : M JsVal :=
  mapCMakeToolsFolder folder (driver Configure).

Definition configureAll : M JsVal := mapCMakeTools OnAll (driver Configure).

Definition build (folder : option WorkspaceFolder) (target : option string) : M JsVal :=
  mapCMakeToolsFolder folder (driver (Build target)).

Definition buildAll (target : option string) : M JsVal :=
  mapCMakeTools OnAll (driver (Build target)).

Definition install (folder : option WorkspaceFolder) : M JsVal :=
  mapCMakeToolsFolder folder (driver Install).

Definition installAll : M JsVal := mapCMakeTools OnAll (driver Install).

Definition clean (folder : option WorkspaceFolder) : M JsVal :=
  build folder (Some "clean"%string).

Definition cleanAll : M JsVal := buildAll (Some "clean"%string).

Definition cleanRebuild (folder : option WorkspaceFolder) : M JsVal :=
  retc <- build folder (Some "clean"%string) ;;
  if truthy retc then ret retc
  else build folder None.

Definition cleanRebuildAll : M JsVal :=
  retc <- buildAll (Some "clean"%string) ;;
  if truthy retc then ret retc
  else buildAll None.

Definition ctest (folder : option WorkspaceFolder) : M JsVal :=
  mapCMakeToolsFolder folder (driver CTest).

Definition ctestAll : M JsVal := mapCMakeTools OnAll (driver CTest).

Definition stop (folder : option WorkspaceFolder) : M JsVal :=
  mapCMakeToolsFolder folder (driver Stop).

Definition stopAll : M JsVal := mapCMakeTools OnAll (driver Stop).

(** The loop shared by [debugTargetAll] and [launchTargetAll]: two pushes
    for every folder of the controller.  [if (cmtFolder)] tests an object
    and is always taken. *)
Fixpoint targetAll_loop (fn : CMakeToolsMapFn) (fs : list FsPath) (acc : list JsVal)
  : M (list JsVal) :=
  match fs with
  | [] => ret acc
  | cmtFolder :: rest =>
      r <- mapCMakeTools (OnSession cmtFolder) fn ;;
      targetAll_loop fn rest ((acc ++ [r]) ++ [VNull])
  end.

Definition debugTargetAll (target : option string) : M (list JsVal) :=
  fs <- gets folders_iterate ;;
  targetAll_loop (driver (DebugTarget target)) fs [].


(** ** What happens to the manager *)

(** The editor changes its folders: [now] is the list it shows once the
    change is made, and the controller drops the removed folders before it
    loads the added ones.  The editor moves the focus.  The user runs the
    folder selection, or a command on all folders or on one. *)
Inductive Action : Type :=
| FoldersChanged (now : option (list WorkspaceFolder))
    (removed added : list WorkspaceFolder)
| EditorFocused (editor : option TextEditor)
| SelectActiveFolder
| RunOnAll (m : Method)
| RunOnFolder (folder : option WorkspaceFolder) (m : Method).

Fixpoint remove_each (fs : list WorkspaceFolder) : M unit :=
  match fs with
  | [] => ret tt
  | f :: rest => folders_remove onAfterRemoveFolder f ;;; remove_each rest
  end.

Fixpoint add_each (fs : list WorkspaceFolder) : M unit :=
  match fs with
  | [] => ret tt
  | f :: rest => folders_add onAfterAddFolder f (loadSession f) ;;; add_each rest
  end.

(** A focus change reaches the manager through the listener that [_init]
    registered, as long as that listener stands. *)
Definition deliver_focus (editor : option TextEditor) : M unit :=
  modify (set_activeTextEditor editor) ;;;
  registered <- gets (fun w => is_live (onDidChangeActiveTextEditorSub w) w) ;;
  if registered then _onDidChangeActiveTextEditor editor else ret tt.

Definition step (a : Action) : M unit :=
  match a with
  | FoldersChanged now removed added =>
      modify (set_workspaceFolders now) ;;;
      remove_each removed ;;;
      add_each added
  | EditorFocused editor => deliver_focus editor
  | SelectActiveFolder => selectActiveFolder ;;; ret tt
  | RunOnAll m => mapCMakeTools OnAll (driver m) ;;; ret tt
  | RunOnFolder folder m => mapCMakeToolsFolder folder (driver m) ;;; ret tt
  end.

Fixpoint run (actions : list Action) (w : World) : World :=
  match actions with
  | [] => w
  | a :: rest => run rest (snd (step a w))
  end.

End Manager.

(** ** Predicates of the statements *)

(** The active-folder pointer is empty or names a key of the registry. *)
Definition active_registered (w : World) : Prop :=
  match activeFolderKey w with
  | None => True
  | Some k => In k (keys (instances w))
  end.

(** The session a single-target dispatch acts on. *)
Definition dispatch_target (t : MapTarget) (w : World) : option FsPath :=
  match t with
  | OnActive => folders_activeFolder w
  | OnSession c => Some c
  | OnAll => None
  end.

(** The next showing of the kit dialog, if it comes to that, is dismissed,
    and nothing else hands a kit to session [cmt] in the meantime. *)
Definition kit_selection_declined (cmt : FsPath) (w : World) : Prop :=
  match kitPrompts w with
  | [] => True
  | p :: _ => kp_choice p = None /\ ~ In cmt (map fst (kp_meanwhile p))
  end.

Definition falsy_call (c : FsPath * JsVal) : Prop := truthy (snd c) = false.



(** ** Concrete collaborators and situations *)

Module Demo.

Local Open Scope string_scope.

Definition gcc : Kit := mkKit "gcc".
Definition broken : Kit := mkKit "broken".
Definition dirty : Kit := mkKit "dirty".

Definition kit_is (k : Kit) (c : CMakeTools) : bool :=
  match activeKit c with
  | Some k' => String.eqb (kit_name k) (kit_name k')
  | None => false
  end.

(** A driver: builds fail with code 1 under the kit [broken]; cleaning fails
    with code 1 under the kit [dirty]; everything else succeeds. *)
Definition driver (m : Method) (c : CMakeTools) : JsVal * CMakeTools :=
  match m with
  | Build (Some t) =>
      if kit_is broken c then (VNum 1, c)
      else if String.eqb t "clean" && kit_is dirty c then (VNum 1, c)
      else (VNum 0, c)
  | Build None => if kit_is broken c then (VNum 1, c) else (VNum 0, c)
  | DebugTarget _ => (VObj 1, c)
  | LaunchTarget _ => (VObj 2, c)
  | _ => (VNum 0, c)
  end.

Definition folderA : WorkspaceFolder := mkWorkspaceFolder "/a" "a".
Definition folderB : WorkspaceFolder := mkWorkspaceFolder "/b" "b".
Definition folderC : WorkspaceFolder := mkWorkspaceFolder "/c" "c".

(** Sessions come up configured not to prompt on open; folder [/b] comes up
    with the kit [broken], folder [/c] with [dirty], the others with [gcc]. *)
Definition loadSession (f : WorkspaceFolder) : CMakeTools :=
  mkCMakeTools
    (Some (if String.eqb (uri_fsPath f) "/b" then broken
           else if String.eqb (uri_fsPath f) "/c" then dirty
           else gcc))
    (Some false) false.

(** Sessions that come up without a kit. *)
Definition loadBare (f : WorkspaceFolder) : CMakeTools :=
  mkCMakeTools None (Some false) false.

(** The folder of the editor containing the document. *)
Definition getWorkspaceFolder (wsf : option (list WorkspaceFolder)) (uri : string)
  : option WorkspaceFolder :=
  match wsf with
  | Some l => find (fun f => String.prefix (uri_fsPath f) uri) l
  | None => None
  end.

(** The extension started on the given folders: no editor in focus, nothing
    saved, no scripted answers. *)
Definition started (load : WorkspaceFolder -> CMakeTools) (autoSelect : bool)
  (wsf : list WorkspaceFolder) : World :=
  create driver load getWorkspaceFolder (Some wsf) None None autoSelect false [] [] [].

(** No folder open. *)
Definition empty_window : World :=
  create driver loadSession getWorkspaceFolder None None None false false [] [] [].

(** Folders [/a], [/b] and [/c]: the three sessions of the fail-fast
    scenario, succeeding, failing and succeeding. *)
Definition three_folders : World := started loadSession false [folderA; folderB; folderC].

Definition one_folder : World := started loadSession false [folderA].

Definition failing_folder : World := started loadSession false [folderB].

Definition dirty_folder : World := started loadSession false [folderC].

Definition two_folders (autoSelect : bool) : World :=
  started loadSession autoSelect [folderA; folderB].

(** The user is about to pick [/b] in the folder dialog. *)
Definition about_to_pick_b (autoSelect : bool) : World :=
  set_folderPicks [Some folderB] (two_folders autoSelect).

(** Folder [/a] is closed while [/b] stays open. *)
Definition a_closed : World :=
  snd (step driver loadSession getWorkspaceFolder
         (FoldersChanged (Some [folderB]) [folderA] []) (two_folders false)).

(** Folder [/a] has no kit, and the user will dismiss the kit dialog. *)
Definition kitless_declining : World :=
  set_kitPrompts [mkKitPrompt None []] (started loadBare false [folderA]).

End Demo.


(** A live listener on the code-model-changed notification of session [cmt]. *)
Definition code_model_listener (cmt : FsPath) (s : Subscription) : bool :=
  sub_live s
  && match sub_source s with Some c => String.eqb c cmt | None => false end
  && match sub_what s with CodeModelChanged => true | _ => false end.

Definition code_model_listening (cmt : FsPath) (w : World) : bool :=
  existsb (code_model_listener cmt) (listeners w).

(** ** What a computation leaves alone *)

(** [relates R m]: running [m] takes every world to an [R]-related one. *)
Definition relates (R : World -> World -> Prop) (A : Type) (m : M A) : Prop :=
  forall w, R w (snd (m w)).

(** The registry keeps its keys, the pointer its value, and the saved
    folder stays as it is. *)
Definition same_registry (w w' : World) : Prop :=
  keys (instances w') = keys (instances w) /\
  activeFolderKey w' = activeFolderKey w /\
  workspaceState_activeFolder w' = workspaceState_activeFolder w.

(** The registry keeps its keys, and the pointer either stays or ends up on
    a registered key. *)
Definition pointer_settled (w w' : World) : Prop :=
  keys (instances w') = keys (instances w) /\
  (activeFolderKey w' = activeFolderKey w \/ active_registered w').

(** No operation is called on any session. *)
Definition no_call (w w' : World) : Prop :=
  invocations (trace w') = invocations (trace w).

Notation keeps := (relates same_registry).
Notation settles := (relates pointer_settled).
Notation quiet := (relates no_call).

(** * The rest of the manager *)

Section Commands.

Variable getWorkspaceFolder :
  option (list WorkspaceFolder) -> string -> option WorkspaceFolder.

(** ** Queries *)

(** A folder given to a query: the folder itself, or its URI as a string. *)
Inductive FolderArg : Type :=
| FolderObject (ws : WorkspaceFolder)
| FolderString (uri : string).

Definition _checkStringFolderArgs (folder : FolderArg) (w : World)
  : option WorkspaceFolder :=
  match folder with
  | FolderString s => getWorkspaceFolder (workspaceFolders w) s
  | FolderObject f => Some f
  end.

(** [mapQueryCMakeTools]: no kit check; a workspace folder without a session
    falls through to [null] without a report. *)
Definition mapQueryCMakeTools (folder : FolderArg) (fn : CMakeToolsMapFn) : M JsVal :=
  workspaceFolder <- gets (_checkStringFolderArgs folder) ;;
  match workspaceFolder with
  | Some f =>
      cmtFolder <- gets (folders_get (Some f)) ;;
      match cmtFolder with
      | Some c => call fn c
      | None => ret VNull
      end
  | None =>
      log (EvRollbarError "Invalid folder."%string) ;;;
      ret VNull
  end.

(** The queries a session answers. *)
Inductive Query : Type :=
| LaunchTargetPath
| LaunchTargetDirectory
| CurrentBuildType
| BuildDirectory
| TasksBuildCommand.

Variable query : Query -> CMakeToolsMapFn.

Definition launchTargetPath (folder : FolderArg) : M JsVal :=
  mapQueryCMakeTools folder (query LaunchTargetPath).

Definition launchTargetDirectory (folder : FolderArg) : M JsVal :=
  mapQueryCMakeTools folder (query LaunchTargetDirectory).

Definition buildType (folder : FolderArg) : M JsVal :=
  mapQueryCMakeTools folder (query CurrentBuildType).

Definition buildDirectory (folder : FolderArg) : M JsVal :=
  mapQueryCMakeTools folder (query BuildDirectory).

Definition tasksBuildCommand (folder : FolderArg) : M JsVal :=
  mapQueryCMakeTools folder (query TasksBuildCommand).

(** ** Kits by name *)

(** What the kit controller of a folder does to its session when asked to
    set the kit of a given name. *)
Variable kitsController_setKitByName : string -> CMakeTools -> CMakeTools.

Definition setKitByName_on (kitName : string) (cmt : FsPath) : M unit :=
  modify (fun w => set_instances
    (update_session cmt (kitsController_setKitByName kitName) (instances w)) w).

Fixpoint setKitByName_each (kitName : string) (fs : list FsPath) : M unit :=
  match fs with
  | [] => ret tt
  | cmtFolder :: rest =>
      setKitByName_on kitName cmtFolder ;;;
      setKitByName_each kitName rest
  end.

Definition setKitByName (kitName : string) (folder : option WorkspaceFolder) : M unit :=
  (match folder with
   | Some _ =>
       cmt <- gets (folders_get folder) ;;
       match cmt with
       | Some c => setKitByName_on kitName c
       | None => ret tt
       end
   | None =>
       fs <- gets folders_iterate ;;
       setKitByName_each kitName fs
   end) ;;;
  active <- gets folders_activeFolder ;;
  match active with
  | Some a =>
      has <- gets (hasActiveKit a) ;;
      if has then
        kit <- gets (activeKitName (Some a)) ;;
        statusBar_setActiveKitName kit
      else ret tt
  | None => ret tt
  end.

(** ** Scanning for kits *)

(** [kit.visualStudio], a field of the kit the record [Kit] does not carry. *)
Variable visualStudio : Kit -> option string.

(** [definition && (definition.startsWith("VisualStudio.15") ||
    definition.startsWith("VisualStudio.16"))] *)
Definition old_definition (k : Kit) : bool :=
  match visualStudio k with
  | Some definition =>
      String.prefix "VisualStudio.15" definition
      || String.prefix "VisualStudio.16" definition
  | None => false
  end.

(** The body of the loop: [setFolderActiveKit(null)], which unsets the kit
    of the session, on a session whose kit is of the old definition. *)
Definition unset_old_kit (c : CMakeTools) : CMakeTools :=
  match activeKit c with
  | Some k => if old_definition k then with_kit None c else c
  | None => c
  end.

Fixpoint scanForKits_each (fs : list FsPath) : M unit :=
  match fs with
  | [] => ret tt
  | cmtFolder :: rest =>
      modify (fun w => set_instances
                (update_session cmtFolder unset_old_kit (instances w)) w) ;;;
      scanForKits_each rest
  end.

(** [scanForKits], given what the scan of the kit catalog answers.  The
    directories handed to the catalog beforehand are [_getMinGWDirs], below;
    they stay with the catalog. *)
Definition scanForKits (duplicateRemoved : bool) : M unit :=
  if duplicateRemoved then
    fs <- gets folders_iterate ;;
    scanForKits_each fs
  else ret tt.

(** ** MinGW search directories *)

Variable workspace_mingwSearchDirs : list string.
Variable mingwSearchDirs : CMakeTools -> list string.

(** [Set.add]: a member is not added again; new members go last. *)
Definition set_add (d : string) (s : list string) : list string :=
  if existsb (String.eqb d) s then s else s ++ [d].

Definition set_add_all (ds : list string) (s : list string) : list string :=
  fold_left (fun acc d => set_add d acc) ds s.

Definition _getMinGWDirs (w : World) : list string :=
  fold_left (fun result e => set_add_all (mingwSearchDirs (cmakeTools (snd e))) result)
    (instances w)
    (set_add_all workspace_mingwSearchDirs []).

(** ** Compiling one file *)

Variable tryCompileFile : string -> CMakeToolsMapFn.

(** The three ways [compileFile] ends: with the terminal of the first folder
    that knows the file, with [null] when there is no file to compile, and
    off its end after [showErrorMessage] told the user, with the message
    given, that nothing was found. *)
Inductive CompileOutcome : Type :=
| CompileTerminal (term : JsVal)
| CompileNull
| CompileNotFound (message : string).

Fixpoint compileFile_loop (file : string) (fs : list FsPath) : M CompileOutcome :=
  match fs with
  | [] =>
      ret (CompileNotFound "Unable to find compilation information for this file"%string)
  | folder :: rest =>
      term <- call (tryCompileFile file) folder ;;
      if truthy term then ret (CompileTerminal term)
      else compileFile_loop file rest
  end.

(** [file] is the path given, that of a URI included; the empty string
    counts as no file. *)
Definition compileFile (file : option string) : M CompileOutcome :=
  editor <- gets activeTextEditor ;;
  match (match file with
         | Some f => if String.eqb f EmptyString then None else Some f
         | None => None
         end) with
  | Some f =>
      fs <- gets folders_iterate ;;
      compileFile_loop f fs
  | None =>
      match editor with
      | None => ret CompileNull
      | Some e =>
          fs <- gets folders_iterate ;;
          compileFile_loop (document_uri e) fs
      end
  end.

End Commands.

(** * Telemetry *)

Module Telemetry.

Record PackageJSON : Type := mkPackageJSON {
  publisher : string;
  name : string;
  version : string
}.

Record IPackageInfo : Type := mkPackageInfo {
  info_name : string;
  info_version : string;
  aiKey : string
}.

Record TelemetryEvent : Type := mkTelemetryEvent {
  eventName : string;
  properties : list (string * string);
  measures : list (string * Z)
}.

(** A reporter: how it was constructed, whether it was disposed, and the
    events handed to [sendTelemetryEvent], oldest first. *)
Record TelemetryReporter : Type := mkReporter {
  extensionId : string;
  extensionVersion : string;
  key : string;
  disposed : bool;
  sent : list TelemetryEvent
}.

(** The module variable [telemetryReporter], and how many disposables the
    module pushed onto [context.subscriptions]. *)
Record State : Type := mkState {
  telemetryReporter : option TelemetryReporter;
  pushed : nat
}.

Definition initial : State := mkState None 0.

(** [util.thisExtensionPackage()] is the argument: [None] when it throws. *)
Definition getPackageInfo (packageJSON : option PackageJSON) : option IPackageInfo :=
  match packageJSON with
  | Some p =>
      Some (mkPackageInfo (publisher p ++ "." ++ name p)%string (version p)
              "AIF-d9b70cd4-b9f9-4d70-929b-a071c400b217")
  | None => None
  end.

(** [None] is an exception; [Some None] is the [null] reporter. *)
Definition createReporter (packageJSON : option PackageJSON)
  : option (option TelemetryReporter) :=
  match getPackageInfo packageJSON with
  | Some packageInfo =>
      if negb (String.eqb (aiKey packageInfo) EmptyString) then
        Some (Some (mkReporter (info_name packageInfo) (info_version packageInfo)
                      (aiKey packageInfo) false []))
      else Some None
  | None => None
  end.

Definition activate (packageJSON : option PackageJSON) (s : State) : State :=
  match createReporter packageJSON with
  | Some (Some r) => mkState (Some r) (S (pushed s))
  | Some None => mkState None (pushed s)
  | None => s
  end.

Definition deactivate (s : State) : State :=
  match telemetryReporter s with
  | Some r =>
      mkState (Some (mkReporter (extensionId r) (extensionVersion r) (key r) true (sent r)))
        (pushed s)
  | None => s
  end.

Definition logEvent (e : TelemetryEvent) (s : State) : State :=
  match telemetryReporter s with
  | Some r =>
      mkState (Some (mkReporter (extensionId r) (extensionVersion r) (key r)
                       (disposed r) (sent r ++ [e])))
        (pushed s)
  | None => s
  end.

Definition logEvents (es : list TelemetryEvent) (s : State) : State :=
  fold_left (fun acc e => logEvent e acc) es s.

(** The events a state has sent, none without a reporter. *)
Definition sent_events (s : State) : list TelemetryEvent :=
  match telemetryReporter s with
  | Some r => sent r
  | None => []
  end.

End Telemetry.

(** * The smoke-test runner *)

Module Smoke.

(** An item of the test specification.  The specification is read from a
    YAML file, so an item may carry a type the runner does not know. *)
Inductive TestRunSpecItem : Type :=
| RunSetKit (kit : option string)
| RunConfigure (ok : bool)
| RunBuild (ok : bool)
| RunUnknown (type : string).

(** The double-quote character, as a string. *)
Definition dquote : string :=
  String (Ascii.Ascii false true false false false true false false) EmptyString.

(** How a step ends: normally, or by throwing an [Error] with a message. *)
Inductive StepResult : Type :=
| Done
| Threw (message : string).

Section Runner.

(** The extension under test: [cmt.privSetKit], [cmt.configure] and
    [cmt.build], the last two resolving to an exit code. *)
Variable privSetKit : option string -> CMakeTools -> CMakeTools.
Variable cmt_configure : CMakeTools -> Z * CMakeTools.
Variable cmt_build : CMakeTools -> Z * CMakeTools.

Definition doSetKit (kit : option string) (cmt : CMakeTools) : StepResult * CMakeTools :=
  (Done, privSetKit kit cmt).

Definition doConfigure (ok : bool) (cmt : CMakeTools) : StepResult * CMakeTools :=
  let (res, cmt') := cmt_configure cmt in
  if ok && negb (res =? 0)%Z then
    (Threw "Expected CMake configure to succeed, but it failed.", cmt')
  else if negb ok && (res =? 0)%Z then
    (Threw "Expected CMake configure to fail, but it did succeeded", cmt')
  else (Done, cmt').

Definition doBuild (ok : bool) (cmt : CMakeTools) : StepResult * CMakeTools :=
  let (res, cmt') := cmt_build cmt in
  if ok && negb (res =? 0)%Z then
    (Threw "Expected CMake buidl to succeed, but it failed.", cmt')
  else if negb ok && (res =? 0)%Z then
    (Threw "Expected CMake build to fail, but it did succeeded", cmt')
  else (Done, cmt').

Definition runOne (run : TestRunSpecItem) (cmt : CMakeTools) : StepResult * CMakeTools :=
  match run with
  | RunSetKit kit => doSetKit kit cmt
  | RunConfigure ok => doConfigure ok cmt
  | RunBuild ok => doBuild ok cmt
  | RunUnknown type =>
      (Threw ("Invalid run type in test specification " ++ dquote ++ type ++ dquote)%string,
       cmt)
  end.

(** The loop of [asyncRun] over [spec.run]. *)
Fixpoint asyncRun (spec : list TestRunSpecItem) (cmt : CMakeTools)
  : StepResult * CMakeTools :=
  match spec with
  | [] => (Done, cmt)
  | run :: rest =>
      match runOne run cmt with
      | (Done, cmt') => asyncRun rest cmt'
      | (Threw e, cmt') => (Threw e, cmt')
      end
  end.

(** An item is in order on a session when the exit code it gets is the one
    it expects. *)
Definition as_expected (run : TestRunSpecItem) (cmt : CMakeTools) : Prop :=
  match run with
  | RunSetKit _ => True
  | RunConfigure ok => ok = true <-> fst (cmt_configure cmt) = 0%Z
  | RunBuild ok => ok = true <-> fst (cmt_build cmt) = 0%Z
  | RunUnknown _ => False
  end.

(** The extension as the items leave it, each run on what the one before
    left. *)
Fixpoint state_after (spec : list TestRunSpecItem) (cmt : CMakeTools) : CMakeTools :=
  match spec with
  | [] => cmt
  | run :: rest => state_after rest (snd (runOne run cmt))
  end.

(** Every item is in order on the extension as the items before it left
    it. *)
Fixpoint all_as_expected (spec : list TestRunSpecItem) (cmt : CMakeTools) : Prop :=
  match spec with
  | [] => True
  | run :: rest => as_expected run cmt /\ all_as_expected rest (snd (runOne run cmt))
  end.

End Runner.

End Smoke.

(** * More situations *)

Module Cases.

Local Open Scope string_scope.

Definition clang : Kit := mkKit "clang".

(** Folders [/a] and [/b] open without kits, [/a] active; the user will pick
    the kit [clang] in the kit dialog. *)
Definition kitless_picking : World :=
  set_kitPrompts [mkKitPrompt (Some clang) []]
    (Demo.started Demo.loadBare false [Demo.folderA; Demo.folderB]).

(** The same folders without kits, the extension running under test. *)
Definition kitless_testing : World :=
  create Demo.driver Demo.loadBare Demo.getWorkspaceFolder
    (Some [Demo.folderA; Demo.folderB]) None None false true
    [] [mkKitPrompt (Some clang) []] [].

(** A session answers every query with the same string. *)
Definition query (q : Query) (c : CMakeTools) : JsVal * CMakeTools :=
  (VStr "/a/build", c).

(** A folder open nowhere. *)
Definition folderZ : WorkspaceFolder := mkWorkspaceFolder "/z" "z".

(** Folders [/a] and [/b] open, [/a] active, and [/b] saved as the active
    folder of the workspace. *)
Definition b_saved : World :=
  set_workspaceState_activeFolder (Some "/b") (Demo.two_folders false).

(** The user is about to dismiss the folder dialog. *)
Definition about_to_cancel : World :=
  set_folderPicks [None] (Demo.two_folders false).

(** The user is about to pick a folder for which there is no session. *)
Definition about_to_pick_z : World :=
  set_folderPicks [Some folderZ] (Demo.two_folders false).

(** Sessions that come up asking to be configured on open. *)
Definition loadEager (f : WorkspaceFolder) : CMakeTools :=
  mkCMakeTools (Some Demo.gcc) (Some true) false.

(** Folder [/a] open, with a kit and [configureOnOpen] set. *)
Definition eager_folder : World :=
  set_instances [("/a", mkCMakeToolsFolder Demo.folderA (loadEager Demo.folderA))]
    Demo.one_folder.

(** The kit controller finds a kit for every name. *)
Definition kitByName (kitName : string) (c : CMakeTools) : CMakeTools :=
  with_kit (Some (mkKit kitName)) c.

(** The kit [vs2017] was defined by Visual Studio 15; no other kit comes
    from Visual Studio. *)
Definition vs2017 : Kit := mkKit "vs2017".

Definition visualStudio (k : Kit) : option string :=
  if String.eqb (kit_name k) "vs2017" then Some "VisualStudio.15.0" else None.

(** Folders [/a] and [/b] open, [/a] with the kit [vs2017], [/b] with
    [broken]. *)
Definition vs_folders : World :=
  set_kit "/a" vs2017 (Demo.two_folders false).

(** Every session searches MinGW in [/mingw] and in a directory of its own
    kit's name. *)
Definition mingwSearchDirs (c : CMakeTools) : list string :=
  ["/mingw"; match activeKit c with Some k => kit_name k | None => "none" end].

(** Only a session with the kit [gcc] knows how to compile a file. *)
Definition tryCompileFile (file : string) (c : CMakeTools) : JsVal * CMakeTools :=
  (if Demo.kit_is Demo.gcc c then VObj 3 else VNull, c).

(** An extension under test: setting a kit by name takes it, configuring
    fails with code 1 without a kit, building fails with code 2 under the kit
    [broken]. *)
Definition privSetKit (kit : option string) (c : CMakeTools) : CMakeTools :=
  with_kit (option_map mkKit kit) c.

Definition cmt_configure (c : CMakeTools) : Z * CMakeTools :=
  (match activeKit c with Some _ => 0%Z | None => 1%Z end, c).

Definition cmt_build (c : CMakeTools) : Z * CMakeTools :=
  (if Demo.kit_is Demo.broken c then 2%Z else 0%Z, c).

(** Folder [/b] comes up without a kit, the others as usual. *)
Definition loadMixed (f : WorkspaceFolder) : CMakeTools :=
  if String.eqb (uri_fsPath f) "/b" then Demo.loadBare f else Demo.loadSession f.

(** Folders [/a], [/b] and [/c] open, [/b] without a kit; the user will
    dismiss the kit dialog. *)
Definition b_kitless_declining : World :=
  set_kitPrompts [mkKitPrompt None []]
    (Demo.started loadMixed false [Demo.folderA; Demo.folderB; Demo.folderC]).

End Cases.

(** * More predicates *)

(** The disposables the manager holds: the status listeners, the listeners
    of its code-model table, and the focus listener. *)
Definition tracked (w : World) : list Disposable :=
  statusSubs w ++ List.concat (map snd (codeModelUpdateSubs w))
  ++ [onDidChangeActiveTextEditorSub w].

(** No listener that was released is live again. *)
Definition never_revives (w w' : World) : Prop :=
  forall d, is_live d w' = true -> is_live d w = true.

(** The handle belongs to a listener registered so far. *)
Definition handle_valid (d : Disposable) (w : World) : Prop :=
  match d with
  | DummyDisposable => True
  | Listener id => (id < List.length (listeners w))%nat
  end.

(** The registry keeps its keys and the manager its code-model table. *)
Definition same_tables (w w' : World) : Prop :=
  keys (instances w') = keys (instances w) /\
  codeModelUpdateSubs w' = codeModelUpdateSubs w.

(** The code-model table has an entry for exactly the registered folders. *)
Definition tables_agree (w : World) : Prop :=
  forall k, has_key k (codeModelUpdateSubs w) = has_key k (instances w).

(** The listeners once the given disposables are disposed, in order. *)
Fixpoint kill_each (ds : list Disposable) (l : list Subscription) : list Subscription :=
  match ds with
  | [] => l
  | DummyDisposable :: rest => kill_each rest l
  | Listener id :: rest => kill_each rest (kill id l)
  end.

(** The disposable stands for a live listener on session [cmt] that asked
    for the current value at once. *)
Definition status_listener_on (cmt : FsPath) (w : World) (d : Disposable) : Prop :=
  match d with
  | DummyDisposable => False
  | Listener id =>
      exists s, nth_error (listeners w) id = Some s /\
                sub_live s = true /\ sub_source s = Some cmt /\ sub_policy s = FireNow
  end.


(** ** Calls as they were made *)

(** One call of an operation: the session reference, the world in which the
    operation was called, and the session as the operation found it. *)
Record Visit : Type := mkVisit {
  v_cmt : FsPath;
  v_world : World;
  v_session : CMakeTools
}.

(** What the log shows of the call: the reference, and what the operation
    resolved to on the session it found. *)
Definition visit_call (fn : CMakeToolsMapFn) (v : Visit) : FsPath * JsVal :=
  (v_cmt v, fst (fn (v_session v))).

(** The world the call leaves: the session is what the operation made of
    it, the log has the call, and nothing else moved. *)
Definition after_visit (fn : CMakeToolsMapFn) (v : Visit) : World :=
  set_trace (trace (v_world v) ++ [EvInvoke (v_cmt v) (fst (fn (v_session v)))])
    (set_instances
       (update_session (v_cmt v) (fun _ => snd (fn (v_session v)))
          (instances (v_world v)))
       (v_world v)).

(** The calls follow one another from world [w]: each is made in the world
    that [prepare] makes of the world the call before left, on the session
    its reference denotes there. *)
Fixpoint visits_from (prepare : FsPath -> World -> World) (fn : CMakeToolsMapFn)
  (visits : list Visit) (w : World) : Prop :=
  match visits with
  | [] => True
  | v :: rest =>
      v_world v = prepare (v_cmt v) w /\
      session (v_cmt v) (v_world v) = Some (v_session v) /\
      visits_from prepare fn rest (after_visit fn v)
  end.

(** The world the last of the calls leaves. *)
Fixpoint world_after (fn : CMakeToolsMapFn) (visits : list Visit) (w : World) : World :=
  match visits with
  | [] => w
  | v :: rest => world_after fn rest (after_visit fn v)
  end.

(** The world once the kit check of session [cmt] has run, its dialog
    included. *)
Definition kit_checked (cmt : FsPath) (w : World) : World :=
  snd (_ensureActiveKit (Some cmt) w).

(** Nothing happens between two calls. *)
Definition unprepared (cmt : FsPath) (w : World) : World := w.

(** The operation found a session with a kit. *)
Definition has_kit (v : Visit) : Prop := activeKit (v_session v) <> None.

(** The file [compileFile] looks up: the path it was given or, without one,
    the document of the editor in focus. *)
Definition file_to_compile (file : option string) (w : World) : option string :=
  match file with
  | Some f =>
      if String.eqb f EmptyString then option_map document_uri (activeTextEditor w)
      else Some f
  | None => option_map document_uri (activeTextEditor w)
  end.
(** * Properties *)

(** ** Tables *)

Lemma lookup_In_keys (V : Type) (k : FsPath) (t : list (FsPath * V)) :
  In k (keys t) -> exists v, lookup k t = Some v.
Proof.
  induction t as [|[k' v'] t IH]; simpl; [tauto|].
  intros [Heq | Hin].
  - subst. rewrite String.eqb_refl. eauto.
  - destruct (String.eqb k k'); eauto.
Qed.

Lemma lookup_Some_In_keys (V : Type) (k : FsPath) (t : list (FsPath * V)) (v : V) :
  lookup k t = Some v -> In k (keys t).
Proof.
  induction t as [|[k' v'] t IH]; simpl; [discriminate|].
  destruct (String.eqb_spec k k') as [->|Hne]; auto.
Qed.

Lemma has_key_In_keys (V : Type) (k : FsPath) (t : list (FsPath * V)) :
  has_key k t = true <-> In k (keys t).
Proof.
  unfold has_key. split.
  - destruct (lookup k t) eqn:E; [|discriminate].
    intros _. eapply lookup_Some_In_keys; eauto.
  - intros H. destruct (lookup_In_keys _ _ H) as [v ->]. reflexivity.
Qed.

Lemma In_keys_table_delete (V : Type) (k x : FsPath) (t : list (FsPath * V)) :
  In k (keys t) -> k <> x -> In k (keys (table_delete x t)).
Proof.
  induction t as [|[k' v'] t IH]; simpl; [tauto|].
  intros [Heq | Hin] Hne.
  - subst k'. destruct (String.eqb_spec x k) as [->|_]; [congruence|]. simpl. auto.
  - destruct (String.eqb x k'); simpl; auto.
Qed.

Lemma keys_app (V : Type) (t1 t2 : list (FsPath * V)) :
  keys (t1 ++ t2) = keys t1 ++ keys t2.
Proof. unfold keys. apply map_app. Qed.

Lemma keys_update_session cmt f t : keys (update_session cmt f t) = keys t.
Proof.
  unfold keys, update_session. rewrite map_map. apply map_ext.
  intros [k v]. simpl. destruct (String.eqb cmt k); reflexivity.
Qed.

Lemma lookup_update_session_other cmt c f t :
  c <> cmt -> lookup c (update_session cmt f t) = lookup c t.
Proof.
  intros Hne. induction t as [|[k v] t IH]; simpl; [reflexivity|].
  destruct (String.eqb_spec cmt k) as [->|Hk]; simpl.
  - destruct (String.eqb_spec c k); [congruence|]. exact IH.
  - rewrite IH. reflexivity.
Qed.

(** ** The log *)

Lemma invocations_app t1 t2 :
  invocations (t1 ++ t2) = invocations t1 ++ invocations t2.
Proof.
  induction t1 as [|e t1 IH]; simpl; [reflexivity|].
  destruct e; simpl; rewrite ?IH; reflexivity.
Qed.

Lemma truthy_num (n : Z) : truthy (VNum n) = true <-> n <> 0%Z.
Proof.
  simpl. rewrite negb_true_iff. apply Z.eqb_neq.
Qed.

Lemma fst_bind (A B : Type) (m : M A) (k : A -> M B) (w : World) :
  fst (bind m k w) = fst (k (fst (m w)) (snd (m w))).
Proof. unfold bind. destruct (m w). reflexivity. Qed.

Lemma snd_bind (A B : Type) (m : M A) (k : A -> M B) (w : World) :
  snd (bind m k w) = snd (k (fst (m w)) (snd (m w))).
Proof. unfold bind. destruct (m w). reflexivity. Qed.

(** ** Frames compose *)

Section Frame.

Variable R : World -> World -> Prop.
Hypothesis R_refl : forall w, R w w.
Hypothesis R_trans : forall w1 w2 w3, R w1 w2 -> R w2 w3 -> R w1 w3.

Lemma relates_ret (A : Type) (a : A) : relates R (ret a).
Proof. intros w. apply R_refl. Qed.

Lemma relates_gets (A : Type) (f : World -> A) : relates R (gets f).
Proof. intros w. apply R_refl. Qed.

Lemma relates_bind (A B : Type) (m : M A) (k : A -> M B) :
  relates R m -> (forall a, relates R (k a)) -> relates R (bind m k).
Proof.
  intros Hm Hk w. unfold bind. specialize (Hm w).
  destruct (m w) as [a w1]. simpl in Hm.
  eapply R_trans; [exact Hm | apply Hk].
Qed.

End Frame.

Arguments relates_ret {R} R_refl {A} a.
Arguments relates_gets {R} R_refl {A} f.
Arguments relates_bind {R} R_trans {A B m k}.

Lemma same_registry_refl w : same_registry w w.
Proof. repeat split. Qed.

Lemma same_registry_trans w1 w2 w3 :
  same_registry w1 w2 -> same_registry w2 w3 -> same_registry w1 w3.
Proof.
  intros (a & b & c) (d & e & f). repeat split; congruence.
Qed.

Lemma pointer_settled_refl w : pointer_settled w w.
Proof. split; auto. Qed.

Lemma pointer_settled_trans w1 w2 w3 :
  pointer_settled w1 w2 -> pointer_settled w2 w3 -> pointer_settled w1 w3.
Proof.
  intros [k1 p1] [k2 p2]. split; [congruence|].
  destruct p2 as [p2|p2]; [|now right].
  destruct p1 as [p1|p1]; [left; congruence|].
  right. unfold active_registered in *. rewrite p2, k2. exact p1.
Qed.

Lemma no_call_refl w : no_call w w.
Proof. reflexivity. Qed.

Lemma no_call_trans w1 w2 w3 : no_call w1 w2 -> no_call w2 w3 -> no_call w1 w3.
Proof. unfold no_call. congruence. Qed.

Lemma keeps_settles (A : Type) (m : M A) : keeps m -> settles m.
Proof. intros H w. destruct (H w) as (a & b & _). split; auto. Qed.

Lemma settles_invariant (A : Type) (m : M A) w :
  settles m -> active_registered w -> active_registered (snd (m w)).
Proof.
  intros H Hw. destruct (H w) as [Hk [Hp|Hp]]; [|exact Hp].
  unfold active_registered in *. rewrite Hp, Hk. exact Hw.
Qed.

(** The steps of a frame proof: split binds and branches, close the leaves
    by the frames already known or by computation. *)
Create HintDb frame.

Ltac frame_leaf :=
  solve [ auto with frame
        | apply keeps_settles; auto with frame
        | intros ?w; cbv [same_registry pointer_settled no_call modify log snd];
          simpl; rewrite ?invocations_app; simpl; rewrite ?app_nil_r; auto ].

Ltac frame_step :=
  match goal with
  | |- keeps (bind _ _) =>
      apply (relates_bind same_registry_trans); [ | intros ? ]
  | |- settles (bind _ _) =>
      apply (relates_bind pointer_settled_trans); [ | intros ? ]
  | |- quiet (bind _ _) =>
      apply (relates_bind no_call_trans); [ | intros ? ]
  | |- keeps (ret _) => apply (relates_ret same_registry_refl)
  | |- settles (ret _) => apply (relates_ret pointer_settled_refl)
  | |- quiet (ret _) => apply (relates_ret no_call_refl)
  | |- keeps (gets _) => apply (relates_gets same_registry_refl)
  | |- settles (gets _) => apply (relates_gets pointer_settled_refl)
  | |- quiet (gets _) => apply (relates_gets no_call_refl)
  | |- _ (if ?b then _ else _) => destruct b
  | |- _ (match ?x with _ => _ end) => destruct x
  end.

Ltac frame := repeat frame_step; try frame_leaf.

Lemma keeps_log e : keeps (log e).
Proof. frame. Qed.

Lemma keeps_dispose d : keeps (dispose d).
Proof. unfold dispose. frame. Qed.

Lemma keeps_subscribe src what pol : keeps (subscribe src what pol).
Proof. intros w. repeat split. Qed.

#[local] Hint Resolve keeps_log keeps_dispose keeps_subscribe : frame.

Lemma keeps_dispose_each ds : keeps (dispose_each ds).
Proof. induction ds; cbn [dispose_each]; frame. Qed.

Lemma keeps_subscribe_each cmt pol ns : keeps (subscribe_each cmt pol ns).
Proof. induction ns; cbn [subscribe_each]; frame. Qed.

Lemma keeps_statusBar_setVisible b : keeps (statusBar_setVisible b).
Proof. unfold statusBar_setVisible. frame. Qed.

Lemma keeps_statusBar_setActiveFolderName s : keeps (statusBar_setActiveFolderName s).
Proof. unfold statusBar_setActiveFolderName. frame. Qed.

Lemma keeps_statusBar_setActiveKitName s : keeps (statusBar_setActiveKitName s).
Proof. unfold statusBar_setActiveKitName. frame. Qed.

Lemma quiet_statusBar_setActiveKitName s : quiet (statusBar_setActiveKitName s).
Proof. unfold statusBar_setActiveKitName. frame. Qed.

#[local] Hint Resolve keeps_dispose_each keeps_subscribe_each keeps_statusBar_setVisible
  keeps_statusBar_setActiveFolderName keeps_statusBar_setActiveKitName
  quiet_statusBar_setActiveKitName : frame.

Lemma keeps_showWorkspaceFolderPick : keeps showWorkspaceFolderPick.
Proof. intros w. unfold showWorkspaceFolderPick. destruct (folderPicks w); repeat split. Qed.

Lemma keeps_showConfigurePrompt cmt : keeps (showConfigurePrompt cmt).
Proof. intros w. unfold showConfigurePrompt. destruct (configurePicks w); repeat split. Qed.

Lemma set_kit_same_registry cmt k w : same_registry w (set_kit cmt k w).
Proof.
  unfold same_registry, set_kit. simpl. rewrite keys_update_session. auto.
Qed.

Lemma fold_set_kit_same_registry l w :
  same_registry w (fold_left (fun acc e => set_kit (fst e) (snd e) acc) l w).
Proof.
  revert w. induction l as [|e l IH]; intros w; simpl.
  - apply same_registry_refl.
  - eapply same_registry_trans; [apply set_kit_same_registry | apply IH].
Qed.

Lemma fold_set_kit_trace l w :
  trace (fold_left (fun acc e => set_kit (fst e) (snd e) acc) l w) = trace w.
Proof.
  revert w. induction l as [|e l IH]; intros w; simpl; [reflexivity|].
  rewrite IH. reflexivity.
Qed.

Lemma keeps_kitsController_selectKit cmt : keeps (kitsController_selectKit cmt).
Proof.
  intros w. unfold kitsController_selectKit.
  destruct (kitPrompts w) as [|p rest]; [repeat split|].
  destruct (kp_choice p); simpl.
  - eapply same_registry_trans; [|apply set_kit_same_registry].
    eapply same_registry_trans; [|apply fold_set_kit_same_registry].
    repeat split.
  - eapply same_registry_trans; [|apply fold_set_kit_same_registry].
    repeat split.
Qed.

Lemma quiet_kitsController_selectKit cmt : quiet (kitsController_selectKit cmt).
Proof.
  intros w. unfold kitsController_selectKit, no_call.
  destruct (kitPrompts w) as [|p rest]; simpl.
  - rewrite invocations_app. simpl. apply app_nil_r.
  - destruct (kp_choice p); simpl; rewrite fold_set_kit_trace; simpl;
      rewrite invocations_app; simpl; apply app_nil_r.
Qed.

#[local] Hint Resolve keeps_showWorkspaceFolderPick keeps_showConfigurePrompt
  keeps_kitsController_selectKit quiet_kitsController_selectKit : frame.

Lemma keeps_selectKit folder : keeps (selectKit folder).
Proof. unfold selectKit. frame. Qed.

Lemma quiet_selectKit folder : quiet (selectKit folder).
Proof. unfold selectKit. frame. Qed.

#[local] Hint Resolve keeps_selectKit quiet_selectKit : frame.

Lemma keeps_ensureActiveKit cmt : keeps (_ensureActiveKit cmt).
Proof. unfold _ensureActiveKit. frame. Qed.

Lemma quiet_ensureActiveKit cmt : quiet (_ensureActiveKit cmt).
Proof. unfold _ensureActiveKit. frame. Qed.

Lemma keeps_call fn cmt : keeps (call fn cmt).
Proof.
  intros w. unfold call. destruct (session cmt w); [|repeat split].
  destruct (fn c). unfold same_registry. simpl. rewrite keys_update_session. auto.
Qed.

#[local] Hint Resolve keeps_ensureActiveKit quiet_ensureActiveKit keeps_call : frame.

(** ** Calls and the kit check *)

Lemma call_invokes fn cmt w :
  In cmt (keys (instances w)) ->
  invocations (trace (snd (call fn cmt w)))
  = invocations (trace w) ++ [(cmt, fst (call fn cmt w))].
Proof.
  intros Hin. unfold call, session.
  destruct (lookup_In_keys _ _ Hin) as [cf ->]. simpl.
  destruct (fn (cmakeTools cf)) as [r c']. simpl.
  rewrite invocations_app. reflexivity.
Qed.

(** A failed kit check leaves the session without a kit. *)
Lemma ensureActiveKit_false cmt w :
  fst (_ensureActiveKit (Some cmt) w) = false ->
  hasActiveKit cmt (snd (_ensureActiveKit (Some cmt) w)) = false.
Proof.
  unfold _ensureActiveKit, bind, gets, ret. simpl.
  destruct (hasActiveKit cmt w) eqn:Hk; simpl; [discriminate|].
  destruct (selectKit None w) as [did w1]. simpl.
  destruct (hasActiveKit cmt w1) eqn:Hk1; destruct did; simpl; congruence.
Qed.

(** The loop of the all-folders dispatch, from any point of the registry. *)
Lemma mapCMakeTools_all_calls fn fs :
  forall w r w',
    incl fs (keys (instances w)) ->
    mapCMakeTools_all fn fs w = (r, w') ->
    exists calls,
      invocations (trace w') = invocations (trace w) ++ calls /\
      map fst calls = firstn (List.length calls) fs /\
      Forall falsy_call (removelast calls) /\
      ((r = VNum 0 /\ List.length calls = List.length fs /\ Forall falsy_call calls)
       \/ (truthy r = true /\ exists earlier cmt, calls = earlier ++ [(cmt, r)])
       \/ (r = VNum (-1) /\ Forall falsy_call calls /\
           exists cmt,
             nth_error fs (List.length calls) = Some cmt /\
             hasActiveKit cmt w' = false)).
Proof.
  induction fs as [|f rest IH]; intros w r w' Hincl Hrun.
  - injection Hrun as <- <-. exists []. simpl. rewrite app_nil_r.
    split; [reflexivity|]. split; [reflexivity|]. split; [constructor|].
    left. split; [reflexivity|]. split; [reflexivity|constructor].
  - cbn [mapCMakeTools_all] in Hrun. unfold bind in Hrun.
    pose proof (keeps_ensureActiveKit (Some f) w) as (Hkeys & _ & _).
    pose proof (quiet_ensureActiveKit (Some f) w) as Hquiet. red in Hquiet.
    pose proof (ensureActiveKit_false f w) as Hfalse.
    destruct (_ensureActiveKit (Some f) w) as [ok w1]. simpl in *.
    destruct ok.
    + assert (Hin : In f (keys (instances w1))).
      { rewrite Hkeys. apply Hincl. left. reflexivity. }
      pose proof (call_invokes fn f w1 Hin) as Hcall.
      pose proof (keeps_call fn f w1) as (Hkeys2 & _ & _).
      destruct (call fn f w1) as [retc w2]. simpl in *.
      destruct (truthy retc) eqn:Htruthy.
      * injection Hrun as <- <-. exists [(f, retc)]. simpl.
        rewrite Hcall, Hquiet.
        split; [reflexivity|]. split; [reflexivity|]. split; [constructor|].
        right. left. split; [exact Htruthy|].
        exists (@nil (FsPath * JsVal)), f. reflexivity.
      * destruct (IH w2 r w') as (calls & Hinv & Hpre & Hfalsy & Hcases); auto.
        { intros x Hx. rewrite Hkeys2, Hkeys. apply Hincl. right. exact Hx. }
        exists ((f, retc) :: calls). split; [|split; [|split]].
        -- rewrite Hinv, Hcall, Hquiet, <- app_assoc. reflexivity.
        -- simpl. rewrite Hpre. reflexivity.
        -- destruct calls as [|c calls]; [constructor|].
           change (removelast ((f, retc) :: c :: calls))
             with ((f, retc) :: removelast (c :: calls)).
           constructor; auto.
        -- destruct Hcases as [(H0 & Hlen & Hall) | [(Ht & earlier & cmt & Heq)
                                | (Hm & Hall & cmt & Hnth & Hkit)]].
           ++ left. simpl. split; [exact H0|]. split; [congruence|].
              constructor; auto.
           ++ right. left. split; auto.
              exists ((f, retc) :: earlier), cmt. rewrite Heq. reflexivity.
           ++ right. right. split; auto. split; [constructor; auto|].
              exists cmt. simpl. auto.
    + injection Hrun as <- <-. exists []. simpl. rewrite app_nil_r, Hquiet.
      split; [reflexivity|]. split; [reflexivity|]. split; [constructor|].
      right. right. split; [reflexivity|]. split; [constructor|].
      exists f. split; auto.
Qed.

(** ** The calls of a dispatch, one by one *)

Lemma call_visit fn cmt w c :
  session cmt w = Some c ->
  call fn cmt w = (fst (fn c), after_visit fn (mkVisit cmt w c)).
Proof.
  intros Hs. unfold call, after_visit. rewrite Hs. simpl.
  destruct (fn c); reflexivity.
Qed.

Lemma hasActiveKit_has_kit cmt w :
  hasActiveKit cmt w = true ->
  exists c, session cmt w = Some c /\ activeKit c <> None.
Proof.
  unfold hasActiveKit. destruct (session cmt w) as [c|]; [|discriminate].
  destruct (activeKit c) eqn:Hk; [|discriminate].
  intros _. exists c. split; [reflexivity | congruence].
Qed.

(** A kit check that passed leaves the session with a kit. *)
Lemma ensureActiveKit_true cmt w :
  fst (_ensureActiveKit (Some cmt) w) = true ->
  hasActiveKit cmt (snd (_ensureActiveKit (Some cmt) w)) = true.
Proof.
  unfold _ensureActiveKit, bind, gets, ret. simpl.
  destruct (hasActiveKit cmt w) eqn:Hk; simpl; [intros _; exact Hk|].
  destruct (selectKit None w) as [did w1]. simpl.
  destruct (hasActiveKit cmt w1) eqn:Hk1; destruct did; simpl; congruence.
Qed.

Lemma quiet_kit_checked cmt w :
  invocations (trace (kit_checked cmt w)) = invocations (trace w).
Proof. apply (quiet_ensureActiveKit (Some cmt) w). Qed.

(** The log after a run of calls has them, in order, behind what it had. *)
Lemma invocations_world_after prepare fn :
  (forall c w, invocations (trace (prepare c w)) = invocations (trace w)) ->
  forall visits w,
    visits_from prepare fn visits w ->
    invocations (trace (world_after fn visits w))
    = invocations (trace w) ++ map (visit_call fn) visits.
Proof.
  intros Hquiet. induction visits as [|v rest IH]; intros w Hv; simpl.
  - rewrite app_nil_r. reflexivity.
  - destruct Hv as (Hw & _ & Hrest). rewrite (IH _ Hrest).
    unfold after_visit. simpl. rewrite invocations_app, Hw, Hquiet. simpl.
    rewrite <- app_assoc. reflexivity.
Qed.

(** The loop of the all-folders dispatch, call by call, from any point of
    the registry. *)
Lemma mapCMakeTools_all_visits fn fs :
  forall w r w',
    mapCMakeTools_all fn fs w = (r, w') ->
    exists visits,
      visits_from kit_checked fn visits w /\
      Forall has_kit visits /\
      map v_cmt visits = firstn (List.length visits) fs /\
      Forall falsy_call (removelast (map (visit_call fn) visits)) /\
      ((r = VNum 0 /\ List.length visits = List.length fs /\
        Forall falsy_call (map (visit_call fn) visits) /\
        w' = world_after fn visits w)
       \/ (truthy r = true /\
           (exists earlier v,
              visits = earlier ++ [v] /\ r = fst (fn (v_session v))) /\
           w' = world_after fn visits w)
       \/ (r = VNum (-1) /\
           Forall falsy_call (map (visit_call fn) visits) /\
           exists cmt,
             nth_error fs (List.length visits) = Some cmt /\
             w' = kit_checked cmt (world_after fn visits w) /\
             hasActiveKit cmt w' = false)).
Proof.
  induction fs as [|f rest IH]; intros w r w' Hrun.
  - injection Hrun as <- <-. exists []. simpl.
    split; [exact I|]. split; [constructor|]. split; [reflexivity|].
    split; [constructor|].
    left. split; [reflexivity|]. split; [reflexivity|]. split; [constructor | reflexivity].
  - cbn [mapCMakeTools_all] in Hrun. unfold bind in Hrun.
    pose proof (ensureActiveKit_true f w) as Htrue.
    pose proof (ensureActiveKit_false f w) as Hfalse.
    assert (Hw1 : kit_checked f w = snd (_ensureActiveKit (Some f) w)) by reflexivity.
    destruct (_ensureActiveKit (Some f) w) as [ok w1]. simpl in Htrue, Hfalse, Hw1.
    destruct ok.
    + destruct (hasActiveKit_has_kit f w1 (Htrue eq_refl)) as (c & Hs & Hkit).
      rewrite (call_visit fn f w1 Hs) in Hrun.
      destruct (truthy (fst (fn c))) eqn:Htruthy.
      * injection Hrun as <- <-. exists [mkVisit f w1 c]. simpl.
        split; [split; [symmetry; exact Hw1 | split; [exact Hs | exact I]]|].
        split; [constructor; [exact Hkit | constructor]|].
        split; [reflexivity|]. split; [constructor|].
        right. left. split; [exact Htruthy|]. split; [|reflexivity].
        exists (@nil Visit), (mkVisit f w1 c). split; reflexivity.
      * destruct (IH _ r w' Hrun) as (visits & Hfrom & Hkits & Hpre & Hfalsy & Hcases).
        exists (mkVisit f w1 c :: visits).
        split; [|split; [|split; [|split]]].
        -- simpl. split; [symmetry; exact Hw1 | split; [exact Hs | exact Hfrom]].
        -- constructor; [exact Hkit | exact Hkits].
        -- simpl. rewrite Hpre. reflexivity.
        -- destruct visits as [|v visits]; [constructor|].
           change (removelast (map (visit_call fn) (mkVisit f w1 c :: v :: visits)))
             with (visit_call fn (mkVisit f w1 c)
                   :: removelast (map (visit_call fn) (v :: visits))).
           constructor; [exact Htruthy | exact Hfalsy].
        -- destruct Hcases as [(H0 & Hlen & Hall & Hw)
                              | [(Ht & (earlier & v & Heq & Hr) & Hw)
                                | (Hm & Hall & cmt & Hnth & Hw & Hno)]].
           ++ left. split; [exact H0|]. split; [simpl; congruence|].
              split; [constructor; [exact Htruthy | exact Hall] | exact Hw].
           ++ right. left. split; [exact Ht|]. split; [|exact Hw].
              exists (mkVisit f w1 c :: earlier), v. rewrite Heq.
              split; [reflexivity | exact Hr].
           ++ right. right. split; [exact Hm|].
              split; [constructor; [exact Htruthy | exact Hall]|].
              exists cmt. split; [exact Hnth|]. split; [exact Hw | exact Hno].
    + injection Hrun as <- <-. exists []. simpl.
      split; [exact I|]. split; [constructor|]. split; [reflexivity|].
      split; [constructor|].
      right. right. split; [reflexivity|]. split; [constructor|].
      exists f. split; [reflexivity|]. split; [symmetry; exact Hw1|].
      apply Hfalse. reflexivity.
Qed.

(** C1.  The all-folders dispatch ([mapCMakeTools] called with the function
    alone) visits the sessions one after the other in registry order.  Before
    each call it runs the kit check of that session, and it calls the
    operation only on a session that has a kit then; what the log shows as
    the call's result is what the operation resolved to on that session, and
    the session keeps what the operation made of it.  The sessions called are
    those of a leading segment of the registry, and every call but the last
    one resolved to a falsy value (zero, for a result code).  The dispatch
    ends in one of three ways.  It returns 0, and then the operation ran on
    every session and each call resolved to zero.  Or it returns the first
    non-zero result, that of the last call made, no later session being
    touched.  Or the kit check of the next session failed, leaving that
    session without a kit, and it returns -1 without calling the operation
    on that session or on any later one. *)
Theorem mapCMakeTools_all_fail_fast (fn : CMakeToolsMapFn) (w : World) :
  exists visits,
    visits_from kit_checked fn visits w /\
    Forall has_kit visits /\
    map v_cmt visits = firstn (List.length visits) (folders_iterate w) /\
    invocations (trace (snd (mapCMakeTools OnAll fn w)))
    = invocations (trace w) ++ map (visit_call fn) visits /\
    Forall falsy_call (removelast (map (visit_call fn) visits)) /\
    ((fst (mapCMakeTools OnAll fn w) = VNum 0 /\
      List.length visits = List.length (folders_iterate w) /\
      Forall falsy_call (map (visit_call fn) visits) /\
      snd (mapCMakeTools OnAll fn w) = world_after fn visits w)
     \/ (truthy (fst (mapCMakeTools OnAll fn w)) = true /\
         (exists earlier v,
            visits = earlier ++ [v] /\
            fst (mapCMakeTools OnAll fn w) = fst (fn (v_session v))) /\
         snd (mapCMakeTools OnAll fn w) = world_after fn visits w)
     \/ (fst (mapCMakeTools OnAll fn w) = VNum (-1) /\
         Forall falsy_call (map (visit_call fn) visits) /\
         exists cmt,
           nth_error (folders_iterate w) (List.length visits) = Some cmt /\
           snd (mapCMakeTools OnAll fn w)
           = kit_checked cmt (world_after fn visits w) /\
           hasActiveKit cmt (snd (mapCMakeTools OnAll fn w)) = false)).
Proof.
  destruct (mapCMakeTools OnAll fn w) as [r w'] eqn:Hrun. simpl.
  unfold mapCMakeTools, bind, gets in Hrun.
  destruct (mapCMakeTools_all_visits fn (folders_iterate w) w Hrun)
    as (visits & Hfrom & Hkits & Hpre & Hfalsy & Hcases).
  exists visits.
  split; [exact Hfrom|]. split; [exact Hkits|]. split; [exact Hpre|].
  split; [|split; [exact Hfalsy | exact Hcases]].
  pose proof (invocations_world_after kit_checked fn quiet_kit_checked visits w Hfrom)
    as Hlog.
  destruct Hcases as [(_ & _ & _ & ->) | [(_ & _ & ->) | (_ & _ & cmt & _ & -> & _)]].
  - exact Hlog.
  - exact Hlog.
  - rewrite quiet_kit_checked. exact Hlog.
Qed.

(** When the operation was called on every session and every call resolved
    to a falsy value, the dispatch returns 0. *)
Corollary mapCMakeTools_all_success (fn : CMakeToolsMapFn) (w : World) calls :
  invocations (trace (snd (mapCMakeTools OnAll fn w)))
  = invocations (trace w) ++ calls ->
  List.length calls = List.length (folders_iterate w) ->
  Forall falsy_call calls ->
  fst (mapCMakeTools OnAll fn w) = VNum 0.
Proof.
  intros Hinv Hlen Hall.
  destruct (mapCMakeTools OnAll fn w) as [r w'] eqn:Hrun. simpl in *.
  unfold mapCMakeTools, bind, gets in Hrun.
  destruct (@mapCMakeTools_all_calls fn (folders_iterate w) w r w' (incl_refl _) Hrun)
    as (calls' & Hinv' & _ & _ & Hcases).
  assert (calls' = calls) as -> by (rewrite Hinv in Hinv'; eapply app_inv_head; eauto).
  destruct Hcases as [(H0 & _) | [(Ht & earlier & cmt & Heq) | (_ & _ & cmt & Hnth & _)]].
  - exact H0.
  - subst calls. apply Forall_app in Hall as [_ Hlast].
    inversion Hlast as [|x l Hx _]; subst. unfold falsy_call in Hx. simpl in Hx.
    congruence.
  - rewrite Hlen in Hnth.
    assert (Hnone : nth_error (folders_iterate w) (List.length (folders_iterate w)) = None)
      by (apply nth_error_None; lia).
    congruence.
Qed.

(** The scenario of the spec: sessions succeeding, failing with 1 and
    succeeding; the dispatch returns 1 and the third is never called. *)
Example buildAll_three_folders :
  fst (buildAll Demo.driver None Demo.three_folders) = VNum 1 /\
  invocations (trace (snd (buildAll Demo.driver None Demo.three_folders)))
  = [("/a"%string, VNum 0); ("/b"%string, VNum 1)].
Proof. vm_compute. split; reflexivity. Qed.

(** A session without a kit, the kit dialog dismissed: the dispatch returns
    -1, and neither that session nor the one behind it is called. *)
Example buildAll_kitless_folder :
  fst (buildAll Demo.driver None Cases.b_kitless_declining) = VNum (-1) /\
  invocations (trace (snd (buildAll Demo.driver None Cases.b_kitless_declining)))
  = [("/a"%string, VNum 0)].
Proof. vm_compute. split; reflexivity. Qed.

(** ** The all-folders target commands *)







Example debugTargetAll_three_folders :
  fst (debugTargetAll Demo.driver None Demo.three_folders)
  = [VObj 1; VNull; VObj 1; VNull; VObj 1; VNull].
Proof. vm_compute. reflexivity. Qed.

(** ** A declined kit selection *)

Lemma session_set_kit_other cmt c k w :
  cmt <> c -> session cmt (set_kit c k w) = session cmt w.
Proof.
  intros Hne. unfold session, set_kit. simpl.
  rewrite lookup_update_session_other; auto.
Qed.

Lemma session_fold_set_kit cmt l :
  forall w,
    ~ In cmt (map fst l) ->
    session cmt (fold_left (fun acc e => set_kit (fst e) (snd e) acc) l w)
    = session cmt w.
Proof.
  induction l as [|e l IH]; intros w Hnot; simpl; [reflexivity|].
  simpl in Hnot. rewrite IH by tauto.
  apply session_set_kit_other. intros ->. tauto.
Qed.

Lemma kitsController_selectKit_declined cmt a w :
  kit_selection_declined cmt w ->
  fst (kitsController_selectKit a w) = None /\
  session cmt (snd (kitsController_selectKit a w)) = session cmt w.
Proof.
  unfold kit_selection_declined, kitsController_selectKit.
  destruct (kitPrompts w) as [|p rest]; [auto|].
  intros [-> Hnot]. simpl. split; [reflexivity|].
  rewrite session_fold_set_kit by exact Hnot. reflexivity.
Qed.

Lemma selectKit_declined cmt w :
  kit_selection_declined cmt w ->
  fst (selectKit None w) = false /\
  session cmt (snd (selectKit None w)) = session cmt w.
Proof.
  intros Hdecl. unfold selectKit, bind, gets, ret, _checkFolderArgs, folders_activeFolder.
  destruct (CMT_TESTING w); [split; reflexivity|].
  destruct (activeFolderKey w) as [a|]; [|split; reflexivity].
  destruct (kitsController_selectKit_declined cmt a w Hdecl) as [Hnone Hsess].
  destruct (kitsController_selectKit a w) as [kitName w1]. simpl in Hnone, Hsess.
  subst kitName.
  destruct (activeFolderKey w1) as [a1|]; simpl; [|auto].
  destruct (hasActiveKit a1 w1); simpl; auto.
Qed.

Lemma ensureActiveKit_declined cmt c w :
  session cmt w = Some c ->
  activeKit c = None ->
  kit_selection_declined cmt w ->
  fst (_ensureActiveKit (Some cmt) w) = false /\
  session cmt (snd (_ensureActiveKit (Some cmt) w)) = Some c.
Proof.
  intros Hsess Hkit Hdecl.
  unfold _ensureActiveKit, bind, gets, ret. simpl.
  assert (Hno : hasActiveKit cmt w = false).
  { unfold hasActiveKit. rewrite Hsess, Hkit. reflexivity. }
  rewrite Hno.
  destruct (selectKit_declined cmt w Hdecl) as [Hdid Hsame].
  destruct (selectKit None w) as [did w1]. simpl in Hdid, Hsame. subst did.
  assert (Hno1 : hasActiveKit cmt w1 = false).
  { unfold hasActiveKit. rewrite Hsame, Hsess, Hkit. reflexivity. }
  rewrite Hno1. simpl. split; [reflexivity | congruence].
Qed.

(** C4.  A dispatch that targets one session (the active one, or the one
    given) whose kit is unset, while the kit dialog is dismissed and nothing
    else gives the session a kit, returns -1 without calling the operation,
    and the session is exactly as it was (in particular not busy if it was
    idle). *)
Theorem mapCMakeTools_kit_declined
  (t : MapTarget) (fn : CMakeToolsMapFn) (w : World) (cmt : FsPath) (c : CMakeTools) :
  dispatch_target t w = Some cmt ->
  session cmt w = Some c ->
  activeKit c = None ->
  kit_selection_declined cmt w ->
  fst (mapCMakeTools t fn w) = VNum (-1) /\
  invocations (trace (snd (mapCMakeTools t fn w))) = invocations (trace w) /\
  session cmt (snd (mapCMakeTools t fn w)) = Some c.
Proof.
  intros Htarget Hsess Hkit Hdecl.
  destruct (ensureActiveKit_declined cmt w Hsess Hkit Hdecl) as [Hfalse Hsame].
  pose proof (quiet_ensureActiveKit (Some cmt) w) as Hquiet. red in Hquiet.
  assert (Hrun : mapCMakeTools t fn w
                 = (VNum (-1), snd (_ensureActiveKit (Some cmt) w))).
  { destruct t as [|c'|]; simpl in Htarget.
    - unfold mapCMakeTools, bind, gets. unfold folders_activeFolder in *.
      rewrite Htarget.
      destruct (_ensureActiveKit (Some cmt) w) as [ok w1]. simpl in *.
      subst ok. reflexivity.
    - injection Htarget as ->. unfold mapCMakeTools, bind.
      destruct (_ensureActiveKit (Some cmt) w) as [ok w1]. simpl in *.
      subst ok. reflexivity.
    - discriminate. }
  rewrite Hrun. simpl. auto.
Qed.

Lemma mapCMakeTools_kit_declined_witness :
  fst (mapCMakeTools OnActive (Demo.driver (Build None)) Demo.kitless_declining)
  = VNum (-1) /\
  invocations (trace (snd (mapCMakeTools OnActive (Demo.driver (Build None))
                             Demo.kitless_declining)))
  = invocations (trace Demo.kitless_declining) /\
  session "/a"%string
    (snd (mapCMakeTools OnActive (Demo.driver (Build None)) Demo.kitless_declining))
  = Some (Demo.loadBare Demo.folderA).
Proof.
  apply (@mapCMakeTools_kit_declined OnActive (Demo.driver (Build None))
           Demo.kitless_declining "/a"%string (Demo.loadBare Demo.folderA)).
  - reflexivity.
  - reflexivity.
  - reflexivity.
  - simpl. split; [reflexivity | intros []].
Defined.

(** ** The active-folder pointer *)

Lemma keeps_disposeSubs : keeps _disposeSubs.
Proof. unfold _disposeSubs. frame. Qed.

#[local] Hint Resolve keeps_disposeSubs : frame.

Lemma keeps_setupSubscriptions : keeps _setupSubscriptions.
Proof. unfold _setupSubscriptions. frame. Qed.

Lemma keeps_updateCodeModel f : keeps (_updateCodeModel f).
Proof. unfold _updateCodeModel. frame. Qed.

#[local] Hint Resolve keeps_setupSubscriptions keeps_updateCodeModel : frame.

Lemma keeps_postWorkspaceOpen driver info : keeps (_postWorkspaceOpen driver info).
Proof. unfold _postWorkspaceOpen. frame. Qed.

#[local] Hint Resolve keeps_postWorkspaceOpen : frame.

(** The controller sets its pointer by a lookup: whatever the argument, the
    pointer ends up empty or on a registered key. *)
Lemma folders_setActiveFolder_registered ws w :
  active_registered (snd (folders_setActiveFolder ws w)).
Proof.
  unfold folders_setActiveFolder, modify, active_registered, folders_get. simpl.
  destruct ws as [f|]; [|exact I].
  destruct (has_key (uri_fsPath f) (instances w)) eqn:Hk; [|exact I].
  apply has_key_In_keys. exact Hk.
Qed.

Lemma settles_folders_setActiveFolder ws : settles (folders_setActiveFolder ws).
Proof.
  intros w. split; [reflexivity|]. right. apply folders_setActiveFolder_registered.
Qed.

#[local] Hint Resolve settles_folders_setActiveFolder : frame.

Lemma settles_setActiveFolder ws : settles (_setActiveFolder ws).
Proof. unfold _setActiveFolder. frame. Qed.

(** Whatever the pointer was, [_setActiveFolder] leaves it registered. *)
Lemma setActiveFolder_registered ws w :
  active_registered (snd (_setActiveFolder ws w)).
Proof.
  unfold _setActiveFolder. unfold bind at 1.
  pose proof (folders_setActiveFolder_registered ws w) as Hreg.
  destruct (folders_setActiveFolder ws w) as [u w1]. simpl in Hreg.
  apply settles_invariant; [|exact Hreg]. frame.
Qed.

#[local] Hint Resolve settles_setActiveFolder : frame.

Lemma settles_onDidChangeActiveTextEditor gwf editor :
  settles (_onDidChangeActiveTextEditor gwf editor).
Proof. unfold _onDidChangeActiveTextEditor. frame. Qed.

Lemma settles_selectActiveFolder driver : settles (selectActiveFolder driver).
Proof. unfold selectActiveFolder. frame. Qed.

Lemma keeps_mapCMakeTools_all fn fs : keeps (mapCMakeTools_all fn fs).
Proof. induction fs; cbn [mapCMakeTools_all]; frame. Qed.

#[local] Hint Resolve keeps_mapCMakeTools_all : frame.

Lemma keeps_mapCMakeTools t fn : keeps (mapCMakeTools t fn).
Proof. unfold mapCMakeTools. frame. Qed.

#[local] Hint Resolve keeps_mapCMakeTools settles_onDidChangeActiveTextEditor
  settles_selectActiveFolder : frame.

Lemma keeps_mapCMakeToolsFolder folder fn : keeps (mapCMakeToolsFolder folder fn).
Proof. unfold mapCMakeToolsFolder. frame. Qed.

#[local] Hint Resolve keeps_mapCMakeToolsFolder : frame.

Lemma settles_deliver_focus gwf editor : settles (deliver_focus gwf editor).
Proof. unfold deliver_focus. frame. Qed.

Lemma settles_onAfterAddFolder driver info : settles (onAfterAddFolder driver info).
Proof. unfold onAfterAddFolder. frame. Qed.

(** Registering a folder keeps a registered pointer registered. *)
Lemma folders_add_registered driver ws fresh w :
  active_registered w ->
  active_registered (snd (folders_add (onAfterAddFolder driver) ws fresh w)).
Proof.
  intros Hreg. unfold folders_add. unfold bind at 1, gets. simpl.
  destruct (has_key (uri_fsPath ws) (instances w)); [exact Hreg|].
  unfold bind at 1, modify. simpl.
  unfold bind at 1.
  match goal with
  | |- context [onAfterAddFolder driver ?i ?w0] =>
      pose proof (@settles_invariant _ (onAfterAddFolder driver i) w0
                    (settles_onAfterAddFolder driver i)) as Hinv;
      destruct (onAfterAddFolder driver i w0) as [u w1]
  end.
  simpl in *. apply Hinv.
  unfold active_registered in *. simpl.
  destruct (activeFolderKey w) as [k|]; [|exact I].
  rewrite keys_app. apply in_or_app. left. exact Hreg.
Qed.

(** The handler of "removed" repairs the pointer: if every key the pointer
    could name, other than the removed one, is registered, the pointer is
    registered when the handler is done. *)
Lemma onAfterRemoveFolder_registered info w :
  (forall k, activeFolderKey w = Some k -> k <> uri_fsPath info ->
             In k (keys (instances w))) ->
  active_registered (snd (onAfterRemoveFolder info w)).
Proof.
  intros Hother. unfold onAfterRemoveFolder.
  unfold bind at 1, modify. simpl.
  unfold bind at 1, gets. simpl.
  unfold bind at 1, gets. simpl.
  unfold folders_activeFolder. simpl.
  match goal with
  | |- active_registered (snd (bind ?m ?k ?w0)) =>
      assert (Hm : active_registered (snd (m w0)));
      [ | unfold bind; destruct (m w0) as [u w1]; simpl in *; exact Hm ]
  end.
  destruct (workspaceFolders w) as [[|f rest]|];
    try apply setActiveFolder_registered.
  destruct (activeFolderKey w) as [a|] eqn:Ha.
  - destruct (String.eqb_spec a (uri_fsPath info)) as [Heq|Hne].
    + apply setActiveFolder_registered.
    + unfold ret, active_registered. simpl. rewrite Ha. apply Hother; auto.
  - unfold ret, active_registered. simpl. rewrite Ha. exact I.
Qed.

Lemma folders_remove_registered ws w :
  active_registered w ->
  active_registered (snd (folders_remove onAfterRemoveFolder ws w)).
Proof.
  intros Hreg. unfold folders_remove. unfold bind at 1, gets. simpl.
  destruct (has_key (uri_fsPath ws) (instances w)); [|exact Hreg].
  unfold bind, modify, log. simpl.
  apply onAfterRemoveFolder_registered. simpl.
  intros k Hk Hne. unfold active_registered in Hreg. rewrite Hk in Hreg.
  apply In_keys_table_delete; auto.
Qed.

Lemma remove_each_registered fs :
  forall w, active_registered w -> active_registered (snd (remove_each fs w)).
Proof.
  induction fs as [|f rest IH]; intros w Hreg; [exact Hreg|].
  cbn [remove_each]. unfold bind.
  pose proof (folders_remove_registered f w Hreg) as H1.
  destruct (folders_remove onAfterRemoveFolder f w) as [u w1]. apply IH. exact H1.
Qed.

Lemma add_each_registered driver load fs :
  forall w, active_registered w ->
            active_registered (snd (add_each driver load fs w)).
Proof.
  induction fs as [|f rest IH]; intros w Hreg; [exact Hreg|].
  cbn [add_each]. unfold bind.
  pose proof (folders_add_registered driver f (load f) w Hreg) as H1.
  destruct (folders_add (onAfterAddFolder driver) f (load f) w) as [u w1].
  apply IH. exact H1.
Qed.

Lemma step_registered driver load gwf a w :
  active_registered w -> active_registered (snd (step driver load gwf a w)).
Proof.
  intros Hreg. destruct a as [now removed added|editor| |m|folder m]; cbn [step].
  - unfold bind at 1, modify. simpl. unfold bind.
    match goal with
    | |- context [remove_each removed ?w0] =>
        pose proof (remove_each_registered removed w0 Hreg) as H1;
        destruct (remove_each removed w0) as [u w1]
    end.
    apply add_each_registered. exact H1.
  - apply settles_invariant; [apply settles_deliver_focus | exact Hreg].
  - apply settles_invariant; [frame | exact Hreg].
  - apply settles_invariant; [frame | exact Hreg].
  - apply settles_invariant; [frame | exact Hreg].
Qed.

Lemma loadAllCurrent_pointer load fs :
  forall w, activeFolderKey (snd (loadAllCurrent load fs w)) = activeFolderKey w.
Proof.
  induction fs as [|f rest IH]; intros w; [reflexivity|].
  cbn [loadAllCurrent]. rewrite snd_bind, IH. unfold modify. simpl.
  destruct (has_key (uri_fsPath f) (instances w)); reflexivity.
Qed.

Lemma settles_initActiveFolder gwf : settles (_initActiveFolder gwf).
Proof. unfold _initActiveFolder. frame. Qed.

Lemma keeps_init_folders driver fs : keeps (_init_folders driver fs).
Proof. induction fs; cbn [_init_folders]; frame. Qed.

#[local] Hint Resolve settles_initActiveFolder keeps_init_folders : frame.

(** The manager comes up with its pointer empty or registered. *)
Lemma create_registered driver load gwf wsf editor saved autoSelect testing picks kits cfgs :
  active_registered
    (create driver load gwf wsf editor saved autoSelect testing picks kits cfgs).
Proof.
  unfold create, _init. rewrite snd_bind. unfold gets at 1. simpl.
  destruct wsf as [current|]; [|exact I].
  rewrite snd_bind.
  match goal with
  | |- active_registered (snd (?m ?w0)) =>
      apply (@settles_invariant _ m w0); [frame|]
  end.
  unfold active_registered. rewrite loadAllCurrent_pointer. exact I.
Qed.

(** C6.  Starting from a manager whose active-folder pointer is empty or
    names a registered folder, after every action of any sequence of folder
    changes (removals and additions), focus changes, folder selections and
    commands, the pointer is again empty or names a folder present in the
    registry. *)
Theorem active_folder_never_dangles
  (driver : Method -> CMakeToolsMapFn)
  (loadSession : WorkspaceFolder -> CMakeTools)
  (getWorkspaceFolder : option (list WorkspaceFolder) -> string -> option WorkspaceFolder)
  (actions : list Action) (w : World) :
  active_registered w ->
  active_registered (run driver loadSession getWorkspaceFolder actions w).
Proof.
  revert w. induction actions as [|a rest IH]; intros w Hreg; [exact Hreg|].
  cbn [run]. apply IH. apply step_registered. exact Hreg.
Qed.

(** From startup on, whatever happens, the pointer never dangles. *)
Corollary active_folder_registered_from_startup
  driver load gwf wsf editor saved autoSelect testing picks kits cfgs actions :
  active_registered
    (run driver load gwf actions
       (create driver load gwf wsf editor saved autoSelect testing picks kits cfgs)).
Proof.
  generalize (create_registered driver load gwf wsf editor saved autoSelect
                testing picks kits cfgs).
  generalize (create driver load gwf wsf editor saved autoSelect testing picks kits cfgs).
  induction actions as [|a rest IH]; intros w Hreg; [exact Hreg|].
  cbn [run]. apply IH. apply step_registered. exact Hreg.
Qed.

Lemma active_folder_never_dangles_witness :
  active_registered
    (run Demo.driver Demo.loadSession Demo.getWorkspaceFolder
       [SelectActiveFolder; FoldersChanged (Some [Demo.folderA]) [Demo.folderB] []]
       (Demo.about_to_pick_b false)).
Proof.
  apply active_folder_never_dangles.
  simpl. left. reflexivity.
Defined.

(** The scenario of the spec: folders [/a] and [/b] open, [/b] selected,
    then closed; the pointer moves to [/b] and comes back to [/a]. *)
Example select_b_then_close_b :
  activeFolderKey
    (run Demo.driver Demo.loadSession Demo.getWorkspaceFolder
       [SelectActiveFolder] (Demo.about_to_pick_b false)) = Some "/b"%string /\
  activeFolderKey
    (run Demo.driver Demo.loadSession Demo.getWorkspaceFolder
       [SelectActiveFolder; FoldersChanged (Some [Demo.folderA]) [Demo.folderB] []]
       (Demo.about_to_pick_b false)) = Some "/a"%string.
Proof. vm_compute. split; reflexivity. Qed.

(** ** Selecting the active folder *)

Lemma setActiveFolder_sets sel w :
  has_key (uri_fsPath sel) (instances w) = true ->
  activeFolderKey (snd (_setActiveFolder (Some sel) w)) = Some (uri_fsPath sel) /\
  workspaceState_activeFolder (snd (_setActiveFolder (Some sel) w))
  = workspaceState_activeFolder w.
Proof.
  intros Hk. unfold _setActiveFolder. rewrite snd_bind.
  match goal with
  | |- context [snd (?m ?w0)] =>
      assert (Hkeeps : keeps m) by frame;
      destruct (Hkeeps w0) as (_ & Hactive & Hsaved)
  end.
  rewrite Hactive, Hsaved.
  unfold folders_setActiveFolder, modify, folders_get. simpl.
  rewrite Hk. auto.
Qed.

(** The claim of C7 fails: with the auto-select policy enabled, the command
    shows no dialog, the pointer stays on [/a] and nothing is saved, whatever
    the user meant to pick. *)
Lemma selectActiveFolder_auto_select_counterexample :
  autoSelectActiveFolder (Demo.about_to_pick_b true) = true /\
  activeFolderKey (Demo.about_to_pick_b true) = Some "/a"%string /\
  activeFolderKey (snd (selectActiveFolder Demo.driver (Demo.about_to_pick_b true)))
  <> Some "/b"%string /\
  workspaceState_activeFolder
    (snd (selectActiveFolder Demo.driver (Demo.about_to_pick_b true)))
  <> Some "/b"%string.
Proof. vm_compute. repeat split; discriminate. Qed.

(** C7, amended.  With the auto-select policy disabled and a folder open in
    the editor, the user's pick of a registered folder becomes the active
    folder and its path is saved in the workspace state; with the policy
    enabled, the command changes nothing at all. *)
Theorem selectActiveFolder_manual_only
  (driver : Method -> CMakeToolsMapFn) (w : World)
  (sel : WorkspaceFolder) (rest : list (option WorkspaceFolder)) :
  folderPicks w = Some sel :: rest ->
  has_key (uri_fsPath sel) (instances w) = true ->
  (exists f fs, workspaceFolders w = Some (f :: fs)) ->
  (autoSelectActiveFolder w = false ->
   fst (selectActiveFolder driver w) = Completed /\
   activeFolderKey (snd (selectActiveFolder driver w)) = Some (uri_fsPath sel) /\
   workspaceState_activeFolder (snd (selectActiveFolder driver w))
   = Some (uri_fsPath sel)) /\
  (autoSelectActiveFolder w = true ->
   selectActiveFolder driver w = (Completed, w)).
Proof.
  intros Hpick Hk (f & fs & Hwsf). split; intros Hauto.
  - destruct (selectActiveFolder driver w) as [r w'] eqn:Hrun. simpl.
    unfold selectActiveFolder, bind, gets in Hrun.
    rewrite Hwsf, Hauto in Hrun. simpl in Hrun.
    unfold showWorkspaceFolderPick in Hrun. rewrite Hpick in Hrun.
    match type of Hrun with
    | context [_setActiveFolder (Some sel) ?w0] =>
        destruct (setActiveFolder_sets sel w0) as [Hactive _]; [simpl; exact Hk|];
        destruct (_setActiveFolder (Some sel) w0) as [u w1]
    end.
    simpl in Hactive. unfold folders_activeFolder in Hrun.
    rewrite Hactive in Hrun. unfold modify in Hrun.
    match type of Hrun with
    | context [let (_, _) := ?m ?w0 in _] =>
        assert (Hkeeps : keeps m) by frame;
        destruct (Hkeeps w0) as (_ & Ha & Hs);
        destruct (m w0) as [u' w2]
    end.
    simpl in Ha, Hs. injection Hrun as <- <-.
    rewrite Ha, Hs, Hactive. auto.
  - unfold selectActiveFolder, bind, gets. simpl.
    rewrite Hwsf, Hauto. reflexivity.
Qed.

Lemma selectActiveFolder_manual_only_witness :
  (autoSelectActiveFolder (Demo.about_to_pick_b false) = false ->
   fst (selectActiveFolder Demo.driver (Demo.about_to_pick_b false)) = Completed /\
   activeFolderKey (snd (selectActiveFolder Demo.driver (Demo.about_to_pick_b false)))
   = Some "/b"%string /\
   workspaceState_activeFolder
     (snd (selectActiveFolder Demo.driver (Demo.about_to_pick_b false)))
   = Some "/b"%string) /\
  (autoSelectActiveFolder (Demo.about_to_pick_b false) = true ->
   selectActiveFolder Demo.driver (Demo.about_to_pick_b false)
   = (Completed, Demo.about_to_pick_b false)).
Proof.
  apply (@selectActiveFolder_manual_only Demo.driver (Demo.about_to_pick_b false)
           Demo.folderB []).
  - reflexivity.
  - reflexivity.
  - exists Demo.folderA, [Demo.folderB]. reflexivity.
Defined.

(** ** The folder commands and their result *)

(** Whatever the folder, the operation and the world, [mapCMakeToolsFolder]
    resolves to [undefined]. *)
Lemma mapCMakeToolsFolder_undefined folder fn w :
  fst (mapCMakeToolsFolder folder fn w) = VUndefined.
Proof.
  unfold mapCMakeToolsFolder. rewrite !fst_bind. reflexivity.
Qed.

(** C2.  The folder commands on a folder whose build fails with code 1: the
    operation is called and resolves to 1, yet [build] resolves to
    [undefined], and so do [configure], [install], [ctest], [clean] and
    [stop], where the operation resolves to 0; the all-folders variant
    returns the code. *)
Theorem folder_commands_resolve_to_undefined :
  fst (build Demo.driver (Some Demo.folderB) None Demo.failing_folder) = VUndefined /\
  invocations (trace (snd (build Demo.driver (Some Demo.folderB) None
                             Demo.failing_folder)))
  = [("/b"%string, VNum 1)] /\
  fst (buildAll Demo.driver None Demo.failing_folder) = VNum 1 /\
  fst (configure Demo.driver (Some Demo.folderB) Demo.failing_folder) = VUndefined /\
  fst (install Demo.driver (Some Demo.folderB) Demo.failing_folder) = VUndefined /\
  fst (ctest Demo.driver (Some Demo.folderB) Demo.failing_folder) = VUndefined /\
  fst (clean Demo.driver (Some Demo.folderB) Demo.failing_folder) = VUndefined /\
  fst (stop Demo.driver (Some Demo.folderB) Demo.failing_folder) = VUndefined.
Proof. vm_compute. repeat split; reflexivity. Qed.

(** C3.  With no folder open there is no active session; the dispatch on
    the active session reports the error to the error tracker and returns
    0, the code of success. *)
Theorem mapCMakeTools_no_active_folder_returns_zero :
  folders_activeFolder Demo.empty_window = None /\
  mapCMakeTools OnActive (Demo.driver (Build None)) Demo.empty_window
  = (VNum 0,
     set_trace (trace Demo.empty_window ++ [EvRollbarError "No active foler."])
       Demo.empty_window) /\
  fst (mapCMakeTools OnActive (Demo.driver (Build None)) Demo.one_folder) = VNum 0.
Proof. vm_compute. repeat split; reflexivity. Qed.

(** On any world without an active folder the result is 0. *)
Lemma mapCMakeTools_no_active_folder fn w :
  folders_activeFolder w = None ->
  fst (mapCMakeTools OnActive fn w) = VNum 0.
Proof.
  intros Hnone. unfold mapCMakeTools, bind, gets, log, modify, ret.
  rewrite Hnone. reflexivity.
Qed.

(** C5.  On a folder where cleaning fails with code 1, [cleanRebuild] still
    runs the build after the failed clean and resolves to [undefined], the
    failure being lost; [cleanRebuildAll] on the same folder stops after
    the clean and returns 1. *)
Theorem cleanRebuild_builds_after_failed_clean :
  fst (cleanRebuild Demo.driver (Some Demo.folderC) Demo.dirty_folder) = VUndefined /\
  invocations (trace (snd (cleanRebuild Demo.driver (Some Demo.folderC)
                             Demo.dirty_folder)))
  = [("/c"%string, VNum 1); ("/c"%string, VNum 0)] /\
  fst (cleanRebuildAll Demo.driver Demo.dirty_folder) = VNum 1 /\
  invocations (trace (snd (cleanRebuildAll Demo.driver Demo.dirty_folder)))
  = [("/c"%string, VNum 1)].
Proof. vm_compute. repeat split; reflexivity. Qed.

(** The all-folders variant does what the claim says: a truthy result of
    the clean is returned and nothing else runs; otherwise the result is
    that of the build. *)
Lemma cleanRebuildAll_sequenced driver w :
  (truthy (fst (buildAll driver (Some "clean"%string) w)) = true ->
   cleanRebuildAll driver w = buildAll driver (Some "clean"%string) w) /\
  (truthy (fst (buildAll driver (Some "clean"%string) w)) = false ->
   cleanRebuildAll driver w
   = buildAll driver None (snd (buildAll driver (Some "clean"%string) w))).
Proof.
  unfold cleanRebuildAll, bind.
  destruct (buildAll driver (Some "clean"%string) w) as [retc w1]. simpl.
  split; intros ->; reflexivity.
Qed.

(** ** Focus changes and the auto-select policy *)

(** C8.  Folders [/a] and [/b] are open, the auto-select policy is
    disabled and [/a] is active; the focus moves to a document of [/b], and
    the active folder becomes [/b].  With the policy enabled the same
    happens. *)
Theorem focus_change_reassigns_with_policy_disabled :
  autoSelectActiveFolder (Demo.two_folders false) = false /\
  activeFolderKey (Demo.two_folders false) = Some "/a"%string /\
  activeFolderKey
    (snd (step Demo.driver Demo.loadSession Demo.getWorkspaceFolder
            (EditorFocused (Some (mkTextEditor "/b/main.cpp")))
            (Demo.two_folders false))) = Some "/b"%string /\
  activeFolderKey
    (snd (step Demo.driver Demo.loadSession Demo.getWorkspaceFolder
            (EditorFocused (Some (mkTextEditor "/b/main.cpp")))
            (Demo.two_folders true))) = Some "/b"%string.
Proof. vm_compute. repeat split; reflexivity. Qed.

(** The handler never consults the policy: whenever the focused document
    lies in a registered folder other than the active one, that folder
    becomes active. *)
Lemma onDidChangeActiveTextEditor_reassigns gwf editor ws w :
  workspaceFolders w <> None ->
  gwf (workspaceFolders w) (document_uri editor) = Some ws ->
  has_key (uri_fsPath ws) (instances w) = true ->
  activeFolderKey w <> Some (uri_fsPath ws) ->
  activeFolderKey (snd (_onDidChangeActiveTextEditor gwf (Some editor) w))
  = Some (uri_fsPath ws).
Proof.
  intros Hwsf Hdoc Hk Hother.
  unfold _onDidChangeActiveTextEditor. rewrite snd_bind. unfold gets at 1. simpl.
  destruct (workspaceFolders w) as [l|] eqn:Hl; [|congruence].
  rewrite Hdoc. rewrite snd_bind. unfold gets, folders_activeFolder. simpl.
  destruct (activeFolderKey w) as [a|] eqn:Ha.
  - destruct (String.eqb_spec (uri_fsPath ws) a) as [Heq|Hne]; [congruence|].
    simpl. apply setActiveFolder_sets. exact Hk.
  - apply setActiveFolder_sets. exact Hk.
Qed.

(** ** The code-model listeners *)

(** C9.  Folders [/a] and [/b] are open and each has its code-model
    listener.  When [/a] is closed, its session leaves the registry and its
    entry leaves the manager's table, but the listener on the session of
    [/a] is still registered and undisposed; disposing of the manager later
    releases the listener of [/b] and not that of [/a]. *)
Theorem code_model_listener_outlives_folder :
  code_model_listening "/a"%string (Demo.two_folders false) = true /\
  code_model_listening "/b"%string (Demo.two_folders false) = true /\
  has_key "/a"%string (instances Demo.a_closed) = false /\
  has_key "/a"%string (codeModelUpdateSubs Demo.a_closed) = false /\
  code_model_listening "/a"%string Demo.a_closed = true /\
  code_model_listening "/a"%string (snd (asyncDispose Demo.a_closed)) = true /\
  code_model_listening "/b"%string (snd (asyncDispose Demo.a_closed)) = false.
Proof. vm_compute. repeat split; reflexivity. Qed.

(** No listener on a session exists before the manager has seen the folder:
    a fresh manager has none, and a folder that is added gets its own. *)
Example code_model_listener_created_on_add :
  code_model_listening "/c"%string (Demo.two_folders false) = false /\
  code_model_listening "/c"%string
    (snd (step Demo.driver Demo.loadSession Demo.getWorkspaceFolder
            (FoldersChanged (Some [Demo.folderA; Demo.folderB; Demo.folderC])
               [] [Demo.folderC])
            (Demo.two_folders false))) = true.
Proof. vm_compute. split; reflexivity. Qed.

(** * Further properties of the manager *)

(** ** Sessions under update *)

Lemma lookup_update_session_same cmt f t :
  lookup cmt (update_session cmt f t)
  = option_map (fun cf => mkCMakeToolsFolder (folder cf) (f (cmakeTools cf)))
      (lookup cmt t).
Proof.
  induction t as [|[k v] t IH]; simpl; [reflexivity|].
  destruct (String.eqb_spec cmt k) as [->|Hk]; simpl.
  - rewrite String.eqb_refl. reflexivity.
  - destruct (String.eqb_spec cmt k); [congruence|]. exact IH.
Qed.

Lemma session_update_session_same cmt f w :
  session cmt (set_instances (update_session cmt f (instances w)) w)
  = option_map f (session cmt w).
Proof.
  unfold session. simpl. rewrite lookup_update_session_same.
  destruct (lookup cmt (instances w)); reflexivity.
Qed.

Lemma session_set_kit_same cmt k w :
  session cmt (set_kit cmt k w) = option_map (with_kit (Some k)) (session cmt w).
Proof. apply session_update_session_same. Qed.

Lemma has_key_session cmt w :
  has_key cmt (instances w) = true <-> exists c, session cmt w = Some c.
Proof.
  unfold has_key, session. destruct (lookup cmt (instances w)) as [cf|]; simpl.
  - split; [eauto | reflexivity].
  - split; [discriminate | intros [c Hc]; discriminate].
Qed.

(** ** The kit check *)

(** X1.  [_ensureActiveKit] on a session answers whether that session has
    an active kit when the check is over. *)
Theorem ensureActiveKit_tells_the_kit (cmt : FsPath) (w : World) :
  fst (_ensureActiveKit (Some cmt) w)
  = hasActiveKit cmt (snd (_ensureActiveKit (Some cmt) w)).
Proof.
  unfold _ensureActiveKit, bind, gets, ret. simpl.
  destruct (hasActiveKit cmt w) eqn:Hk; simpl; [congruence|].
  destruct (selectKit None w) as [did w1]. simpl.
  destruct (hasActiveKit cmt w1) eqn:Hk1; destruct did; simpl; congruence.
Qed.

Lemma ensureActiveKit_with_kit cmt w :
  hasActiveKit cmt w = true -> _ensureActiveKit (Some cmt) w = (true, w).
Proof.
  intros Hk. unfold _ensureActiveKit, bind, gets, ret. simpl. rewrite Hk. reflexivity.
Qed.

Lemma hasActiveKit_session cmt w c :
  session cmt w = Some c -> activeKit c <> None -> hasActiveKit cmt w = true.
Proof.
  intros Hs Hk. unfold hasActiveKit. rewrite Hs.
  destruct (activeKit c); [reflexivity | congruence].
Qed.

(** X2.  A dispatch to one session (the active one, or the one given) whose
    kit is set is the call of the operation on that session and nothing
    else: no dialog is shown, the result is the operation's, and the log
    gains that one call. *)
Theorem mapCMakeTools_with_kit
  (t : MapTarget) (fn : CMakeToolsMapFn) (w : World) (cmt : FsPath) (c : CMakeTools) :
  dispatch_target t w = Some cmt ->
  session cmt w = Some c ->
  activeKit c <> None ->
  mapCMakeTools t fn w = call fn cmt w /\
  fst (mapCMakeTools t fn w) = fst (fn c) /\
  kitPrompts (snd (mapCMakeTools t fn w)) = kitPrompts w /\
  invocations (trace (snd (mapCMakeTools t fn w)))
  = invocations (trace w) ++ [(cmt, fst (fn c))].
Proof.
  intros Htarget Hsess Hkit.
  pose proof (hasActiveKit_session cmt w Hsess Hkit) as Hhas.
  assert (Hrun : mapCMakeTools t fn w = call fn cmt w).
  { destruct t as [|c'|]; simpl in Htarget; [| |discriminate].
    - unfold mapCMakeTools, bind, gets. unfold folders_activeFolder in *.
      rewrite Htarget, (ensureActiveKit_with_kit cmt w Hhas). reflexivity.
    - injection Htarget as ->. unfold mapCMakeTools, bind.
      rewrite (ensureActiveKit_with_kit cmt w Hhas). reflexivity. }
  rewrite Hrun. split; [reflexivity|].
  unfold call. rewrite Hsess. destruct (fn c) as [r c']. simpl.
  rewrite invocations_app. auto.
Qed.

Lemma mapCMakeTools_with_kit_witness :
  mapCMakeTools OnActive (Demo.driver (Build None)) Demo.one_folder
  = call (Demo.driver (Build None)) "/a"%string Demo.one_folder /\
  fst (mapCMakeTools OnActive (Demo.driver (Build None)) Demo.one_folder)
  = fst (Demo.driver (Build None) (Demo.loadSession Demo.folderA)) /\
  kitPrompts (snd (mapCMakeTools OnActive (Demo.driver (Build None)) Demo.one_folder))
  = kitPrompts Demo.one_folder /\
  invocations (trace (snd (mapCMakeTools OnActive (Demo.driver (Build None))
                             Demo.one_folder)))
  = invocations (trace Demo.one_folder)
    ++ [("/a"%string, fst (Demo.driver (Build None) (Demo.loadSession Demo.folderA)))].
Proof.
  apply (@mapCMakeTools_with_kit OnActive (Demo.driver (Build None)) Demo.one_folder
           "/a"%string (Demo.loadSession Demo.folderA)).
  - reflexivity.
  - reflexivity.
  - discriminate.
Defined.

(** ** The kit dialog *)

Lemma selectKit_test_mode folder w :
  CMT_TESTING w = true ->
  selectKit folder w
  = (false,
     set_trace (trace w ++ [EvLogTrace
       "Running CMakeTools in test mode. selectKit is disabled."%string]) w).
Proof.
  intros Ht. unfold selectKit, bind, gets, log, modify, ret. rewrite Ht. reflexivity.
Qed.

(** Whoever the kit check is for, the dialog shown is that of the active
    folder: the sessions after [selectKit()] are those the dialog of the
    active folder leaves. *)
Lemma selectKit_instances a w :
  CMT_TESTING w = false ->
  activeFolderKey w = Some a ->
  instances (snd (selectKit None w))
  = instances (snd (kitsController_selectKit a w)) /\
  kitPrompts (snd (selectKit None w))
  = kitPrompts (snd (kitsController_selectKit a w)) /\
  invocations (trace (snd (selectKit None w))) = invocations (trace w).
Proof.
  intros Ht Ha.
  pose proof (quiet_selectKit None w) as Hq. red in Hq.
  split; [|split; [|exact Hq]];
    unfold selectKit, bind, gets, ret, _checkFolderArgs, folders_activeFolder;
    rewrite Ht, Ha;
    destruct (kitsController_selectKit a w) as [kitName w1]; simpl;
    destruct (activeFolderKey w1) as [a1|]; simpl; auto;
    destruct (hasActiveKit a1 w1); simpl; auto.
Qed.

Lemma kitsController_selectKit_picked a p rest k w :
  kitPrompts w = p :: rest ->
  kp_choice p = Some k ->
  snd (kitsController_selectKit a w)
  = set_kit a k
      (fold_left (fun acc e => set_kit (fst e) (snd e) acc) (kp_meanwhile p)
         (set_trace (trace w ++ [EvKitPick a]) (set_kitPrompts rest w))).
Proof.
  intros Hp Hk. unfold kitsController_selectKit. rewrite Hp, Hk. reflexivity.
Qed.

Lemma fold_set_kit_kitPrompts l w :
  kitPrompts (fold_left (fun acc e => set_kit (fst e) (snd e) acc) l w) = kitPrompts w.
Proof.
  revert w. induction l as [|e l IH]; intros w; simpl; [reflexivity|].
  rewrite IH. reflexivity.
Qed.

(** X3.  The kit check of a session that is not the active one shows the
    dialog of the active folder.  So when a folder other than the active one
    has no kit, the kit the user picks is given to the active folder, the
    checked session stays without a kit, and the dispatch to it returns -1
    without calling the operation. *)
Theorem kit_picked_goes_to_active_folder
  (fn : CMakeToolsMapFn) (w : World) (a cmt : FsPath) (c : CMakeTools)
  (p : KitPrompt) (rest : list KitPrompt) (k : Kit) :
  CMT_TESTING w = false ->
  activeFolderKey w = Some a ->
  has_key a (instances w) = true ->
  a <> cmt ->
  session cmt w = Some c ->
  activeKit c = None ->
  kitPrompts w = p :: rest ->
  kp_choice p = Some k ->
  ~ In cmt (map fst (kp_meanwhile p)) ->
  fst (mapCMakeTools (OnSession cmt) fn w) = VNum (-1) /\
  session cmt (snd (mapCMakeTools (OnSession cmt) fn w)) = Some c /\
  option_map activeKit (session a (snd (mapCMakeTools (OnSession cmt) fn w)))
  = Some (Some k) /\
  invocations (trace (snd (mapCMakeTools (OnSession cmt) fn w)))
  = invocations (trace w).
Proof.
  intros Ht Ha Hreg Hne Hsess Hkit Hp Hk Hnot.
  destruct (@selectKit_instances a w Ht Ha) as (Hinst & _ & Hquiet).
  rewrite (@kitsController_selectKit_picked a p rest k w Hp Hk) in Hinst.
  assert (Hcmt : session cmt (snd (selectKit None w)) = Some c).
  { unfold session at 1. rewrite Hinst.
    change (session cmt (set_kit a k
              (fold_left (fun acc e => set_kit (fst e) (snd e) acc) (kp_meanwhile p)
                 (set_trace (trace w ++ [EvKitPick a]) (set_kitPrompts rest w))))
            = Some c).
    rewrite session_set_kit_other by congruence.
    rewrite session_fold_set_kit by exact Hnot. exact Hsess. }
  assert (Hact : option_map activeKit (session a (snd (selectKit None w)))
                 = Some (Some k)).
  { unfold session at 1. rewrite Hinst.
    change (option_map activeKit
              (session a (set_kit a k
                 (fold_left (fun acc e => set_kit (fst e) (snd e) acc) (kp_meanwhile p)
                    (set_trace (trace w ++ [EvKitPick a]) (set_kitPrompts rest w)))))
            = Some (Some k)).
    rewrite session_set_kit_same.
    match goal with
    | |- context [session a ?w0] =>
        assert (Hex : exists c0, session a w0 = Some c0)
    end.
    { apply has_key_session. apply has_key_In_keys.
      destruct (fold_set_kit_same_registry (kp_meanwhile p)
                  (set_trace (trace w ++ [EvKitPick a]) (set_kitPrompts rest w)))
        as (Hkeys & _).
      rewrite Hkeys. simpl. apply has_key_In_keys. exact Hreg. }
    destruct Hex as [c0 ->]. reflexivity. }
  assert (Hrun : mapCMakeTools (OnSession cmt) fn w
                 = (VNum (-1), snd (selectKit None w))).
  { unfold mapCMakeTools, _ensureActiveKit, bind, gets, ret. simpl.
    assert (Hno : hasActiveKit cmt w = false)
      by (unfold hasActiveKit; rewrite Hsess, Hkit; reflexivity).
    rewrite Hno.
    assert (Hno1 : hasActiveKit cmt (snd (selectKit None w)) = false)
      by (unfold hasActiveKit; rewrite Hcmt, Hkit; reflexivity).
    destruct (selectKit None w) as [did w1]. simpl in *.
    rewrite Hno1. destruct did; reflexivity. }
  rewrite Hrun. simpl. auto.
Qed.

Lemma kit_picked_goes_to_active_folder_witness :
  fst (mapCMakeTools (OnSession "/b"%string) (Demo.driver (Build None))
         Cases.kitless_picking) = VNum (-1) /\
  session "/b"%string
    (snd (mapCMakeTools (OnSession "/b"%string) (Demo.driver (Build None))
            Cases.kitless_picking)) = Some (Demo.loadBare Demo.folderB) /\
  option_map activeKit
    (session "/a"%string
       (snd (mapCMakeTools (OnSession "/b"%string) (Demo.driver (Build None))
               Cases.kitless_picking))) = Some (Some Cases.clang) /\
  invocations (trace (snd (mapCMakeTools (OnSession "/b"%string)
                             (Demo.driver (Build None)) Cases.kitless_picking)))
  = invocations (trace Cases.kitless_picking).
Proof.
  apply (@kit_picked_goes_to_active_folder (Demo.driver (Build None))
           Cases.kitless_picking "/a"%string "/b"%string (Demo.loadBare Demo.folderB)
           (mkKitPrompt (Some Cases.clang) []) [] Cases.clang).
  - reflexivity.
  - reflexivity.
  - reflexivity.
  - discriminate.
  - reflexivity.
  - reflexivity.
  - reflexivity.
  - reflexivity.
  - simpl. intros [].
Defined.

(** X4.  When the active folder has no kit and the user picks one in the
    dialog, a dispatch on the active session goes on with the picked kit:
    the operation is called once on the session carrying that kit, its
    result is returned, and the dialog is used up. *)
Theorem kit_picked_for_active_session
  (fn : CMakeToolsMapFn) (w : World) (a : FsPath) (c : CMakeTools)
  (p : KitPrompt) (rest : list KitPrompt) (k : Kit) :
  CMT_TESTING w = false ->
  activeFolderKey w = Some a ->
  session a w = Some c ->
  activeKit c = None ->
  kitPrompts w = p :: rest ->
  kp_choice p = Some k ->
  kp_meanwhile p = [] ->
  fst (mapCMakeTools OnActive fn w) = fst (fn (with_kit (Some k) c)) /\
  invocations (trace (snd (mapCMakeTools OnActive fn w)))
  = invocations (trace w) ++ [(a, fst (fn (with_kit (Some k) c)))] /\
  session a (snd (mapCMakeTools OnActive fn w)) = Some (snd (fn (with_kit (Some k) c))) /\
  kitPrompts (snd (mapCMakeTools OnActive fn w)) = rest.
Proof.
  intros Ht Ha Hsess Hkit Hp Hk Hmean.
  destruct (@selectKit_instances a w Ht Ha) as (Hinst & Hprompts & Hquiet).
  rewrite (@kitsController_selectKit_picked a p rest k w Hp Hk) in Hinst, Hprompts.
  rewrite Hmean in Hinst, Hprompts. simpl in Hinst, Hprompts.
  assert (Hact : session a (snd (selectKit None w)) = Some (with_kit (Some k) c)).
  { unfold session at 1. rewrite Hinst.
    change (session a (set_kit a k
              (set_trace (trace w ++ [EvKitPick a]) (set_kitPrompts rest w)))
            = Some (with_kit (Some k) c)).
    rewrite session_set_kit_same.
    change (option_map (with_kit (Some k)) (session a w) = Some (with_kit (Some k) c)).
    rewrite Hsess. reflexivity. }
  assert (Hrun : mapCMakeTools OnActive fn w = call fn a (snd (selectKit None w))).
  { unfold mapCMakeTools, _ensureActiveKit, bind, gets, ret, folders_activeFolder.
    rewrite Ha. simpl.
    assert (Hno : hasActiveKit a w = false)
      by (unfold hasActiveKit; rewrite Hsess, Hkit; reflexivity).
    rewrite Hno.
    assert (Hyes : hasActiveKit a (snd (selectKit None w)) = true)
      by (unfold hasActiveKit; rewrite Hact; reflexivity).
    destruct (selectKit None w) as [did w1]. simpl in *.
    rewrite Hyes. destruct did; reflexivity. }
  rewrite Hrun. unfold call. rewrite Hact.
  destruct (fn (with_kit (Some k) c)) as [r c'] eqn:Hfn.
  cbn [fst snd trace set_trace kitPrompts].
  rewrite invocations_app, Hquiet.
  split; [reflexivity|]. split; [reflexivity|]. split; [|exact Hprompts].
  match goal with
  | |- session a (set_trace _ ?w0) = _ => change (session a w0 = Some c')
  end.
  rewrite session_update_session_same, Hact. reflexivity.
Qed.

Lemma kit_picked_for_active_session_witness :
  fst (mapCMakeTools OnActive (Demo.driver (Build None)) Cases.kitless_picking)
  = fst (Demo.driver (Build None)
           (with_kit (Some Cases.clang) (Demo.loadBare Demo.folderA))) /\
  invocations (trace (snd (mapCMakeTools OnActive (Demo.driver (Build None))
                             Cases.kitless_picking)))
  = invocations (trace Cases.kitless_picking)
    ++ [("/a"%string,
         fst (Demo.driver (Build None)
                (with_kit (Some Cases.clang) (Demo.loadBare Demo.folderA))))] /\
  session "/a"%string
    (snd (mapCMakeTools OnActive (Demo.driver (Build None)) Cases.kitless_picking))
  = Some (snd (Demo.driver (Build None)
                 (with_kit (Some Cases.clang) (Demo.loadBare Demo.folderA)))) /\
  kitPrompts (snd (mapCMakeTools OnActive (Demo.driver (Build None))
                     Cases.kitless_picking)) = [].
Proof.
  apply (@kit_picked_for_active_session (Demo.driver (Build None))
           Cases.kitless_picking "/a"%string (Demo.loadBare Demo.folderA)
           (mkKitPrompt (Some Cases.clang) []) [] Cases.clang);
    reflexivity.
Defined.

(** X5.  Under test ([CMT_TESTING] set) the kit dialog is never shown: a
    dispatch to a session without a kit returns -1, calls nothing, uses up
    no scripted answer and leaves every session as it was. *)
Theorem kit_check_under_test
  (t : MapTarget) (fn : CMakeToolsMapFn) (w : World) (cmt : FsPath) (c : CMakeTools) :
  CMT_TESTING w = true ->
  dispatch_target t w = Some cmt ->
  session cmt w = Some c ->
  activeKit c = None ->
  fst (mapCMakeTools t fn w) = VNum (-1) /\
  kitPrompts (snd (mapCMakeTools t fn w)) = kitPrompts w /\
  instances (snd (mapCMakeTools t fn w)) = instances w /\
  invocations (trace (snd (mapCMakeTools t fn w))) = invocations (trace w).
Proof.
  intros Ht Htarget Hsess Hkit.
  assert (Hno : hasActiveKit cmt w = false)
    by (unfold hasActiveKit; rewrite Hsess, Hkit; reflexivity).
  assert (Hcheck : _ensureActiveKit (Some cmt) w
                   = (false, snd (selectKit None w))).
  { unfold _ensureActiveKit, bind, gets, ret. simpl. rewrite Hno.
    rewrite (@selectKit_test_mode None w Ht). simpl.
    change (hasActiveKit cmt (set_trace _ w)) with (hasActiveKit cmt w).
    rewrite Hno. reflexivity. }
  assert (Hrun : mapCMakeTools t fn w = (VNum (-1), snd (selectKit None w))).
  { destruct t as [|c'|]; simpl in Htarget; [| |discriminate].
    - unfold mapCMakeTools, bind, gets. unfold folders_activeFolder in *.
      rewrite Htarget, Hcheck. reflexivity.
    - injection Htarget as ->. unfold mapCMakeTools, bind.
      rewrite Hcheck. reflexivity. }
  rewrite Hrun, (@selectKit_test_mode None w Ht). simpl.
  rewrite invocations_app. simpl. rewrite app_nil_r. auto.
Qed.

Lemma kit_check_under_test_witness :
  fst (mapCMakeTools OnActive (Demo.driver (Build None)) Cases.kitless_testing)
  = VNum (-1) /\
  kitPrompts (snd (mapCMakeTools OnActive (Demo.driver (Build None))
                     Cases.kitless_testing)) = kitPrompts Cases.kitless_testing /\
  instances (snd (mapCMakeTools OnActive (Demo.driver (Build None))
                    Cases.kitless_testing)) = instances Cases.kitless_testing /\
  invocations (trace (snd (mapCMakeTools OnActive (Demo.driver (Build None))
                             Cases.kitless_testing)))
  = invocations (trace Cases.kitless_testing).
Proof.
  apply (@kit_check_under_test OnActive (Demo.driver (Build None))
           Cases.kitless_testing "/a"%string (Demo.loadBare Demo.folderA));
    reflexivity.
Defined.

(** ** Queries *)

(** X6.  A query on a folder that has a session is the call of the
    operation on that session, whether or not the session has a kit: no kit
    check is made and no dialog is shown. *)
Theorem mapQueryCMakeTools_registered
  (gwf : option (list WorkspaceFolder) -> string -> option WorkspaceFolder)
  (folder : FolderArg) (fn : CMakeToolsMapFn) (w : World)
  (f : WorkspaceFolder) (c : CMakeTools) :
  _checkStringFolderArgs gwf folder w = Some f ->
  session (uri_fsPath f) w = Some c ->
  mapQueryCMakeTools gwf folder fn w = call fn (uri_fsPath f) w /\
  fst (mapQueryCMakeTools gwf folder fn w) = fst (fn c) /\
  kitPrompts (snd (mapQueryCMakeTools gwf folder fn w)) = kitPrompts w.
Proof.
  intros Hf Hsess.
  assert (Hk : has_key (uri_fsPath f) (instances w) = true)
    by (apply has_key_session; eauto).
  assert (Hrun : mapQueryCMakeTools gwf folder fn w = call fn (uri_fsPath f) w).
  { unfold mapQueryCMakeTools, bind, gets. rewrite Hf.
    unfold folders_get. rewrite Hk. reflexivity. }
  rewrite Hrun. split; [reflexivity|].
  unfold call. rewrite Hsess. destruct (fn c) as [r c']. simpl. auto.
Qed.

Lemma mapQueryCMakeTools_registered_witness :
  mapQueryCMakeTools Demo.getWorkspaceFolder (FolderString "/a/main.cpp")
    (Cases.query BuildDirectory) Cases.kitless_picking
  = call (Cases.query BuildDirectory) (uri_fsPath Demo.folderA) Cases.kitless_picking /\
  fst (mapQueryCMakeTools Demo.getWorkspaceFolder (FolderString "/a/main.cpp")
         (Cases.query BuildDirectory) Cases.kitless_picking)
  = fst (Cases.query BuildDirectory (Demo.loadBare Demo.folderA)) /\
  kitPrompts (snd (mapQueryCMakeTools Demo.getWorkspaceFolder
                     (FolderString "/a/main.cpp")
                     (Cases.query BuildDirectory) Cases.kitless_picking))
  = kitPrompts Cases.kitless_picking.
Proof.
  apply (@mapQueryCMakeTools_registered Demo.getWorkspaceFolder
           (FolderString "/a/main.cpp") (Cases.query BuildDirectory)
           Cases.kitless_picking Demo.folderA (Demo.loadBare Demo.folderA));
    reflexivity.
Defined.

(** X7.  A query on a folder without a session answers [null], calls
    nothing and changes no session.  The error tracker is told "Invalid
    folder." exactly when the argument names no workspace folder at all; a
    workspace folder that merely has no session is passed over in silence. *)
Theorem mapQueryCMakeTools_absent
  (gwf : option (list WorkspaceFolder) -> string -> option WorkspaceFolder)
  (folder : FolderArg) (fn : CMakeToolsMapFn) (w : World) :
  folders_get (_checkStringFolderArgs gwf folder w) w = None ->
  fst (mapQueryCMakeTools gwf folder fn w) = VNull /\
  instances (snd (mapQueryCMakeTools gwf folder fn w)) = instances w /\
  trace (snd (mapQueryCMakeTools gwf folder fn w))
  = trace w ++ match _checkStringFolderArgs gwf folder w with
               | Some _ => []
               | None => [EvRollbarError "Invalid folder."]
               end.
Proof.
  intros Habs. unfold mapQueryCMakeTools, bind, gets, log, modify, ret.
  destruct (_checkStringFolderArgs gwf folder w) as [f|].
  - rewrite Habs. simpl. rewrite app_nil_r. auto.
  - simpl. auto.
Qed.

Lemma mapQueryCMakeTools_absent_witness :
  fst (mapQueryCMakeTools Demo.getWorkspaceFolder (FolderObject Cases.folderZ)
         (Cases.query BuildDirectory) Demo.three_folders) = VNull /\
  instances (snd (mapQueryCMakeTools Demo.getWorkspaceFolder
                    (FolderObject Cases.folderZ)
                    (Cases.query BuildDirectory) Demo.three_folders))
  = instances Demo.three_folders /\
  trace (snd (mapQueryCMakeTools Demo.getWorkspaceFolder (FolderObject Cases.folderZ)
                (Cases.query BuildDirectory) Demo.three_folders))
  = trace Demo.three_folders
    ++ match _checkStringFolderArgs Demo.getWorkspaceFolder
               (FolderObject Cases.folderZ) Demo.three_folders with
       | Some _ => []
       | None => [EvRollbarError "Invalid folder."]
       end.
Proof.
  apply (@mapQueryCMakeTools_absent Demo.getWorkspaceFolder
           (FolderObject Cases.folderZ) (Cases.query BuildDirectory)
           Demo.three_folders).
  reflexivity.
Defined.

(** ** Folder commands on a folder without a session *)

(** X8.  A folder command given a folder that has no session (or no folder)
    acts on the active folder instead: the world it leaves is the one the
    dispatch on the active session leaves. *)
Theorem mapCMakeToolsFolder_falls_back_to_active
  (folder : option WorkspaceFolder) (fn : CMakeToolsMapFn) (w : World) :
  folders_get folder w = None ->
  snd (mapCMakeToolsFolder folder fn w) = snd (mapCMakeTools OnActive fn w).
Proof.
  intros Habs. unfold mapCMakeToolsFolder. rewrite snd_bind. unfold gets at 1. simpl.
  rewrite Habs, snd_bind. reflexivity.
Qed.

Lemma mapCMakeToolsFolder_falls_back_to_active_witness :
  snd (mapCMakeToolsFolder (Some Cases.folderZ) (Demo.driver (Build None))
         Demo.three_folders)
  = snd (mapCMakeTools OnActive (Demo.driver (Build None)) Demo.three_folders).
Proof.
  apply (@mapCMakeToolsFolder_falls_back_to_active (Some Cases.folderZ)
           (Demo.driver (Build None)) Demo.three_folders).
  reflexivity.
Defined.

(** ** The status bar and its listeners *)

Lemma dispose_only_listeners d w :
  exists l, dispose d w = (tt, set_listeners l w) /\ List.length l = List.length (listeners w).
Proof.
  destruct d as [|id]; simpl.
  - exists (listeners w). destruct w; split; reflexivity.
  - exists (kill id (listeners w)). split; [reflexivity|].
    generalize (listeners w). clear. intros l. revert id.
    induction l as [|s l IH]; intros [|id]; simpl; auto.
Qed.

Lemma dispose_each_only_listeners ds :
  forall w, exists l,
    dispose_each ds w = (tt, set_listeners l w) /\
    List.length l = List.length (listeners w).
Proof.
  induction ds as [|d ds IH]; intros w.
  - exists (listeners w). destruct w; split; reflexivity.
  - cbn [dispose_each]. unfold bind.
    destruct (dispose_only_listeners d w) as (l1 & -> & Hl1).
    destruct (IH (set_listeners l1 w)) as (l2 & -> & Hl2).
    exists l2. split; [reflexivity|]. simpl in Hl2. congruence.
Qed.

Lemma subscribe_each_only_listeners cmt pol ns :
  forall w, exists ds l,
    subscribe_each cmt pol ns w = (ds, set_listeners l w) /\
    List.length ds = List.length ns.
Proof.
  induction ns as [|n ns IH]; intros w.
  - exists [], (listeners w). destruct w; split; reflexivity.
  - cbn [subscribe_each]. unfold bind, subscribe.
    destruct (IH (set_listeners (listeners w ++ [mkSubscription (Some cmt) n pol true]) w))
      as (ds & l & -> & Hlen).
    exists (Listener (List.length (listeners w)) :: ds), l.
    split; [reflexivity|]. simpl. congruence.
Qed.

(** What [_setActiveFolder] leaves: the pointer is the session found for the
    folder, the status bar shows the folder's name, is visible exactly when
    a session was found, and shows that session's kit; the sessions are
    untouched and seven status listeners are held. *)
Lemma setActiveFolder_result ws w :
  let w' := snd (_setActiveFolder ws w) in
  activeFolderKey w' = folders_get ws w /\
  instances w' = instances w /\
  statusBar w'
  = mkStatusBar (match folders_get ws w with Some _ => true | None => false end)
      (match ws with Some f => name f | None => EmptyString end)
      (activeKitName (folders_get ws w) w) /\
  List.length (statusSubs w') = 7 /\
  codeModelUpdateSubs w' = codeModelUpdateSubs w /\
  workspaceState_activeFolder w' = workspaceState_activeFolder w /\
  trace w' = trace w.
Proof.
  unfold _setActiveFolder, _setupSubscriptions, _disposeSubs,
    folders_setActiveFolder, statusBar_setActiveFolderName,
    statusBar_setActiveKitName, statusBar_setVisible, bind, gets, modify,
    folders_activeFolder.
  cbn [fst snd activeFolderKey set_activeFolderKey statusSubs set_statusBar].
  match goal with
  | |- context [dispose_each ?ds ?w0] =>
      destruct (dispose_each_only_listeners ds w0) as (l & -> & _)
  end.
  cbn [activeFolderKey set_listeners set_statusBar set_activeFolderKey].
  destruct (folders_get ws w) as [cmt|] eqn:Hget.
  - match goal with
    | |- context [subscribe_each cmt FireNow statusNotifications ?w0] =>
        destruct (subscribe_each_only_listeners cmt FireNow statusNotifications w0)
          as (ds & l' & -> & Hlen)
    end.
    simpl. repeat split; auto.
  - simpl. repeat split; auto.
Qed.

(** X9.  After [_setActiveFolder], the status bar is visible exactly when
    there is an active folder; it shows the name of the folder asked for
    and the kit of the active session (nothing without one); the manager
    holds seven status listeners. *)
Theorem setActiveFolder_status_bar (ws : option WorkspaceFolder) (w : World) :
  sb_visible (statusBar (snd (_setActiveFolder ws w)))
  = (match activeFolderKey (snd (_setActiveFolder ws w)) with
     | Some _ => true
     | None => false
     end) /\
  sb_activeFolderName (statusBar (snd (_setActiveFolder ws w)))
  = (match ws with Some f => name f | None => EmptyString end) /\
  sb_activeKitName (statusBar (snd (_setActiveFolder ws w)))
  = activeKitName (activeFolderKey (snd (_setActiveFolder ws w)))
      (snd (_setActiveFolder ws w)) /\
  List.length (statusSubs (snd (_setActiveFolder ws w))) = 7.
Proof.
  destruct (setActiveFolder_result ws w) as (Ha & Hi & Hs & Hl & _).
  rewrite Hs, Ha. simpl. repeat split; auto.
  unfold activeKitName, session. rewrite Hi. reflexivity.
Qed.

(** ** The handlers of folder changes *)

(** X10.  After the handler of "added", the pointer is the session of the
    only workspace folder when the editor shows exactly one folder, and is
    what it was otherwise: the first folder opened becomes active, later
    ones do not take over. *)
Theorem onAfterAddFolder_pointer
  (driver : Method -> CMakeToolsMapFn) (info : FsPath) (w : World) :
  activeFolderKey (snd (onAfterAddFolder driver info w))
  = match workspaceFolders w with
    | Some [f] => folders_get (Some f) w
    | _ => activeFolderKey w
    end.
Proof.
  unfold onAfterAddFolder. rewrite snd_bind. unfold gets at 1. cbn [fst snd].
  rewrite snd_bind.
  match goal with
  | |- activeFolderKey (snd (?rest ?u ?w0)) = _ =>
      assert (Hkeeps : keeps (rest u)) by (cbv beta; frame);
      destruct (Hkeeps w0) as (_ & -> & _)
  end.
  destruct (workspaceFolders w) as [[|f [|g l]]|]; try reflexivity.
  apply setActiveFolder_result.
Qed.

Lemma table_delete_absent (V : Type) (k : FsPath) (t : list (FsPath * V)) :
  has_key k (table_delete k t) = false.
Proof.
  unfold has_key. induction t as [|[k' v] t IH]; simpl; [reflexivity|].
  destruct (String.eqb_spec k k') as [->|Hne]; [exact IH|].
  simpl. destruct (String.eqb_spec k k'); [congruence | exact IH].
Qed.

(** X11.  After the handler of "removed": the manager's table has no entry
    for the folder; no session is touched; and the pointer is empty when
    the editor shows no folder, is the session of the editor's first folder
    when the folder removed was the active one, and is what it was
    otherwise. *)
Theorem onAfterRemoveFolder_pointer (info : WorkspaceFolder) (w : World) :
  has_key (uri_fsPath info) (codeModelUpdateSubs (snd (onAfterRemoveFolder info w)))
  = false /\
  instances (snd (onAfterRemoveFolder info w)) = instances w /\
  activeFolderKey (snd (onAfterRemoveFolder info w))
  = match workspaceFolders w with
    | Some (f :: _) =>
        if (match activeFolderKey w with
            | Some a => String.eqb a (uri_fsPath info)
            | None => false
            end)
        then folders_get (Some f) w
        else activeFolderKey w
    | _ => None
    end.
Proof.
  unfold onAfterRemoveFolder, bind, gets, modify, log, folders_activeFolder.
  cbn [fst snd workspaceFolders set_codeModelUpdateSubs activeFolderKey].
  set (w0 := set_codeModelUpdateSubs
               (table_delete (uri_fsPath info) (codeModelUpdateSubs w)) w).
  assert (Hset : forall ws,
             let w' := snd (_setActiveFolder ws w0) in
             has_key (uri_fsPath info) (codeModelUpdateSubs w') = false /\
             instances w' = instances w /\
             activeFolderKey w' = folders_get ws w).
  { intros ws. destruct (setActiveFolder_result ws w0) as (Ha & Hi & _ & _ & Hc & _).
    cbv zeta. rewrite Ha, Hi, Hc. unfold w0. simpl.
    split; [apply table_delete_absent | auto]. }
  destruct (workspaceFolders w) as [[|f rest]|].
  - specialize (Hset None). destruct (_setActiveFolder None w0). exact Hset.
  - destruct (match activeFolderKey w with
              | Some a => String.eqb a (uri_fsPath info)
              | None => false
              end).
    + specialize (Hset (Some f)). destruct (_setActiveFolder (Some f) w0). exact Hset.
    + unfold ret, w0. simpl. split; [apply table_delete_absent | auto].
  - specialize (Hset None). destruct (_setActiveFolder None w0). exact Hset.
Qed.

(** ** Focus changes, start-up and the folder dialog *)

(** X12.  A focus change that names no folder (no editor, or a document
    outside every workspace folder) or names the folder that is already
    active changes nothing: in particular the status listeners are not set
    up anew. *)
Theorem focus_change_without_effect
  (gwf : option (list WorkspaceFolder) -> string -> option WorkspaceFolder)
  (editor : option TextEditor) (w : World) :
  match (match editor with
         | Some e => gwf (workspaceFolders w) (document_uri e)
         | None => None
         end) with
  | Some ws => activeFolderKey w = Some (uri_fsPath ws)
  | None => True
  end ->
  _onDidChangeActiveTextEditor gwf editor w = (tt, w).
Proof.
  intros H. unfold _onDidChangeActiveTextEditor, bind, gets, ret, folders_activeFolder.
  destruct (workspaceFolders w) as [l|]; [|reflexivity].
  destruct (match editor with
            | Some e => gwf (Some l) (document_uri e)
            | None => None
            end) as [ws|]; [|reflexivity].
  rewrite H, String.eqb_refl. reflexivity.
Qed.

Lemma focus_change_without_effect_witness :
  _onDidChangeActiveTextEditor Demo.getWorkspaceFolder
    (Some (mkTextEditor "/a/main.cpp")) (Demo.two_folders false)
  = (tt, Demo.two_folders false).
Proof.
  apply (@focus_change_without_effect Demo.getWorkspaceFolder
           (Some (mkTextEditor "/a/main.cpp")) (Demo.two_folders false)).
  reflexivity.
Defined.

(** X13.  At start-up, unless an editor is in focus under the auto-select
    policy, the pointer is set from the saved folder when its path still
    resolves to a workspace folder, and from the editor's first folder
    otherwise; in both cases it ends up on that folder's session, or empty
    if the folder has none. *)
Theorem initActiveFolder_restores
  (gwf : option (list WorkspaceFolder) -> string -> option WorkspaceFolder)
  (w : World) :
  activeTextEditor w = None \/ autoSelectActiveFolder w = false ->
  activeFolderKey (snd (_initActiveFolder gwf w))
  = folders_get
      (match (match workspaceState_activeFolder w with
              | Some p => if String.eqb p EmptyString then None
                          else gwf (workspaceFolders w) p
              | None => None
              end) with
       | Some f => Some f
       | None => match workspaceFolders w with
                 | Some (f :: _) => Some f
                 | _ => None
                 end
       end) w.
Proof.
  intros Hpolicy. unfold _initActiveFolder, bind, gets.
  assert (Hcond : (match activeTextEditor w with Some _ => true | None => false end)
                  && autoSelectActiveFolder w = false).
  { destruct Hpolicy as [-> | ->]; [reflexivity | apply andb_false_r]. }
  rewrite Hcond. apply setActiveFolder_result.
Qed.

Lemma initActiveFolder_restores_witness :
  activeFolderKey (snd (_initActiveFolder Demo.getWorkspaceFolder Cases.b_saved))
  = Some "/b"%string.
Proof.
  apply (@initActiveFolder_restores Demo.getWorkspaceFolder Cases.b_saved).
  left. reflexivity.
Defined.

(** When the folder dialog is dismissed, the folder selection ends
    normally and leaves the pointer, the saved folder, the status bar and
    the sessions as they were. *)
Theorem selectActiveFolder_cancelled
  (driver : Method -> CMakeToolsMapFn) (w : World) :
  hd None (folderPicks w) = None ->
  fst (selectActiveFolder driver w) = Completed /\
  activeFolderKey (snd (selectActiveFolder driver w)) = activeFolderKey w /\
  workspaceState_activeFolder (snd (selectActiveFolder driver w))
  = workspaceState_activeFolder w /\
  statusBar (snd (selectActiveFolder driver w)) = statusBar w /\
  instances (snd (selectActiveFolder driver w)) = instances w.
Proof.
  intros Hpick. unfold selectActiveFolder, bind, gets, ret, showWorkspaceFolderPick.
  destruct ((match workspaceFolders w with Some (_ :: _) => true | _ => false end)
            && negb (autoSelectActiveFolder w)); [|simpl; auto].
  destruct (folderPicks w) as [|[sel|] rest]; simpl in Hpick; try discriminate;
    simpl; auto.
Qed.

Lemma selectActiveFolder_cancelled_witness :
  fst (selectActiveFolder Demo.driver Cases.about_to_cancel) = Completed /\
  activeFolderKey (snd (selectActiveFolder Demo.driver Cases.about_to_cancel))
  = activeFolderKey Cases.about_to_cancel /\
  workspaceState_activeFolder (snd (selectActiveFolder Demo.driver Cases.about_to_cancel))
  = workspaceState_activeFolder Cases.about_to_cancel /\
  statusBar (snd (selectActiveFolder Demo.driver Cases.about_to_cancel))
  = statusBar Cases.about_to_cancel /\
  instances (snd (selectActiveFolder Demo.driver Cases.about_to_cancel))
  = instances Cases.about_to_cancel.
Proof.
  apply (@selectActiveFolder_cancelled Demo.driver Cases.about_to_cancel).
  reflexivity.
Defined.

(** X14.  When the user picks a folder for which the controller has no
    session, the folder selection empties the pointer and then fails with a
    [TypeError] on reading the active folder: nothing is saved and no
    session is configured. *)
Theorem selectActiveFolder_unregistered_pick
  (driver : Method -> CMakeToolsMapFn) (w : World)
  (sel f : WorkspaceFolder) (fs : list WorkspaceFolder)
  (rest : list (option WorkspaceFolder)) :
  autoSelectActiveFolder w = false ->
  workspaceFolders w = Some (f :: fs) ->
  folderPicks w = Some sel :: rest ->
  has_key (uri_fsPath sel) (instances w) = false ->
  fst (selectActiveFolder driver w) = TypeError /\
  activeFolderKey (snd (selectActiveFolder driver w)) = None /\
  workspaceState_activeFolder (snd (selectActiveFolder driver w))
  = workspaceState_activeFolder w /\
  invocations (trace (snd (selectActiveFolder driver w))) = invocations (trace w).
Proof.
  intros Hauto Hwsf Hpick Hk.
  destruct (selectActiveFolder driver w) as [r w'] eqn:Hrun. simpl.
  unfold selectActiveFolder, bind, gets in Hrun.
  rewrite Hwsf, Hauto in Hrun. simpl in Hrun.
  unfold showWorkspaceFolderPick in Hrun. rewrite Hpick in Hrun.
  match type of Hrun with
  | context [_setActiveFolder (Some sel) ?w0] =>
      destruct (setActiveFolder_result (Some sel) w0)
        as (Ha & _ & _ & _ & _ & Hs & Ht);
      destruct (_setActiveFolder (Some sel) w0) as [u w1]
  end.
  simpl in Ha, Hs, Ht. unfold folders_get in Ha. simpl in Ha. rewrite Hk in Ha.
  unfold folders_activeFolder in Hrun. rewrite Ha in Hrun.
  injection Hrun as <- <-.
  rewrite Ha, Hs, Ht. simpl. rewrite invocations_app. simpl.
  rewrite app_nil_r. auto.
Qed.

Lemma selectActiveFolder_unregistered_pick_witness :
  fst (selectActiveFolder Demo.driver Cases.about_to_pick_z) = TypeError /\
  activeFolderKey (snd (selectActiveFolder Demo.driver Cases.about_to_pick_z)) = None /\
  workspaceState_activeFolder (snd (selectActiveFolder Demo.driver Cases.about_to_pick_z))
  = workspaceState_activeFolder Cases.about_to_pick_z /\
  invocations (trace (snd (selectActiveFolder Demo.driver Cases.about_to_pick_z)))
  = invocations (trace Cases.about_to_pick_z).
Proof.
  apply (@selectActiveFolder_unregistered_pick Demo.driver Cases.about_to_pick_z
           Cases.folderZ Demo.folderA [Demo.folderB] []);
    reflexivity.
Defined.

(** ** Releasing listeners *)

Lemma kill_length id l : List.length (kill id l) = List.length l.
Proof.
  revert id. induction l as [|s l IH]; intros [|id]; simpl; auto.
Qed.

Lemma kill_nth_same id l :
  nth_error (kill id l) id
  = option_map (fun s => mkSubscription (sub_source s) (sub_what s) (sub_policy s) false)
      (nth_error l id).
Proof.
  revert id. induction l as [|s l IH]; intros [|id]; simpl; auto.
Qed.

Lemma kill_nth_other id j l : id <> j -> nth_error (kill id l) j = nth_error l j.
Proof.
  revert id j. induction l as [|s l IH]; intros [|id] [|j] Hne; simpl; auto.
  congruence.
Qed.

Lemma dispose_dead d w : is_live d (snd (dispose d w)) = false.
Proof.
  destruct d as [|id]; simpl; [reflexivity|].
  rewrite kill_nth_same. destruct (nth_error (listeners w) id); reflexivity.
Qed.

Lemma dispose_never_revives d w : never_revives w (snd (dispose d w)).
Proof.
  intros d'. destruct d as [|id]; simpl; [auto|].
  destruct d' as [|j]; simpl; [auto|].
  destruct (Nat.eq_dec id j) as [->|Hne].
  - rewrite kill_nth_same. destruct (nth_error (listeners w) j); simpl; congruence.
  - rewrite kill_nth_other by exact Hne. auto.
Qed.

Lemma never_revives_trans w1 w2 w3 :
  never_revives w1 w2 -> never_revives w2 w3 -> never_revives w1 w3.
Proof. unfold never_revives. auto. Qed.

Lemma dispose_each_never_revives ds :
  forall w, never_revives w (snd (dispose_each ds w)).
Proof.
  induction ds as [|d ds IH]; intros w; [intros d' H; exact H|].
  cbn [dispose_each]. rewrite snd_bind.
  eapply never_revives_trans; [apply dispose_never_revives | apply IH].
Qed.

Lemma dispose_each_dead ds :
  forall w d, In d ds -> is_live d (snd (dispose_each ds w)) = false.
Proof.
  induction ds as [|d0 ds IH]; intros w d Hin; [destruct Hin|].
  cbn [dispose_each]. rewrite snd_bind.
  destruct Hin as [-> | Hin]; [|apply IH; exact Hin].
  destruct (is_live d (snd (dispose_each ds (snd (dispose d w))))) eqn:Hl; [|reflexivity].
  apply dispose_each_never_revives in Hl. rewrite dispose_dead in Hl. discriminate.
Qed.

Lemma is_live_set_listeners_irrelevant d l w (f : World -> World) :
  listeners (f (set_listeners l w)) = l ->
  is_live d (f (set_listeners l w)) = is_live d (set_listeners l w).
Proof. intros H. destruct d; simpl; [reflexivity|]. rewrite H. reflexivity. Qed.

Lemma dispose_sessions_listeners fs :
  forall w, listeners (snd (dispose_sessions fs w)) = listeners w.
Proof.
  induction fs as [|f fs IH]; intros w; [reflexivity|].
  cbn [dispose_sessions]. rewrite snd_bind, IH. reflexivity.
Qed.

(** X15.  After [asyncDispose], no disposable the manager holds stands for
    a live listener: the status listeners, the listeners of every entry of
    the code-model table and the focus listener are all released. *)
Theorem asyncDispose_releases_tracked (w : World) (d : Disposable) :
  In d (tracked w) ->
  is_live d (snd (asyncDispose w)) = false.
Proof.
  intros Hin. unfold asyncDispose, _disposeSubs.
  rewrite !snd_bind. unfold gets. cbn [fst snd].
  set (w1 := snd (dispose_each (statusSubs w) w)).
  assert (H1 : never_revives w w1) by apply dispose_each_never_revives.
  assert (Hfields : codeModelUpdateSubs w1 = codeModelUpdateSubs w /\
                    onDidChangeActiveTextEditorSub w1 = onDidChangeActiveTextEditorSub w).
  { unfold w1. destruct (dispose_each_only_listeners (statusSubs w) w) as (l & -> & _).
    split; reflexivity. }
  destruct Hfields as [Htable Heditor]. rewrite Htable.
  set (w2 := snd (dispose_each (List.concat (map snd (codeModelUpdateSubs w))) w1)).
  assert (H2 : never_revives w1 w2) by apply dispose_each_never_revives.
  assert (Heditor2 : onDidChangeActiveTextEditorSub w2 = onDidChangeActiveTextEditorSub w).
  { unfold w2.
    destruct (dispose_each_only_listeners
                (List.concat (map snd (codeModelUpdateSubs w))) w1) as (l & -> & _).
    simpl. exact Heditor. }
  rewrite Heditor2.
  set (w3 := snd (dispose (onDidChangeActiveTextEditorSub w) w2)).
  assert (H3 : never_revives w2 w3) by apply dispose_never_revives.
  assert (Hlive : is_live d w3 = false).
  { destruct (is_live d w3) eqn:Hl; [|reflexivity].
    unfold tracked in Hin. apply in_app_or in Hin as [Hin | Hin].
    - apply H3, H2 in Hl. unfold w1 in Hl.
      rewrite (dispose_each_dead (statusSubs w) w d Hin) in Hl. discriminate.
    - apply in_app_or in Hin as [Hin | [<- | []]].
      + apply H3 in Hl. unfold w2 in Hl.
        rewrite (dispose_each_dead _ w1 d Hin) in Hl. discriminate.
      + unfold w3 in Hl. rewrite dispose_dead in Hl. discriminate. }
  destruct d as [|id]; [reflexivity|].
  unfold is_live in *. rewrite dispose_sessions_listeners. exact Hlive.
Qed.

Lemma asyncDispose_releases_tracked_witness :
  is_live (Listener 11) (Demo.two_folders false) = true /\
  is_live (Listener 11) (snd (asyncDispose (Demo.two_folders false))) = false.
Proof.
  split; [reflexivity|].
  apply (@asyncDispose_releases_tracked (Demo.two_folders false) (Listener 11)).
  vm_compute. do 10 right. left. reflexivity.
Defined.

(** ** Renewing the status listeners *)

Lemma set_listeners_same w : set_listeners (listeners w) w = w.
Proof. destruct w; reflexivity. Qed.

Lemma dispose_each_kill_each ds :
  forall w, dispose_each ds w = (tt, set_listeners (kill_each ds (listeners w)) w).
Proof.
  induction ds as [|d ds IH]; intros w.
  - simpl. unfold ret. rewrite set_listeners_same. reflexivity.
  - cbn [dispose_each]. unfold bind. destruct d as [|id]; simpl.
    + apply IH.
    + unfold modify. rewrite IH. reflexivity.
Qed.

Lemma kill_each_length ds : forall l, List.length (kill_each ds l) = List.length l.
Proof.
  induction ds as [|[|id] ds IH]; intros l; simpl; auto.
  rewrite IH. apply kill_length.
Qed.

Lemma subscribe_each_appends cmt pol ns :
  forall w,
    subscribe_each cmt pol ns w
    = (map Listener (seq (List.length (listeners w)) (List.length ns)),
       set_listeners
         (listeners w ++ map (fun n => mkSubscription (Some cmt) n pol true) ns) w).
Proof.
  induction ns as [|n ns IH]; intros w.
  - simpl. unfold ret. rewrite app_nil_r, set_listeners_same. reflexivity.
  - cbn [subscribe_each]. unfold bind, subscribe. rewrite IH. unfold ret. simpl.
    rewrite length_app. simpl. rewrite Nat.add_1_r, <- app_assoc. reflexivity.
Qed.

(** The listeners and the status handles [_setActiveFolder] leaves when it
    finds a session for the folder. *)
Lemma setActiveFolder_listeners ws w cmt :
  folders_get ws w = Some cmt ->
  listeners (snd (_setActiveFolder ws w))
  = kill_each (statusSubs w) (listeners w)
    ++ map (fun n => mkSubscription (Some cmt) n FireNow true) statusNotifications /\
  statusSubs (snd (_setActiveFolder ws w))
  = map Listener (seq (List.length (listeners w)) 7).
Proof.
  intros Hget.
  unfold _setActiveFolder, _setupSubscriptions, _disposeSubs,
    folders_setActiveFolder, statusBar_setActiveFolderName,
    statusBar_setActiveKitName, statusBar_setVisible, bind, gets, modify,
    folders_activeFolder.
  cbn [fst snd activeFolderKey set_activeFolderKey statusSubs set_statusBar].
  rewrite dispose_each_kill_each.
  cbn [activeFolderKey set_listeners set_statusBar set_activeFolderKey].
  rewrite Hget. rewrite subscribe_each_appends. simpl.
  rewrite kill_each_length. auto.
Qed.

(** X16.  When [_setActiveFolder] finds a session for the folder, every
    status listener held before is released, and the seven status listeners
    held afterwards are live listeners on the new active session. *)
Theorem setActiveFolder_renews_status_listeners
  (ws : option WorkspaceFolder) (w : World) (cmt : FsPath) :
  folders_get ws w = Some cmt ->
  Forall (fun d => handle_valid d w) (statusSubs w) ->
  Forall (fun d => is_live d (snd (_setActiveFolder ws w)) = false) (statusSubs w) /\
  Forall (status_listener_on cmt (snd (_setActiveFolder ws w)))
    (statusSubs (snd (_setActiveFolder ws w))).
Proof.
  intros Hget Hvalid.
  destruct (setActiveFolder_listeners ws w Hget) as [Hl Hs].
  split.
  - rewrite Forall_forall in *. intros d Hin.
    specialize (Hvalid d Hin). destruct d as [|id]; [reflexivity|].
    simpl in Hvalid. unfold is_live. rewrite Hl.
    rewrite nth_error_app1 by (rewrite kill_each_length; exact Hvalid).
    pose proof (dispose_each_dead (statusSubs w) w (Listener id) Hin) as Hdead.
    rewrite dispose_each_kill_each in Hdead. exact Hdead.
  - rewrite Hs. apply Forall_forall. intros d Hin.
    apply in_map_iff in Hin as (id & <- & Hid). apply in_seq in Hid.
    simpl. rewrite Hl.
    rewrite nth_error_app2 by (rewrite kill_each_length; lia).
    rewrite kill_each_length.
    remember (id - List.length (listeners w))%nat as i eqn:Hi.
    assert (Hlt : (i < 7)%nat) by lia.
    do 7 (destruct i as [|i]; [eexists; simpl; split; [reflexivity|auto]|]).
    lia.
Qed.

Lemma setActiveFolder_renews_status_listeners_witness :
  Forall (fun d => is_live d (snd (_setActiveFolder (Some Demo.folderB)
                                     (Demo.two_folders false))) = false)
    (statusSubs (Demo.two_folders false)) /\
  Forall (status_listener_on "/b"%string
            (snd (_setActiveFolder (Some Demo.folderB) (Demo.two_folders false))))
    (statusSubs (snd (_setActiveFolder (Some Demo.folderB) (Demo.two_folders false)))).
Proof.
  apply (@setActiveFolder_renews_status_listeners (Some Demo.folderB)
           (Demo.two_folders false) "/b"%string).
  - reflexivity.
  - vm_compute. repeat constructor.
Defined.

(** ** The code-model table follows the registry *)

Lemma same_tables_refl w : same_tables w w.
Proof. split; reflexivity. Qed.

Lemma same_tables_trans w1 w2 w3 :
  same_tables w1 w2 -> same_tables w2 w3 -> same_tables w1 w3.
Proof. intros [a b] [c d]. split; congruence. Qed.

Create HintDb steady.

Ltac steady_leaf :=
  solve [ auto with steady
        | intros ?w; cbv [same_tables modify log snd]; simpl; auto ].

Ltac steady_step :=
  match goal with
  | |- relates same_tables (bind _ _) =>
      apply (relates_bind same_tables_trans); [ | intros ? ]
  | |- relates same_tables (ret _) => apply (relates_ret same_tables_refl)
  | |- relates same_tables (gets _) => apply (relates_gets same_tables_refl)
  | |- _ (if ?b then _ else _) => destruct b
  | |- _ (match ?x with _ => _ end) => destruct x
  end.

Ltac steady := repeat steady_step; try steady_leaf.

Lemma steady_log e : relates same_tables (log e).
Proof. steady. Qed.

Lemma steady_dispose_each ds : relates same_tables (dispose_each ds).
Proof. intros w. rewrite dispose_each_kill_each. split; reflexivity. Qed.

Lemma steady_subscribe_each cmt pol ns : relates same_tables (subscribe_each cmt pol ns).
Proof. intros w. rewrite subscribe_each_appends. split; reflexivity. Qed.

Lemma steady_subscribe src what pol : relates same_tables (subscribe src what pol).
Proof. intros w. split; reflexivity. Qed.

Lemma steady_dispose d : relates same_tables (dispose d).
Proof. unfold dispose. steady. Qed.

Lemma steady_statusBar_setVisible b : relates same_tables (statusBar_setVisible b).
Proof. unfold statusBar_setVisible. steady. Qed.

Lemma steady_statusBar_setActiveFolderName s :
  relates same_tables (statusBar_setActiveFolderName s).
Proof. unfold statusBar_setActiveFolderName. steady. Qed.

Lemma steady_statusBar_setActiveKitName s :
  relates same_tables (statusBar_setActiveKitName s).
Proof. unfold statusBar_setActiveKitName. steady. Qed.

Lemma steady_showWorkspaceFolderPick : relates same_tables showWorkspaceFolderPick.
Proof.
  intros w. unfold showWorkspaceFolderPick. destruct (folderPicks w); split; reflexivity.
Qed.

Lemma steady_showConfigurePrompt cmt : relates same_tables (showConfigurePrompt cmt).
Proof.
  intros w. unfold showConfigurePrompt. destruct (configurePicks w); split; reflexivity.
Qed.

Lemma fold_set_kit_same_tables l w :
  same_tables w (fold_left (fun acc e => set_kit (fst e) (snd e) acc) l w).
Proof.
  revert w. induction l as [|e l IH]; intros w; simpl.
  - apply same_tables_refl.
  - eapply same_tables_trans; [|apply IH].
    unfold same_tables, set_kit. simpl. rewrite keys_update_session. auto.
Qed.

Lemma steady_kitsController_selectKit cmt :
  relates same_tables (kitsController_selectKit cmt).
Proof.
  intros w. unfold kitsController_selectKit.
  destruct (kitPrompts w) as [|p rest]; [split; reflexivity|].
  assert (Hfold : same_tables w
            (fold_left (fun acc e => set_kit (fst e) (snd e) acc) (kp_meanwhile p)
               (set_trace (trace w ++ [EvKitPick cmt]) (set_kitPrompts rest w)))).
  { eapply same_tables_trans; [|apply fold_set_kit_same_tables]. split; reflexivity. }
  destruct (kp_choice p); simpl; [|exact Hfold].
  eapply same_tables_trans; [exact Hfold|].
  unfold same_tables, set_kit. simpl. rewrite keys_update_session. auto.
Qed.

Lemma steady_call fn cmt : relates same_tables (call fn cmt).
Proof.
  intros w. unfold call. destruct (session cmt w); [|split; reflexivity].
  destruct (fn c). unfold same_tables. simpl. rewrite keys_update_session. auto.
Qed.

#[local] Hint Resolve steady_log steady_dispose_each steady_subscribe_each
  steady_subscribe steady_dispose steady_statusBar_setVisible
  steady_statusBar_setActiveFolderName steady_statusBar_setActiveKitName
  steady_showWorkspaceFolderPick steady_showConfigurePrompt
  steady_kitsController_selectKit steady_call : steady.

Lemma steady_selectKit folder : relates same_tables (selectKit folder).
Proof. unfold selectKit. steady. Qed.

#[local] Hint Resolve steady_selectKit : steady.

Lemma steady_ensureActiveKit cmt : relates same_tables (_ensureActiveKit cmt).
Proof. unfold _ensureActiveKit. steady. Qed.

Lemma steady_setupSubscriptions : relates same_tables _setupSubscriptions.
Proof. unfold _setupSubscriptions, _disposeSubs. steady. Qed.

Lemma steady_updateCodeModel f : relates same_tables (_updateCodeModel f).
Proof. unfold _updateCodeModel. steady. Qed.

#[local] Hint Resolve steady_ensureActiveKit steady_setupSubscriptions
  steady_updateCodeModel : steady.

Lemma steady_setActiveFolder ws : relates same_tables (_setActiveFolder ws).
Proof. unfold _setActiveFolder, folders_setActiveFolder. steady. Qed.

Lemma steady_postWorkspaceOpen driver info :
  relates same_tables (_postWorkspaceOpen driver info).
Proof. unfold _postWorkspaceOpen. steady. Qed.

#[local] Hint Resolve steady_setActiveFolder steady_postWorkspaceOpen : steady.

Lemma steady_onDidChangeActiveTextEditor gwf editor :
  relates same_tables (_onDidChangeActiveTextEditor gwf editor).
Proof. unfold _onDidChangeActiveTextEditor. steady. Qed.

Lemma steady_selectActiveFolder driver : relates same_tables (selectActiveFolder driver).
Proof. unfold selectActiveFolder. steady. Qed.

Lemma steady_mapCMakeTools_all fn fs : relates same_tables (mapCMakeTools_all fn fs).
Proof. induction fs; cbn [mapCMakeTools_all]; steady. Qed.

#[local] Hint Resolve steady_onDidChangeActiveTextEditor steady_selectActiveFolder
  steady_mapCMakeTools_all : steady.

Lemma steady_mapCMakeTools t fn : relates same_tables (mapCMakeTools t fn).
Proof. unfold mapCMakeTools. steady. Qed.

#[local] Hint Resolve steady_mapCMakeTools : steady.

Lemma steady_mapCMakeToolsFolder folder fn :
  relates same_tables (mapCMakeToolsFolder folder fn).
Proof. unfold mapCMakeToolsFolder. steady. Qed.

Lemma steady_deliver_focus gwf editor : relates same_tables (deliver_focus gwf editor).
Proof. unfold deliver_focus. steady. Qed.

Lemma steady_initActiveFolder gwf : relates same_tables (_initActiveFolder gwf).
Proof. unfold _initActiveFolder. steady. Qed.

#[local] Hint Resolve steady_mapCMakeToolsFolder steady_deliver_focus
  steady_initActiveFolder : steady.

Lemma has_key_keys (V : Type) (k : FsPath) (t : list (FsPath * V)) :
  has_key k t = existsb (String.eqb k) (keys t).
Proof.
  unfold has_key. induction t as [|[k' v] t IH]; simpl; [reflexivity|].
  destruct (String.eqb k k'); [reflexivity | exact IH].
Qed.

Lemma has_key_table_set (V : Type) (k x : FsPath) (v : V) (t : list (FsPath * V)) :
  has_key k (table_set x v t) = String.eqb k x || has_key k t.
Proof.
  rewrite !has_key_keys. induction t as [|[k' v'] t IH]; simpl.
  - reflexivity.
  - destruct (String.eqb_spec x k') as [->|Hne]; simpl.
    + destruct (String.eqb k k'); reflexivity.
    + rewrite IH. destruct (String.eqb k x), (String.eqb k k'); reflexivity.
Qed.

Lemma has_key_table_delete (V : Type) (k x : FsPath) (t : list (FsPath * V)) :
  has_key k (table_delete x t) = negb (String.eqb k x) && has_key k t.
Proof.
  rewrite !has_key_keys. induction t as [|[k' v'] t IH]; simpl.
  - apply eq_sym, andb_false_r.
  - destruct (String.eqb_spec x k') as [->|Hne]; simpl.
    + rewrite IH. destruct (String.eqb k k'); reflexivity.
    + rewrite IH. destruct (String.eqb_spec k x) as [->|Hkx]; simpl; [|reflexivity].
      destruct (String.eqb_spec x k'); [congruence | reflexivity].
Qed.

Lemma has_key_app_one (V : Type) (k x : FsPath) (v : V) (t : list (FsPath * V)) :
  has_key k (t ++ [(x, v)]) = String.eqb k x || has_key k t.
Proof.
  rewrite !has_key_keys, keys_app, existsb_app. simpl.
  rewrite orb_false_r. apply orb_comm.
Qed.

Lemma same_tables_has_key w w' k :
  same_tables w w' ->
  has_key k (instances w') = has_key k (instances w) /\
  has_key k (codeModelUpdateSubs w') = has_key k (codeModelUpdateSubs w).
Proof. intros [Hk Hs]. rewrite !has_key_keys, Hk, Hs. auto. Qed.

Lemma same_tables_agree w w' : same_tables w w' -> tables_agree w -> tables_agree w'.
Proof.
  intros Hsame Hagree k.
  destruct (@same_tables_has_key w w' k Hsame) as [-> ->]. apply Hagree.
Qed.

(** The handler of "added" leaves the registry alone and makes sure the
    table has an entry for the folder. *)
Lemma onAfterAddFolder_tables driver info w :
  keys (instances (snd (onAfterAddFolder driver info w))) = keys (instances w) /\
  forall k, has_key k (codeModelUpdateSubs (snd (onAfterAddFolder driver info w)))
            = String.eqb k info || has_key k (codeModelUpdateSubs w).
Proof.
  unfold onAfterAddFolder. rewrite !snd_bind. unfold gets. cbn [fst snd].
  match goal with
  | |- context [log (EvOutlineAddFolder info) (snd (?m w))] => set (w1 := snd (m w))
  end.
  assert (H1 : same_tables w w1).
  { unfold w1. destruct (workspaceFolders w) as [[|f [|g l]]|];
      try apply same_tables_refl. apply steady_setActiveFolder. }
  set (w2 := snd (log (EvOutlineAddFolder info) w1)).
  assert (H2 : same_tables w w2)
    by (eapply same_tables_trans; [exact H1 | apply steady_log]).
  clearbody w2. clear H1. clear w1.
  match goal with
  | |- context [_postWorkspaceOpen driver info ?w0] => set (w3 := w0)
  end.
  assert (H3 : keys (instances w3) = keys (instances w) /\
               forall k, has_key k (codeModelUpdateSubs w3)
                         = String.eqb k info || has_key k (codeModelUpdateSubs w)).
  { destruct H2 as [Hk2 Hs2]. unfold w3.
    destruct (has_key info (codeModelUpdateSubs w2)) eqn:Hknown.
    - unfold ret. cbn [snd]. rewrite Hk2, Hs2. split; [reflexivity|].
      intros k. rewrite Hs2 in Hknown.
      destruct (String.eqb_spec k info) as [->|Hne]; [rewrite Hknown|]; reflexivity.
    - rewrite snd_bind. unfold modify. cbn [snd].
      rewrite subscribe_each_appends. cbn [fst snd]. simpl.
      rewrite Hk2, Hs2. split; [reflexivity|].
      intros k. apply has_key_table_set. }
  destruct (steady_postWorkspaceOpen driver info w3) as [Hk Hs]. rewrite Hk, Hs.
  exact H3.
Qed.

Lemma folders_add_agree driver ws fresh w :
  tables_agree w ->
  tables_agree (snd (folders_add (onAfterAddFolder driver) ws fresh w)).
Proof.
  intros Hagree. unfold folders_add. rewrite snd_bind. unfold gets at 1. cbn [fst snd].
  destruct (has_key (uri_fsPath ws) (instances w)) eqn:Hpresent; [exact Hagree|].
  rewrite !snd_bind. unfold modify, ret. cbn [fst snd].
  match goal with
  | |- tables_agree (snd (onAfterAddFolder driver ?i ?w0)) =>
      destruct (onAfterAddFolder_tables driver i w0) as [Hk Hs]
  end.
  intros k. rewrite Hs. rewrite (has_key_keys k (instances _)), Hk.
  rewrite <- has_key_keys. simpl. rewrite has_key_app_one, Hagree. reflexivity.
Qed.

(** The handler of "removed" leaves the registry alone and drops the
    folder's entry from the table. *)
Lemma onAfterRemoveFolder_tables info w :
  keys (instances (snd (onAfterRemoveFolder info w))) = keys (instances w) /\
  codeModelUpdateSubs (snd (onAfterRemoveFolder info w))
  = table_delete (uri_fsPath info) (codeModelUpdateSubs w).
Proof.
  unfold onAfterRemoveFolder, bind, gets, modify, log, folders_activeFolder.
  cbn [fst snd workspaceFolders set_codeModelUpdateSubs activeFolderKey].
  set (w0 := set_codeModelUpdateSubs
               (table_delete (uri_fsPath info) (codeModelUpdateSubs w)) w).
  assert (Hset : forall ws,
             let w' := snd (_setActiveFolder ws w0) in
             keys (instances w') = keys (instances w) /\
             codeModelUpdateSubs w'
             = table_delete (uri_fsPath info) (codeModelUpdateSubs w)).
  { intros ws. destruct (steady_setActiveFolder ws w0) as [Hk Hs].
    cbv zeta. rewrite Hk, Hs. unfold w0. simpl. auto. }
  destruct (workspaceFolders w) as [[|f rest]|].
  - specialize (Hset None). destruct (_setActiveFolder None w0). exact Hset.
  - destruct (match activeFolderKey w with
              | Some a => String.eqb a (uri_fsPath info)
              | None => false
              end).
    + specialize (Hset (Some f)). destruct (_setActiveFolder (Some f) w0). exact Hset.
    + unfold ret, w0. simpl. auto.
  - specialize (Hset None). destruct (_setActiveFolder None w0). exact Hset.
Qed.

Lemma folders_remove_agree ws w :
  tables_agree w ->
  tables_agree (snd (folders_remove onAfterRemoveFolder ws w)).
Proof.
  intros Hagree. unfold folders_remove. rewrite snd_bind. unfold gets at 1. cbn [fst snd].
  destruct (has_key (uri_fsPath ws) (instances w)) eqn:Hpresent; [|exact Hagree].
  rewrite !snd_bind. unfold modify, log. cbn [fst snd].
  match goal with
  | |- tables_agree (snd (onAfterRemoveFolder ws ?w0)) =>
      destruct (onAfterRemoveFolder_tables ws w0) as [Hk Hs]
  end.
  intros k. rewrite Hs. rewrite (has_key_keys k (instances _)), Hk.
  rewrite <- has_key_keys. simpl. rewrite !has_key_table_delete, Hagree. reflexivity.
Qed.

Lemma remove_each_agree fs :
  forall w, tables_agree w -> tables_agree (snd (remove_each fs w)).
Proof.
  induction fs as [|f rest IH]; intros w Hagree; [exact Hagree|].
  cbn [remove_each]. rewrite snd_bind. apply IH, folders_remove_agree, Hagree.
Qed.

Lemma add_each_agree driver load fs :
  forall w, tables_agree w -> tables_agree (snd (add_each driver load fs w)).
Proof.
  induction fs as [|f rest IH]; intros w Hagree; [exact Hagree|].
  cbn [add_each]. rewrite snd_bind. apply IH, folders_add_agree, Hagree.
Qed.

Lemma step_agree driver load gwf a w :
  tables_agree w -> tables_agree (snd (step driver load gwf a w)).
Proof.
  intros Hagree. destruct a as [now removed added|editor| |m|folder m]; cbn [step].
  - rewrite !snd_bind. unfold modify. cbn [fst snd].
    apply add_each_agree, remove_each_agree. exact Hagree.
  - eapply same_tables_agree; [apply steady_deliver_focus | exact Hagree].
  - eapply same_tables_agree; [|exact Hagree].
    apply (relates_bind same_tables_trans); [steady | intros; steady].
  - eapply same_tables_agree; [|exact Hagree].
    apply (relates_bind same_tables_trans); [steady | intros; steady].
  - eapply same_tables_agree; [|exact Hagree].
    apply (relates_bind same_tables_trans); [steady | intros; steady].
Qed.

Lemma init_folders_tables driver fs :
  forall w,
    keys (instances (snd (_init_folders driver fs w))) = keys (instances w) /\
    forall k, has_key k (codeModelUpdateSubs (snd (_init_folders driver fs w)))
              = existsb (String.eqb k) fs || has_key k (codeModelUpdateSubs w).
Proof.
  induction fs as [|f rest IH]; intros w; [split; reflexivity|].
  cbn [_init_folders]. rewrite !snd_bind. unfold modify. cbn [fst snd].
  rewrite subscribe_each_appends. cbn [fst snd].
  match goal with
  | |- context [_init_folders driver rest (snd (_postWorkspaceOpen driver f ?w0))] =>
      destruct (steady_postWorkspaceOpen driver f w0) as [Hk Hs];
      destruct (IH (snd (_postWorkspaceOpen driver f w0))) as [Hk' Hs']
  end.
  rewrite Hk', Hk. split; [reflexivity|].
  intros k. rewrite Hs', Hs. simpl. rewrite has_key_table_set.
  destruct (String.eqb k f), (existsb (String.eqb k) rest); reflexivity.
Qed.

Lemma loadAllCurrent_table load fs :
  forall w, codeModelUpdateSubs (snd (loadAllCurrent load fs w)) = codeModelUpdateSubs w.
Proof.
  induction fs as [|f rest IH]; intros w; [reflexivity|].
  cbn [loadAllCurrent]. rewrite snd_bind, IH. unfold modify. simpl.
  destruct (has_key (uri_fsPath f) (instances w)); reflexivity.
Qed.

Lemma create_agree driver load gwf wsf editor saved autoSelect testing picks kits cfgs :
  tables_agree
    (create driver load gwf wsf editor saved autoSelect testing picks kits cfgs).
Proof.
  unfold create, _init. rewrite snd_bind. unfold gets at 1.
  cbn [fst snd new_ExtensionManager workspaceFolders].
  destruct wsf as [current|]; [|intros k; reflexivity].
  rewrite !snd_bind. unfold gets, modify. cbn [fst snd].
  match goal with
  | |- tables_agree (snd (_init_folders driver (folders_iterate ?w1) ?w1')) =>
      destruct (init_folders_tables driver (folders_iterate w1) w1') as [Hk Hs];
      assert (Hempty : codeModelUpdateSubs w1 = [])
  end.
  { match goal with
    | |- codeModelUpdateSubs (snd (_initActiveFolder gwf ?w2)) = _ =>
        destruct (steady_initActiveFolder gwf w2) as [_ ->]
    end.
    simpl. apply loadAllCurrent_table. }
  intros k. rewrite Hs, Hempty. rewrite (has_key_keys k (instances _)), Hk.
  unfold folders_iterate. simpl. apply orb_false_r.
Qed.

(** X17.  From start-up on, after every action, the manager's code-model
    table has an entry for exactly the folders that have a session: it gains
    the entry when the folder is added and loses it when the folder is
    removed, and nothing else touches it. *)
Theorem code_model_table_follows_registry
  driver load gwf wsf editor saved autoSelect testing picks kits cfgs
  (actions : list Action) :
  tables_agree
    (run driver load gwf actions
       (create driver load gwf wsf editor saved autoSelect testing picks kits cfgs)).
Proof.
  generalize (create_agree driver load gwf wsf editor saved autoSelect
                testing picks kits cfgs).
  generalize (create driver load gwf wsf editor saved autoSelect testing picks kits cfgs).
  induction actions as [|a rest IH]; intros w Hagree; [exact Hagree|].
  cbn [run]. apply IH. apply step_agree. exact Hagree.
Qed.

(** ** After a folder is opened *)

(** X18.  [_postWorkspaceOpen] does not configure, shows no kit dialog and
    touches no session, unless [configureOnOpen] is set for the folder, or
    it is unset and the user, asked outside of test mode, answers yes. *)
Theorem postWorkspaceOpen_without_configure
  (driver : Method -> CMakeToolsMapFn) (info : FsPath) (w : World) (c : CMakeTools) :
  session info w = Some c ->
  configureOnOpen c <> Some true ->
  (configureOnOpen c = None -> CMT_TESTING w = false ->
   hd None (configurePicks w) <> Some true) ->
  invocations (trace (snd (_postWorkspaceOpen driver info w))) = invocations (trace w) /\
  instances (snd (_postWorkspaceOpen driver info w)) = instances w /\
  kitPrompts (snd (_postWorkspaceOpen driver info w)) = kitPrompts w.
Proof.
  intros Hsess Hnot Hask.
  unfold _postWorkspaceOpen, bind, gets, ret, showConfigurePrompt, _updateCodeModel,
    log, modify.
  rewrite Hsess.
  destruct (configureOnOpen c) as [[|]|] eqn:Hcfg; [congruence| |].
  - simpl. rewrite invocations_app. simpl. rewrite app_nil_r. auto.
  - destruct (CMT_TESTING w) eqn:Ht.
    + simpl. rewrite invocations_app. simpl. rewrite app_nil_r. auto.
    + specialize (Hask eq_refl eq_refl).
      destruct (configurePicks w) as [|[[|]|] rest]; simpl in Hask; try congruence;
        simpl; rewrite ?invocations_app; simpl; rewrite ?app_nil_r; auto.
Qed.

Lemma postWorkspaceOpen_without_configure_witness :
  invocations (trace (snd (_postWorkspaceOpen Demo.driver "/a"%string Demo.one_folder)))
  = invocations (trace Demo.one_folder) /\
  instances (snd (_postWorkspaceOpen Demo.driver "/a"%string Demo.one_folder))
  = instances Demo.one_folder /\
  kitPrompts (snd (_postWorkspaceOpen Demo.driver "/a"%string Demo.one_folder))
  = kitPrompts Demo.one_folder.
Proof.
  apply (@postWorkspaceOpen_without_configure Demo.driver "/a"%string Demo.one_folder
           (Demo.loadSession Demo.folderA)).
  - reflexivity.
  - discriminate.
  - discriminate.
Defined.

(** X19.  When [configureOnOpen] is set for the folder and its session has a
    kit, [_postWorkspaceOpen] calls [configure] on the session once and then
    refreshes the outline of the folder, whatever [configure] returned. *)
Theorem postWorkspaceOpen_configures
  (driver : Method -> CMakeToolsMapFn) (info : FsPath) (w : World) (c : CMakeTools) :
  session info w = Some c ->
  configureOnOpen c = Some true ->
  activeKit c <> None ->
  trace (snd (_postWorkspaceOpen driver info w))
  = trace w ++ [EvInvoke info (fst (driver Configure c)); EvOutlineUpdate info] /\
  session info (snd (_postWorkspaceOpen driver info w)) = Some (snd (driver Configure c)).
Proof.
  intros Hsess Hcfg Hkit.
  pose proof (@hasActiveKit_session info w c Hsess Hkit) as Hhas.
  unfold _postWorkspaceOpen, bind, gets, ret, _updateCodeModel, log, modify.
  rewrite Hsess, Hcfg. destruct (CMT_TESTING w);
    rewrite (@ensureActiveKit_with_kit info w Hhas); unfold call; rewrite Hsess;
    destruct (driver Configure c) as [r c']; cbn [fst snd trace set_trace];
    rewrite <- app_assoc; (split; [reflexivity|]);
    match goal with
    | |- session info (set_trace _ (set_trace _ ?w0)) = _ =>
        change (session info w0 = Some c')
    end;
    rewrite session_update_session_same, Hsess; reflexivity.
Qed.

Lemma postWorkspaceOpen_configures_witness :
  trace (snd (_postWorkspaceOpen Demo.driver "/a"%string Cases.eager_folder))
  = trace Cases.eager_folder
    ++ [EvInvoke "/a"%string
          (fst (Demo.driver Configure (Cases.loadEager Demo.folderA)));
        EvOutlineUpdate "/a"%string] /\
  session "/a"%string (snd (_postWorkspaceOpen Demo.driver "/a"%string Cases.eager_folder))
  = Some (snd (Demo.driver Configure (Cases.loadEager Demo.folderA))).
Proof.
  apply (@postWorkspaceOpen_configures Demo.driver "/a"%string Cases.eager_folder
           (Cases.loadEager Demo.folderA)).
  - reflexivity.
  - reflexivity.
  - discriminate.
Defined.

(** ** Kits set for several folders *)

Lemma set_instances_same w : set_instances (instances w) w = w.
Proof. destruct w; reflexivity. Qed.

Lemma lookup_update_each (f : CMakeTools -> CMakeTools) (fs : list FsPath) :
  NoDup fs ->
  forall t k,
    lookup k (fold_left (fun acc x => update_session x f acc) fs t)
    = if existsb (String.eqb k) fs
      then option_map (fun cf => mkCMakeToolsFolder (folder cf) (f (cmakeTools cf)))
             (lookup k t)
      else lookup k t.
Proof.
  induction 1 as [|x fs Hnot Hnd IH]; intros t k; [reflexivity|].
  simpl. rewrite IH.
  destruct (String.eqb_spec k x) as [->|Hne]; simpl.
  - assert (Hex : existsb (String.eqb x) fs = false).
    { apply not_true_is_false. intros Hex. apply existsb_exists in Hex as (y & Hy & Heq).
      apply String.eqb_eq in Heq. subst y. contradiction. }
    rewrite Hex. apply lookup_update_session_same.
  - rewrite lookup_update_session_other by exact Hne. reflexivity.
Qed.

Lemma setKitByName_each_fold kbn kitName fs :
  forall w,
    setKitByName_each kbn kitName fs w
    = (tt, set_instances
             (fold_left (fun acc x => update_session x (kbn kitName) acc) fs (instances w))
             w).
Proof.
  induction fs as [|f fs IH]; intros w.
  - simpl. unfold ret. rewrite set_instances_same. reflexivity.
  - cbn [setKitByName_each]. unfold bind, setKitByName_on, modify. rewrite IH.
    reflexivity.
Qed.

Lemma existsb_keys_session k w :
  existsb (String.eqb k) (keys (instances w)) = false -> session k w = None.
Proof.
  rewrite <- has_key_keys. unfold has_key, session.
  destruct (lookup k (instances w)); [discriminate | reflexivity].
Qed.

(** X20.  [setKitByName] with a folder asks the kit controller of that
    folder only, and without a folder that of every folder ("for backward
    compatibility"): the sessions concerned are changed as their controller
    says, the others are left alone, and afterwards the status bar shows the
    kit of the active folder if it has one. *)
Theorem setKitByName_sessions
  (kbn : string -> CMakeTools -> CMakeTools) (kitName : string)
  (target : option WorkspaceFolder) (w : World) :
  NoDup (keys (instances w)) ->
  (forall k,
     session k (snd (setKitByName kbn kitName target w))
     = if (match target with
           | Some f => String.eqb k (uri_fsPath f)
           | None => true
           end)
       then option_map (kbn kitName) (session k w)
       else session k w) /\
  (forall a,
     activeFolderKey w = Some a ->
     hasActiveKit a (snd (setKitByName kbn kitName target w)) = true ->
     sb_activeKitName (statusBar (snd (setKitByName kbn kitName target w)))
     = activeKitName (Some a) (snd (setKitByName kbn kitName target w))).
Proof.
  intros Hnd. unfold setKitByName. rewrite snd_bind.
  set (m := match target with
            | Some _ =>
                cmt <- gets (folders_get target);;
                match cmt with
                | Some c => setKitByName_on kbn kitName c
                | None => ret tt
                end
            | None => fs <- gets folders_iterate;; setKitByName_each kbn kitName fs
            end).
  assert (Hm : exists t, snd (m w) = set_instances t w /\
               forall k, lookup k t
                 = if (match target with
                       | Some f => String.eqb k (uri_fsPath f)
                       | None => true
                       end)
                   then option_map (fun cf => mkCMakeToolsFolder (folder cf)
                                                (kbn kitName (cmakeTools cf)))
                          (lookup k (instances w))
                   else lookup k (instances w)).
  { unfold m. destruct target as [f|].
    - unfold bind, gets, folders_get.
      destruct (has_key (uri_fsPath f) (instances w)) eqn:Hk.
      + eexists. split; [reflexivity|]. intros k.
        destruct (String.eqb_spec k (uri_fsPath f)) as [->|Hne].
        * apply lookup_update_session_same.
        * apply lookup_update_session_other. exact Hne.
      + exists (instances w). split; [unfold ret; simpl; symmetry; apply set_instances_same|].
        intros k. destruct (String.eqb_spec k (uri_fsPath f)) as [->|Hne]; [|reflexivity].
        unfold has_key in Hk. destruct (lookup (uri_fsPath f) (instances w));
          [discriminate | reflexivity].
    - unfold bind, gets. rewrite setKitByName_each_fold.
      eexists. split; [reflexivity|]. intros k. unfold folders_iterate.
      rewrite (lookup_update_each (kbn kitName) Hnd).
      destruct (existsb (String.eqb k) (keys (instances w))) eqn:Hex; [reflexivity|].
      rewrite <- has_key_keys in Hex. unfold has_key in Hex.
      destruct (lookup k (instances w)); [discriminate | reflexivity]. }
  destruct Hm as (t & Hw1 & Ht). rewrite Hw1. clearbody m.
  assert (Hsess : forall k w', instances w' = t ->
            session k w'
            = if (match target with
                  | Some f => String.eqb k (uri_fsPath f)
                  | None => true
                  end)
              then option_map (kbn kitName) (session k w)
              else session k w).
  { intros k w' Hi. unfold session. rewrite Hi, Ht.
    destruct (match target with Some f => String.eqb k (uri_fsPath f) | None => true end);
      [|reflexivity].
    destruct (lookup k (instances w)); reflexivity. }
  unfold bind, gets, folders_activeFolder, statusBar_setActiveKitName, modify, ret.
  cbn [fst snd activeFolderKey set_instances].
  destruct (activeFolderKey w) as [a|] eqn:Ha.
  - destruct (hasActiveKit a (set_instances t w)) eqn:Hhas; cbn [snd].
    + split; [intros k; apply Hsess; reflexivity|].
      intros a' Ha' _. injection Ha' as <-. reflexivity.
    + split; [intros k; apply Hsess; reflexivity|].
      intros a' Ha' Hhas'. injection Ha' as <-. congruence.
  - split; [intros k; apply Hsess; reflexivity | discriminate].
Qed.

Lemma setKitByName_sessions_witness :
  (forall k,
     session k (snd (setKitByName Cases.kitByName "clang" None Cases.kitless_picking))
     = if true then option_map (Cases.kitByName "clang") (session k Cases.kitless_picking)
       else session k Cases.kitless_picking) /\
  (forall a,
     activeFolderKey Cases.kitless_picking = Some a ->
     hasActiveKit a (snd (setKitByName Cases.kitByName "clang" None Cases.kitless_picking))
     = true ->
     sb_activeKitName
       (statusBar (snd (setKitByName Cases.kitByName "clang" None Cases.kitless_picking)))
     = activeKitName (Some a)
         (snd (setKitByName Cases.kitByName "clang" None Cases.kitless_picking))).
Proof.
  apply (@setKitByName_sessions Cases.kitByName "clang" None Cases.kitless_picking).
  simpl. repeat constructor; simpl; intuition discriminate.
Defined.

(** ** Kits of an old definition *)

Lemma scanForKits_each_fold vs fs :
  forall w,
    scanForKits_each vs fs w
    = (tt, set_instances
             (fold_left (fun acc x => update_session x (unset_old_kit vs) acc) fs
                (instances w)) w).
Proof.
  induction fs as [|f fs IH]; intros w.
  - simpl. unfold ret. rewrite set_instances_same. reflexivity.
  - cbn [scanForKits_each]. unfold bind, modify. rewrite IH. reflexivity.
Qed.

Lemma scanForKits_session vs w k :
  NoDup (keys (instances w)) ->
  session k (snd (scanForKits vs true w)) = option_map (unset_old_kit vs) (session k w).
Proof.
  intros Hnd. unfold scanForKits, bind, gets. rewrite scanForKits_each_fold.
  unfold session, folders_iterate. simpl.
  rewrite (lookup_update_each (unset_old_kit vs) Hnd).
  destruct (existsb (String.eqb k) (keys (instances w))) eqn:Hex.
  - destruct (lookup k (instances w)); reflexivity.
  - rewrite <- has_key_keys in Hex. unfold has_key in Hex.
    destruct (lookup k (instances w)); [discriminate | reflexivity].
Qed.

(** X21.  When the scan of the kit catalog reports that duplicates were
    removed, [scanForKits] leaves no session with a kit of an old Visual
    Studio definition (15 or 16): such a session has its kit unset, and a
    session with any other kit, or none, is as it was.  When no duplicate
    was removed, nothing changes. *)
Theorem scanForKits_unsets_old_kits
  (vs : Kit -> option string) (w : World) (k : FsPath) (c : CMakeTools) :
  NoDup (keys (instances w)) ->
  session k w = Some c ->
  (match activeKit c with
   | Some kit =>
       if old_definition vs kit
       then option_map activeKit (session k (snd (scanForKits vs true w))) = Some None
       else session k (snd (scanForKits vs true w)) = Some c
   | None => session k (snd (scanForKits vs true w)) = Some c
   end) /\
  (forall c' kit,
     session k (snd (scanForKits vs true w)) = Some c' ->
     activeKit c' = Some kit -> old_definition vs kit = false) /\
  scanForKits vs false w = (tt, w).
Proof.
  intros Hnd Hsess.
  rewrite (@scanForKits_session vs w k Hnd), Hsess. simpl.
  unfold unset_old_kit.
  destruct (activeKit c) as [kit|] eqn:Hkit.
  - destruct (old_definition vs kit) eqn:Hold.
    + split; [reflexivity|]. split; [|reflexivity].
      intros c' kit' Hc'. injection Hc' as <-. simpl. discriminate.
    + split; [reflexivity|]. split; [|reflexivity].
      intros c' kit' Hc' Hk'. injection Hc' as <-. congruence.
  - split; [reflexivity|]. split; [|reflexivity].
    intros c' kit' Hc' Hk'. injection Hc' as <-. congruence.
Qed.

Lemma scanForKits_unsets_old_kits_witness :
  option_map activeKit
    (session "/a"%string (snd (scanForKits Cases.visualStudio true Cases.vs_folders)))
  = Some None /\
  (forall c' kit,
     session "/a"%string (snd (scanForKits Cases.visualStudio true Cases.vs_folders))
     = Some c' ->
     activeKit c' = Some kit -> old_definition Cases.visualStudio kit = false) /\
  scanForKits Cases.visualStudio false Cases.vs_folders = (tt, Cases.vs_folders).
Proof.
  apply (@scanForKits_unsets_old_kits Cases.visualStudio Cases.vs_folders "/a"%string
           (with_kit (Some Cases.vs2017) (Demo.loadSession Demo.folderA))).
  - simpl. repeat constructor; simpl; intuition discriminate.
  - reflexivity.
Defined.

(** ** MinGW search directories *)

Lemma set_add_In d x s : In d (set_add x s) <-> d = x \/ In d s.
Proof.
  unfold set_add. destruct (existsb (String.eqb x) s) eqn:Hex.
  - split; [auto|]. intros [->|H]; [|exact H].
    apply existsb_exists in Hex as (y & Hy & Heq).
    apply String.eqb_eq in Heq. subst y. exact Hy.
  - rewrite in_app_iff. simpl. intuition.
Qed.

Lemma NoDup_snoc (x : string) (s : list string) :
  NoDup s -> ~ In x s -> NoDup (s ++ [x]).
Proof.
  induction 1 as [|y s Hy Hnd IH]; intros Hnot; simpl.
  - constructor; [intros [] | constructor].
  - constructor.
    + rewrite in_app_iff. simpl. intros [H|[H|[]]]; [contradiction|].
      apply Hnot. left. congruence.
    + apply IH. intros H. apply Hnot. right. exact H.
Qed.

Lemma set_add_NoDup x s : NoDup s -> NoDup (set_add x s).
Proof.
  intros Hnd. unfold set_add. destruct (existsb (String.eqb x) s) eqn:Hex; [exact Hnd|].
  apply NoDup_snoc; [exact Hnd|]. intros Hin.
  assert (existsb (String.eqb x) s = true)
    by (apply existsb_exists; exists x; split; [exact Hin | apply String.eqb_refl]).
  congruence.
Qed.

Lemma set_add_all_In ds :
  forall s d, In d (set_add_all ds s) <-> In d ds \/ In d s.
Proof.
  induction ds as [|x ds IH]; intros s d; simpl; [tauto|].
  unfold set_add_all in *. simpl. rewrite IH, set_add_In. intuition.
Qed.

Lemma set_add_all_NoDup ds : forall s, NoDup s -> NoDup (set_add_all ds s).
Proof.
  induction ds as [|x ds IH]; intros s Hnd; [exact Hnd|].
  unfold set_add_all in *. simpl. apply IH, set_add_NoDup, Hnd.
Qed.

Lemma getMinGWDirs_fold (dirs : CMakeTools -> list string)
  (t : list (FsPath * CMakeToolsFolder)) :
  forall s,
    NoDup s ->
    NoDup (fold_left (fun result e => set_add_all (dirs (cmakeTools (snd e))) result) t s) /\
    forall d,
      In d (fold_left (fun result e => set_add_all (dirs (cmakeTools (snd e))) result) t s)
      <-> In d s \/ exists e, In e t /\ In d (dirs (cmakeTools (snd e))).
Proof.
  induction t as [|e t IH]; intros s Hnd; simpl.
  - split; [exact Hnd|]. intros d. split; [auto|]. intros [H|(e & [] & _)]. exact H.
  - destruct (IH (set_add_all (dirs (cmakeTools (snd e))) s)
                (set_add_all_NoDup _ Hnd)) as [Hn Hi].
    split; [exact Hn|]. intros d. rewrite Hi, set_add_all_In.
    split.
    + intros [[H|H]|(e' & He' & Hd)]; eauto.
    + intros [H|(e' & [<-|He'] & Hd)]; eauto.
Qed.

(** X22.  [_getMinGWDirs] gives every search directory of the workspace
    settings and of the folders' settings, each of them once. *)
Theorem getMinGWDirs_is_the_union
  (workspaceDirs : list string) (dirs : CMakeTools -> list string) (w : World) :
  NoDup (_getMinGWDirs workspaceDirs dirs w) /\
  forall d,
    In d (_getMinGWDirs workspaceDirs dirs w)
    <-> In d workspaceDirs
        \/ exists e, In e (instances w) /\ In d (dirs (cmakeTools (snd e))).
Proof.
  unfold _getMinGWDirs.
  destruct (@getMinGWDirs_fold dirs (instances w) (set_add_all workspaceDirs []))
    as [Hn Hi].
  { apply set_add_all_NoDup. constructor. }
  split; [exact Hn|]. intros d. rewrite Hi, set_add_all_In. simpl. tauto.
Qed.

Example getMinGWDirs_two_folders :
  _getMinGWDirs ["/opt/mingw"; "/mingw"]%string Cases.mingwSearchDirs
    (Demo.two_folders false)
  = ["/opt/mingw"; "/mingw"; "gcc"; "broken"]%string.
Proof. vm_compute. reflexivity. Qed.

(** ** Compiling one file *)

Lemma kitPrompts_world_after fn visits :
  forall w,
    visits_from unprepared fn visits w ->
    kitPrompts (world_after fn visits w) = kitPrompts w.
Proof.
  induction visits as [|v rest IH]; intros w Hv; simpl; [reflexivity|].
  destruct Hv as (Hw & _ & Hrest). rewrite (IH _ Hrest).
  unfold after_visit. simpl. rewrite Hw. reflexivity.
Qed.

(** The loop of [compileFile], call by call, from any point of the
    registry. *)
Lemma compileFile_loop_visits tcf file fs :
  forall w out w',
    incl fs (keys (instances w)) ->
    compileFile_loop tcf file fs w = (out, w') ->
    exists visits,
      visits_from unprepared (tcf file) visits w /\
      map v_cmt visits = firstn (List.length visits) fs /\
      w' = world_after (tcf file) visits w /\
      Forall falsy_call (removelast (map (visit_call (tcf file)) visits)) /\
      match out with
      | CompileTerminal term =>
          truthy term = true /\
          exists earlier v,
            visits = earlier ++ [v] /\ term = fst (tcf file (v_session v))
      | CompileNotFound message =>
          message = "Unable to find compilation information for this file"%string /\
          List.length visits = List.length fs /\
          Forall falsy_call (map (visit_call (tcf file)) visits)
      | CompileNull => False
      end.
Proof.
  induction fs as [|f rest IH]; intros w out w' Hincl Hrun.
  - injection Hrun as <- <-. exists []. simpl.
    split; [exact I|]. split; [reflexivity|]. split; [reflexivity|].
    split; [constructor|]. split; [reflexivity|]. split; [reflexivity | constructor].
  - cbn [compileFile_loop] in Hrun. unfold bind in Hrun.
    assert (Hin : In f (keys (instances w))) by (apply Hincl; left; reflexivity).
    destruct (lookup_In_keys _ _ Hin) as [cf Hcf].
    assert (Hs : session f w = Some (cmakeTools cf))
      by (unfold session; rewrite Hcf; reflexivity).
    rewrite (call_visit (tcf file) f w Hs) in Hrun.
    set (v := mkVisit f w (cmakeTools cf)) in *.
    assert (Hfrom : v_world v = unprepared (v_cmt v) w /\
                    session (v_cmt v) (v_world v) = Some (v_session v))
      by (split; [reflexivity | exact Hs]).
    assert (Hcall : visit_call (tcf file) v = (f, fst (tcf file (cmakeTools cf))))
      by reflexivity.
    destruct (truthy (fst (tcf file (cmakeTools cf)))) eqn:Htruthy.
    + injection Hrun as <- <-. exists [v].
      split; [exact (conj (proj1 Hfrom) (conj (proj2 Hfrom) I))|].
      split; [reflexivity|]. split; [reflexivity|]. split; [constructor|].
      split; [exact Htruthy|]. exists (@nil Visit), v. split; reflexivity.
    + destruct (IH (after_visit (tcf file) v) out w')
        as (visits & Hvs & Hpre & Hw & Hfalsy & Hout).
      { intros x Hx. unfold after_visit. simpl. rewrite keys_update_session.
        apply Hincl. right. exact Hx. }
      { exact Hrun. }
      exists (v :: visits). split; [|split; [|split; [|split]]].
      * exact (conj (proj1 Hfrom) (conj (proj2 Hfrom) Hvs)).
      * simpl. rewrite Hpre. reflexivity.
      * exact Hw.
      * destruct visits as [|v' visits]; [constructor|].
        change (removelast (map (visit_call (tcf file)) (v :: v' :: visits)))
          with (visit_call (tcf file) v
                :: removelast (map (visit_call (tcf file)) (v' :: visits))).
        constructor; [exact Htruthy | exact Hfalsy].
      * destruct out as [t| |m].
        -- destruct Hout as (Ht & earlier & u & -> & Hu). split; [exact Ht|].
           exists (v :: earlier), u. split; [reflexivity | exact Hu].
        -- exact Hout.
        -- destruct Hout as (Hm & Hlen & Hall). split; [exact Hm|].
           split; [simpl; congruence|]. constructor; [exact Htruthy | exact Hall].
Qed.

(** X23.  [compileFile] looks up the file it was given or, given none (or
    the empty path), the document of the editor in focus; with neither it
    answers [null] and nothing happens.  Otherwise it asks the sessions in
    registry order for that file, one call right after the other: no kit
    check stands between two calls, no kit dialog is shown, and a session is
    asked whether or not it has a kit.  What each call logs is what
    [tryCompileFile] resolved to for that file on the session it found.  It
    stops at the first session that answers with a terminal: that terminal
    is the result and no later session is asked.  When every session was
    asked in vain it shows the error message and falls off its end; it never
    answers [null] when it has a file. *)
Theorem compileFile_first_terminal
  (tcf : string -> CMakeToolsMapFn) (file : option string) (w : World) :
  match file_to_compile file w with
  | None => compileFile tcf file w = (CompileNull, w)
  | Some f =>
      exists visits,
        visits_from unprepared (tcf f) visits w /\
        map v_cmt visits = firstn (List.length visits) (folders_iterate w) /\
        snd (compileFile tcf file w) = world_after (tcf f) visits w /\
        invocations (trace (snd (compileFile tcf file w)))
        = invocations (trace w) ++ map (visit_call (tcf f)) visits /\
        kitPrompts (snd (compileFile tcf file w)) = kitPrompts w /\
        Forall falsy_call (removelast (map (visit_call (tcf f)) visits)) /\
        match fst (compileFile tcf file w) with
        | CompileTerminal term =>
            truthy term = true /\
            exists earlier v,
              visits = earlier ++ [v] /\ term = fst (tcf f (v_session v))
        | CompileNotFound message =>
            message = "Unable to find compilation information for this file"%string /\
            List.length visits = List.length (folders_iterate w) /\
            Forall falsy_call (map (visit_call (tcf f)) visits)
        | CompileNull => False
        end
  end.
Proof.
  assert (Hloop : forall f,
            compileFile tcf file w = compileFile_loop tcf f (folders_iterate w) w ->
            exists visits,
              visits_from unprepared (tcf f) visits w /\
              map v_cmt visits = firstn (List.length visits) (folders_iterate w) /\
              snd (compileFile tcf file w) = world_after (tcf f) visits w /\
              invocations (trace (snd (compileFile tcf file w)))
              = invocations (trace w) ++ map (visit_call (tcf f)) visits /\
              kitPrompts (snd (compileFile tcf file w)) = kitPrompts w /\
              Forall falsy_call (removelast (map (visit_call (tcf f)) visits)) /\
              match fst (compileFile tcf file w) with
              | CompileTerminal term =>
                  truthy term = true /\
                  exists earlier v,
                    visits = earlier ++ [v] /\ term = fst (tcf f (v_session v))
              | CompileNotFound message =>
                  message
                  = "Unable to find compilation information for this file"%string /\
                  List.length visits = List.length (folders_iterate w) /\
                  Forall falsy_call (map (visit_call (tcf f)) visits)
              | CompileNull => False
              end).
  { intros f ->.
    destruct (compileFile_loop tcf f (folders_iterate w) w) as [out w'] eqn:Hrun.
    destruct (@compileFile_loop_visits tcf f (folders_iterate w) w out w'
                (incl_refl _) Hrun) as (visits & Hfrom & Hpre & Hw & Hfalsy & Hout).
    exists visits. simpl. subst w'.
    split; [exact Hfrom|]. split; [exact Hpre|]. split; [reflexivity|].
    split; [apply invocations_world_after with (prepare := unprepared);
            [reflexivity | exact Hfrom]|].
    split; [apply kitPrompts_world_after; exact Hfrom|].
    split; [exact Hfalsy | exact Hout]. }
  unfold file_to_compile.
  destruct file as [f|].
  - destruct (String.eqb f EmptyString) eqn:Hf.
    + destruct (activeTextEditor w) as [e|] eqn:He; simpl.
      * apply Hloop. unfold compileFile, bind, gets. simpl. rewrite Hf, He. reflexivity.
      * unfold compileFile, bind, gets. simpl. rewrite Hf, He. reflexivity.
    + apply Hloop. unfold compileFile, bind, gets. simpl. rewrite Hf. reflexivity.
  - destruct (activeTextEditor w) as [e|] eqn:He; simpl.
    + apply Hloop. unfold compileFile, bind, gets. simpl. rewrite He. reflexivity.
    + unfold compileFile, bind, gets. simpl. rewrite He. reflexivity.
Qed.

Example compileFile_three_folders :
  fst (compileFile Cases.tryCompileFile (Some "/c/main.cpp"%string)
         (Demo.started Demo.loadSession false [Demo.folderB; Demo.folderA; Demo.folderC]))
  = CompileTerminal (VObj 3) /\
  invocations (trace (snd (compileFile Cases.tryCompileFile (Some "/c/main.cpp"%string)
         (Demo.started Demo.loadSession false [Demo.folderB; Demo.folderA; Demo.folderC]))))
  = [("/b"%string, VNull); ("/a"%string, VObj 3)].
Proof. vm_compute. split; reflexivity. Qed.

(** A folder without a kit is asked all the same, and no kit dialog is
    shown. *)
Example compileFile_kitless_folder :
  compileFile Cases.tryCompileFile (Some "/a/main.cpp"%string) Demo.kitless_declining
  = (CompileNotFound "Unable to find compilation information for this file"%string,
     snd (compileFile Cases.tryCompileFile (Some "/a/main.cpp"%string)
            Demo.kitless_declining)) /\
  invocations (trace (snd (compileFile Cases.tryCompileFile (Some "/a/main.cpp"%string)
                             Demo.kitless_declining)))
  = [("/a"%string, VNull)] /\
  kitPrompts (snd (compileFile Cases.tryCompileFile (Some "/a/main.cpp"%string)
                     Demo.kitless_declining))
  = kitPrompts Demo.kitless_declining.
Proof. vm_compute. repeat split. Qed.

(** Neither a file nor an editor: [null], whatever folders are open. *)
Example compileFile_nothing_to_compile :
  compileFile Cases.tryCompileFile None Demo.three_folders
  = (CompileNull, Demo.three_folders).
Proof. vm_compute. reflexivity. Qed.

(** * Telemetry *)

Lemma logEvents_sent es :
  forall s r,
    Telemetry.telemetryReporter s = Some r ->
    Telemetry.sent_events (Telemetry.logEvents es s) = Telemetry.sent r ++ es /\
    option_map Telemetry.disposed (Telemetry.telemetryReporter (Telemetry.logEvents es s))
    = Some (Telemetry.disposed r).
Proof.
  induction es as [|e es IH]; intros s r Hr.
  - simpl. unfold Telemetry.sent_events. rewrite Hr, app_nil_r. auto.
  - unfold Telemetry.logEvents in *. simpl.
    unfold Telemetry.logEvent at 2 4. rewrite Hr.
    edestruct IH as [-> ->]; [reflexivity|]. simpl.
    rewrite <- app_assoc. auto.
Qed.

(** X24.  Once [activate] has read the package description, every event
    logged is handed to the reporter, in the order logged; as long as there
    is no reporter (before [activate], or after an [activate] that failed to
    read the package description), logging does nothing at all. *)
Theorem logEvent_forwards_in_order
  (p : Telemetry.PackageJSON) (s : Telemetry.State) (n : nat)
  (es : list Telemetry.TelemetryEvent) :
  Telemetry.sent_events (Telemetry.logEvents es (Telemetry.activate (Some p) s)) = es /\
  Telemetry.logEvents es (Telemetry.activate None (Telemetry.mkState None n))
  = Telemetry.mkState None n.
Proof.
  split.
  - edestruct (@logEvents_sent es (Telemetry.activate (Some p) s)) as [-> _];
      [reflexivity|reflexivity].
  - simpl. induction es as [|e es IH]; [reflexivity|exact IH].
Qed.

(** X25.  [deactivate] disposes of the reporter without forgetting it: an
    event logged after [deactivate] is still handed to the reporter, which
    is disposed. *)
Theorem logEvent_after_deactivate
  (p : Telemetry.PackageJSON) (s : Telemetry.State)
  (es es' : list Telemetry.TelemetryEvent) :
  Telemetry.sent_events
    (Telemetry.logEvents es'
       (Telemetry.deactivate (Telemetry.logEvents es (Telemetry.activate (Some p) s))))
  = es ++ es' /\
  option_map Telemetry.disposed
    (Telemetry.telemetryReporter
       (Telemetry.logEvents es'
          (Telemetry.deactivate (Telemetry.logEvents es (Telemetry.activate (Some p) s)))))
  = Some true.
Proof.
  destruct (@logEvents_sent es (Telemetry.activate (Some p) s) _ eq_refl) as [Hsent _].
  simpl in Hsent.
  destruct (Telemetry.telemetryReporter
              (Telemetry.logEvents es (Telemetry.activate (Some p) s))) as [r|] eqn:Hr.
  - unfold Telemetry.sent_events in Hsent. rewrite Hr in Hsent.
    edestruct (@logEvents_sent es'
                 (Telemetry.deactivate
                    (Telemetry.logEvents es (Telemetry.activate (Some p) s))))
      as [-> ->].
    + unfold Telemetry.deactivate. rewrite Hr. reflexivity.
    + simpl. rewrite Hsent. auto.
  - exfalso.
    assert (Hsome : option_map Telemetry.disposed
                      (Telemetry.telemetryReporter
                         (Telemetry.logEvents es (Telemetry.activate (Some p) s)))
                    = Some false)
      by (edestruct (@logEvents_sent es (Telemetry.activate (Some p) s)) as [_ ->];
          reflexivity).
    rewrite Hr in Hsome. discriminate.
Qed.

(** * The smoke-test runner *)

(** X26.  A step of the smoke test ends normally exactly when the item is
    in order: a configure or build item when the exit code is zero if and
    only if the item says [ok]; a kit item always; an item of unknown type
    never. *)
Theorem runOne_done_iff_expected
  (privSetKit : option string -> CMakeTools -> CMakeTools)
  (cmt_configure cmt_build : CMakeTools -> Z * CMakeTools)
  (run : Smoke.TestRunSpecItem) (cmt : CMakeTools) :
  fst (Smoke.runOne privSetKit cmt_configure cmt_build run cmt) = Smoke.Done
  <-> Smoke.as_expected cmt_configure cmt_build run cmt.
Proof.
  destruct run as [kit|ok|ok|type]; simpl.
  - tauto.
  - unfold Smoke.doConfigure. destruct (cmt_configure cmt) as [res c']. simpl.
    destruct (Z.eqb_spec res 0) as [->|Hne]; destruct ok; simpl;
      intuition (try discriminate; try congruence).
  - unfold Smoke.doBuild. destruct (cmt_build cmt) as [res c']. simpl.
    destruct (Z.eqb_spec res 0) as [->|Hne]; destruct ok; simpl;
      intuition (try discriminate; try congruence).
  - split; [discriminate | tauto].
Qed.

(** A step ends normally exactly when its item is in order. *)
Lemma runOne_done
  (privSetKit : option string -> CMakeTools -> CMakeTools)
  (cmt_configure cmt_build : CMakeTools -> Z * CMakeTools)
  (run : Smoke.TestRunSpecItem) (cmt : CMakeTools) :
  fst (Smoke.runOne privSetKit cmt_configure cmt_build run cmt) = Smoke.Done
  <-> Smoke.as_expected cmt_configure cmt_build run cmt.
Proof.
  destruct run as [kit|ok|ok|type]; simpl.
  - tauto.
  - unfold Smoke.doConfigure. destruct (cmt_configure cmt) as [res c']. simpl.
    destruct (Z.eqb_spec res 0) as [->|Hne]; destruct ok; simpl;
      intuition (try discriminate; try congruence).
  - unfold Smoke.doBuild. destruct (cmt_build cmt) as [res c']. simpl.
    destruct (Z.eqb_spec res 0) as [->|Hne]; destruct ok; simpl;
      intuition (try discriminate; try congruence).
  - split; [discriminate | tauto].
Qed.

(** Running a specification followed by another is running the first and,
    only if it ended normally, the second from where the first left the
    extension. *)
Lemma asyncRun_app
  (privSetKit : option string -> CMakeTools -> CMakeTools)
  (cmt_configure cmt_build : CMakeTools -> Z * CMakeTools)
  (spec1 spec2 : list Smoke.TestRunSpecItem) (cmt : CMakeTools) :
  Smoke.asyncRun privSetKit cmt_configure cmt_build (spec1 ++ spec2) cmt
  = match Smoke.asyncRun privSetKit cmt_configure cmt_build spec1 cmt with
    | (Smoke.Done, cmt') =>
        Smoke.asyncRun privSetKit cmt_configure cmt_build spec2 cmt'
    | (Smoke.Threw e, cmt') => (Smoke.Threw e, cmt')
    end.
Proof.
  revert cmt. induction spec1 as [|run rest IH]; intros cmt; [reflexivity|].
  simpl.
  destruct (Smoke.runOne privSetKit cmt_configure cmt_build run cmt) as [[|e] cmt'];
    [apply IH | reflexivity].
Qed.

(** X27.  The smoke test runs its items in order, each step ([runOne]) on
    the extension as the step before left it, and stops at the first step
    that throws.  As long as every item is in order the run ends normally,
    with the extension as the last step left it.  The first item that is not
    in order ends the run: the run throws what that step throws and leaves
    the extension as that step left it, whatever items come behind. *)
Theorem asyncRun_stops_at_first_failure
  (privSetKit : option string -> CMakeTools -> CMakeTools)
  (cmt_configure cmt_build : CMakeTools -> Z * CMakeTools)
  (pre : list Smoke.TestRunSpecItem) (cmt : CMakeTools) :
  Smoke.all_as_expected privSetKit cmt_configure cmt_build pre cmt ->
  Smoke.asyncRun privSetKit cmt_configure cmt_build pre cmt
  = (Smoke.Done, Smoke.state_after privSetKit cmt_configure cmt_build pre cmt) /\
  forall run post,
    ~ Smoke.as_expected cmt_configure cmt_build run
        (Smoke.state_after privSetKit cmt_configure cmt_build pre cmt) ->
    Smoke.asyncRun privSetKit cmt_configure cmt_build (pre ++ run :: post) cmt
    = Smoke.runOne privSetKit cmt_configure cmt_build run
        (Smoke.state_after privSetKit cmt_configure cmt_build pre cmt) /\
    exists e,
      fst (Smoke.runOne privSetKit cmt_configure cmt_build run
             (Smoke.state_after privSetKit cmt_configure cmt_build pre cmt))
      = Smoke.Threw e.
Proof.
  revert cmt. induction pre as [|item rest IH]; intros cmt Hall.
  - simpl. split; [reflexivity|]. intros run post Hno.
    pose proof (runOne_done privSetKit cmt_configure cmt_build run cmt) as Hiff.
    destruct (Smoke.runOne privSetKit cmt_configure cmt_build run cmt)
      as [[|e] c'] eqn:Hrun; simpl in Hiff.
    + exfalso. apply Hno, Hiff. reflexivity.
    + split; [reflexivity|]. exists e. reflexivity.
  - destruct Hall as [Hitem Hrest]. specialize (IH _ Hrest).
    apply (runOne_done privSetKit cmt_configure cmt_build) in Hitem.
    simpl.
    destruct (Smoke.runOne privSetKit cmt_configure cmt_build item cmt)
      as [[|e] c']; simpl in *; [exact IH | discriminate].
Qed.

Lemma asyncRun_stops_at_first_failure_witness :
  Smoke.all_as_expected Cases.privSetKit Cases.cmt_configure Cases.cmt_build
    [Smoke.RunSetKit (Some "gcc"%string); Smoke.RunConfigure true]
    (Demo.loadBare Demo.folderA) /\
  Smoke.asyncRun Cases.privSetKit Cases.cmt_configure Cases.cmt_build
    ([Smoke.RunSetKit (Some "gcc"%string); Smoke.RunConfigure true]
     ++ Smoke.RunBuild false :: [Smoke.RunSetKit None; Smoke.RunBuild true])
    (Demo.loadBare Demo.folderA)
  = (Smoke.Threw "Expected CMake build to fail, but it did succeeded"%string,
     with_kit (Some Demo.gcc) (Demo.loadBare Demo.folderA)).
Proof.
  assert (Hall : Smoke.all_as_expected Cases.privSetKit Cases.cmt_configure
                   Cases.cmt_build
                   [Smoke.RunSetKit (Some "gcc"%string); Smoke.RunConfigure true]
                   (Demo.loadBare Demo.folderA)).
  { simpl. split; [exact I|]. split; [|exact I]. split; intros _; reflexivity. }
  split; [exact Hall|].
  destruct (asyncRun_stops_at_first_failure Cases.privSetKit Cases.cmt_configure
              Cases.cmt_build _ _ Hall) as [_ Hstop].
  destruct (Hstop (Smoke.RunBuild false) [Smoke.RunSetKit None; Smoke.RunBuild true])
    as [Heq _].
  { simpl. intros [_ Hback]. discriminate (Hback eq_refl). }
  rewrite Heq. reflexivity.
Defined.
